(** * vividtweaks: payment reconciliation, refunds and the money codec

    A shallow embedding of the storefront service ([src/index.js] and the
    entitlement revision of the same service) and the proofs of its
    specified properties.

    - [Money]: [amountToMinorUnits], [minorToDisplay], [enabledPlans].
    - [Mongo]: the document-store primitives the handlers call.
    - [Shop]: the webhook and refund handlers of [src/index.js].
    - [Ent]: the handlers of the entitlement revision. *)

From Stdlib Require Import ZArith NArith List String Ascii Lia Bool.
From Stdlib.Floats Require SpecFloat.
From stdpp Require Import base option list strings gmap.

Local Open Scope N_scope.

(** ** JavaScript strings and numbers, as far as the money codec needs them *)

Module Js.

(** A JavaScript string is a sequence of UTF-16 code units. *)
Definition jsstring := list N.

(** An ASCII literal as a JavaScript string. *)
Definition lit (s : string) : jsstring :=
  List.map N_of_ascii (list_ascii_of_string s).

Definition DOT : N := 46.
Definition ZERO : N := 48.

(** [WhiteSpace] and [LineTerminator] code points, the characters that
    [String.prototype.trim] strips. *)
Definition is_white (c : N) : bool :=
  (c =? 9) || (c =? 10) || (c =? 11) || (c =? 12) || (c =? 13) || (c =? 32)
  || (c =? 160) || (c =? 5760) || ((8192 <=? c) && (c <=? 8202))
  || (c =? 8232) || (c =? 8233) || (c =? 8239) || (c =? 8287)
  || (c =? 12288) || (c =? 65279).

Fixpoint trimStart (s : jsstring) : jsstring :=
  match s with
  | c :: r => if is_white c then trimStart r else s
  | [] => []
  end.

Definition trimEnd (s : jsstring) : jsstring := rev (trimStart (rev s)).

Definition trim (s : jsstring) : jsstring := trimEnd (trimStart s).

(** [\d] without the [u] flag: the ten ASCII digits. *)
Definition is_digit (c : N) : bool := (48 <=? c) && (c <=? 57).

Fixpoint take_digits (s : jsstring) : jsstring :=
  match s with
  | c :: r => if is_digit c then c :: take_digits r else []
  | [] => []
  end.

Fixpoint drop_digits (s : jsstring) : jsstring :=
  match s with
  | c :: r => if is_digit c then drop_digits r else s
  | [] => []
  end.

(** [s.split(sep)] for a one-character separator. *)
Fixpoint split (sep : N) (s : jsstring) : list jsstring :=
  match s with
  | [] => [[]]
  | c :: r =>
      if c =? sep then [] :: split sep r
      else match split sep r with
           | h :: t => (c :: h) :: t
           | [] => [[c]]
           end
  end.

(** [s.padEnd(n, c)] for a one-character filler. *)
Definition padEnd (n : nat) (c : N) (s : jsstring) : jsstring :=
  s ++ repeat c (n - length s)%nat.

(** [s.slice(0, n)]. *)
Definition slice0 (n : nat) (s : jsstring) : jsstring := firstn n s.

(** The mathematical value of a run of decimal digits. *)
Definition digits_value (s : jsstring) : N :=
  fold_left (fun acc c => 10 * acc + (c - 48)) s 0.

(** The Number values the codec computes with: doubles that hold a
    non-negative integer, [+Infinity] and [NaN]. *)
Inductive jsnum :=
  | Fin (n : N)
  | Inf
  | NaN.

(** Round the quotient [num / den] to the nearest integer, ties to even. *)
Definition round_half_even (num den : N) : N :=
  let q := num / den in
  let r := num mod den in
  if (den <? 2 * r) || ((2 * r =? den) && N.odd q) then q + 1 else q.

(** The double nearest to the integer [n] (binary64, round to nearest,
    ties to even): exact up to 53 bits, [+Infinity] from [2^1024] on. *)
Definition round64 (n : N) : jsnum :=
  let sh := N.size n - 53 in
  let v := round_half_even n (2 ^ sh) * 2 ^ sh in
  if 2 ^ 1024 <=? v then Inf else Fin v.

(** [Number(s)] on a string of decimal digits, correctly rounded; the
    empty string is 0. Any other string is outside the decimal-literal
    grammar handled here. *)
Definition Number (s : jsstring) : jsnum :=
  if forallb is_digit s then round64 (digits_value s) else NaN.

Definition mul (x y : jsnum) : jsnum :=
  match x, y with
  | Fin a, Fin b => round64 (a * b)
  | Fin a, Inf | Inf, Fin a => if a =? 0 then NaN else Inf
  | Inf, Inf => Inf
  | NaN, _ | _, NaN => NaN
  end.

Definition add (x y : jsnum) : jsnum :=
  match x, y with
  | Fin a, Fin b => round64 (a + b)
  | Inf, (Fin _ | Inf) | Fin _, Inf => Inf
  | NaN, _ | _, NaN => NaN
  end.

(** A finite non-negative double [mant * 2^expo] that need not be an
    integer: the result of a division. *)
Record double := { mant : N; expo : Z }.

(** [floor (log2 (a / b))] for positive [a] and [b]. *)
Definition quot_log2 (a b : N) : Z :=
  let k := (Z.of_N (N.log2 a) - Z.of_N (N.log2 b))%Z in
  if b * 2 ^ Z.to_N k <=? a * 2 ^ Z.to_N (- k) then k else (k - 1)%Z.

(** The double nearest to [a / b], for integers [a] and [b > 0] that are
    themselves doubles (round to nearest, ties to even; gradual underflow
    below [2^-1022]). *)
Definition fdiv (a b : N) : double :=
  if a =? 0 then {| mant := 0; expo := 0 |}
  else
    let e := Z.max (quot_log2 a b - 52) (-1074) in
    {| mant := round_half_even (a * 2 ^ Z.to_N (- e)) (b * 2 ^ Z.to_N e);
       expo := e |}.

(** The same two operations as the Standard Library specifies them for
    binary64, to compare with: [round64 n] against the normalisation of
    [n], and [fdiv a b] against the quotient of the two doubles. *)
Definition ieee_of_N (n : N) : SpecFloat.spec_float :=
  SpecFloat.binary_normalize 53 1024 (Z.of_N n) 0 false.

Definition same_value (m : N) (e : Z) (x : SpecFloat.spec_float) : bool :=
  match x with
  | SpecFloat.S754_finite false m' e' =>
      let lo := Z.min e e' in
      (Z.of_N m * 2 ^ (e - lo) =? Z.pos m' * 2 ^ (e' - lo))%Z
  | SpecFloat.S754_zero false => m =? 0
  | _ => false
  end.

Definition round64_agrees (n : N) : bool :=
  match round64 n with
  | Fin v => same_value v 0 (ieee_of_N n)
  | Inf =>
      match ieee_of_N n with
      | SpecFloat.S754_infinity false => true
      | _ => false
      end
  | NaN => false
  end.

Definition fdiv_agrees (a b : N) : bool :=
  same_value (mant (fdiv a b)) (expo (fdiv a b))
    (SpecFloat.SFdiv 53 1024 (ieee_of_N a) (ieee_of_N b)).

(** A few thousand integers to compare on. *)
Fixpoint sample_integers (k : nat) (x : N) : list N :=
  match k with
  | O => []
  | S k' =>
      x :: sample_integers k'
             ((x * 6364136223846793005 + 1442695040888963407) mod 2 ^ 64)
  end.

(** Decimal digits of [n], most significant first. *)
Fixpoint digits_aux (fuel : nat) (n : N) : jsstring :=
  match fuel with
  | O => []
  | S f =>
      if n <? 10 then [48 + n]
      else digits_aux f (n / 10) ++ [48 + n mod 10]
  end.

Definition to_digits (n : N) : jsstring :=
  digits_aux (S (N.to_nat (N.log2 n))) n.

(** [Number::toString] for an integer-valued double [x]: the shortest
    decimal [s * 10^(n-k)], with [k] digits in [s], that reads back as [x]
    (the closest one when several have that length), written in
    exponential notation from [10^21] on. *)
Definition pick_digits (x : N) (k : N) : option (N * N) :=
  let d := N.of_nat (length (to_digits x)) in
  let p := 10 ^ (d - k) in
  let lo := x / p in
  let hi := lo + 1 in
  let ok v := match round64 (v * p) with Fin y => y =? x | _ => false end in
  let norm v := if v =? 10 ^ k then (10 ^ (k - 1), d + 1) else (v, d) in
  match ok lo, ok hi with
  | true, true =>
      let dlo := x - lo * p in
      let dhi := hi * p - x in
      if dlo <? dhi then Some (norm lo)
      else if dhi <? dlo then Some (norm hi)
      else if N.even lo then Some (norm lo) else Some (norm hi)
  | true, false => Some (norm lo)
  | false, true => Some (norm hi)
  | false, false => None
  end.

Fixpoint shortest_digits (tries : nat) (x : N) (k : N) : N * N :=
  match tries with
  | O => (x, N.of_nat (length (to_digits x)))
  | S t =>
      match pick_digits x k with
      | Some r => r
      | None => shortest_digits t x (k + 1)
      end
  end.

Definition toString_exp (x : N) : jsstring :=
  let '(s, n) := shortest_digits 17 x 1 in
  let e := lit "e+" ++ to_digits (n - 1) in
  match to_digits s with
  | [c] => c :: e
  | c :: r => c :: DOT :: r ++ e
  | [] => e
  end.

(** The same decimal below [10^21]: the digits of [s] followed by
    [n - k] zeros. *)
Definition toString_plain (x : N) : jsstring :=
  let '(s, n) := shortest_digits 17 x 1 in
  to_digits s ++ repeat ZERO (N.to_nat n - length (to_digits s)).

(** [String(n)] for a double that holds the non-negative integer [n].
    Below [2^53] these are the digits of [n]; from there on the shortest
    digits that read back as [n], which need not be those of [n]. *)
Definition Number_toString (n : N) : jsstring :=
  if n <? 10 ^ 21 then toString_plain n else toString_exp n.

(** The last steps of [toFixed(2)]: the digits of [n], padded with zeros
    to three places, with a dot before the last two. *)
Definition fixed_digits (n : N) : jsstring :=
  let m := if n =? 0 then [ZERO] else to_digits n in
  let m := repeat ZERO (3 - length m)%nat ++ m in
  let k := length m in
  firstn (k - 2) m ++ DOT :: skipn (k - 2) m.

(** [x.toFixed(2)] for a finite non-negative double [x]. Below [10^21] the
    digits are those of the integer [n] that makes [n / 100 - x] closest to
    zero, the larger one on a tie. *)
Definition toFixed2 (x : double) : jsstring :=
  let up := 2 ^ Z.to_N (expo x) in
  let down := 2 ^ Z.to_N (- expo x) in
  if 10 ^ 21 * down <=? mant x * up then toString_exp (mant x * up / down)
  else
    fixed_digits ((200 * mant x * up + down) / (2 * down)).

End Js.

(** ** The money and plan codec *)

Module Money.
Import Js.

(** The literal in [src/index.js] reads U+00AC U+00A3 before the amount. *)
Definition CURRENCY_PREFIX : jsstring := [172; 163].

(** [/^\d+(\.\d{1,2})?$/.test(t)]: a greedy run of digits, then either
    the end of input or a dot followed by one or two digits and the end. *)
Definition amount_re (t : jsstring) : bool :=
  negb (Nat.eqb (length (take_digits t)) 0) &&
  match drop_digits t with
  | [] => true
  | c :: fr =>
      (c =? DOT) && forallb is_digit fr &&
      Nat.leb 1 (length fr) && Nat.leb (length fr) 2
  end.

(** The argument is a string, so the [typeof] test passes. [None] is the
    [null] result; otherwise the result is a double that holds a positive
    integer. *)
Definition amountToMinorUnits (amountStr : jsstring) : option N :=
  let trimmed := trim amountStr in
  if negb (amount_re trimmed) then None
  else
    let parts := split DOT trimmed in
    let whole := nth 0 parts [] in
    let fracRaw := nth 1 parts [] in
    let frac := slice0 2 (padEnd 2 ZERO fracRaw) in
    let minor := add (mul (Number whole) (Fin 100)) (Number frac) in
    match minor with
    | Fin n => if n =? 0 then None else Some n
    | Inf | NaN => None
    end.

(** [minor] is a double that holds a non-negative integer. *)
Definition minorToDisplay (minor : N) : jsstring :=
  CURRENCY_PREFIX ++ toFixed2 (fdiv minor 100).

(** *** Plans *)

Definition PLAN_KEYS : list string :=
  ["one_time"; "monthly"; "annual"; "lifetime"]%string.

(** A price record [{ amountMinor }]. The catalog only ever stores what
    [amountToMinorUnits] returned ([/addproduct] and [/setprice] write
    nothing else), a count of minor units. *)
Record PlanPrice := { amountMinor : N }.

(** [pricesObj?.[key]?.amountMinor], tested for truthiness. *)
Definition plan_amount_truthy
    (pricesObj : option (gmap string PlanPrice)) (key : string) : bool :=
  match pricesObj with
  | Some prices =>
      match prices !! key with
      | Some p => negb (amountMinor p =? 0)
      | None => false
      end
  | None => false
  end.

Definition enabledPlans (pricesObj : option (gmap string PlanPrice))
    : list string :=
  fold_left
    (fun out key => if plan_amount_truthy pricesObj key then out ++ [key] else out)
    PLAN_KEYS [].

(** What the specification calls an unsigned decimal with at most two
    fractional digits: [decimal2 t W F] when [t] is such a numeral, with
    whole part [W] and [F] hundredths. *)
Inductive decimal2 : jsstring -> N -> N -> Prop :=
  | decimal2_whole w :
      w <> [] -> forallb is_digit w = true ->
      decimal2 w (digits_value w) 0
  | decimal2_frac1 w d :
      w <> [] -> forallb is_digit w = true -> is_digit d = true ->
      decimal2 (w ++ [DOT; d]) (digits_value w) (10 * (d - 48))
  | decimal2_frac2 w d1 d2 :
      w <> [] -> forallb is_digit w = true ->
      is_digit d1 = true -> is_digit d2 = true ->
      decimal2 (w ++ [DOT; d1; d2]) (digits_value w)
        (10 * (d1 - 48) + (d2 - 48)).

(** The two digits of a number below one hundred. *)
Definition two_digits (r : N) : jsstring := [48 + r / 10; 48 + r mod 10].

End Money.

(** ** The document store *)

Module Mongo.
Local Open Scope string_scope.

(** Field values of the documents the service stores. *)
Inductive value :=
  | VStr (s : string)
  | VNum (n : N)
  | VDate (ms : Z)
  | VBool (b : bool)
  | VNull.

#[global] Instance value_eq_dec : EqDecision value.
Proof. solve_decision. Defined.

(** A document maps field names to values; a collection keeps its
    documents in insertion order. *)
Abbreviation doc := (gmap string value).
Abbreviation fields := (list (string * value)).

(** An equality query [{ k1: v1, k2: v2 }]. *)
Definition matches (q : fields) (d : doc) : bool :=
  forallb (fun kv => bool_decide (d !! kv.1 = Some kv.2)) q.

(** [$set]: later fields win, as in an object literal. *)
Definition set_fields (u : fields) (d : doc) : doc :=
  fold_left (fun acc kv => <[kv.1 := kv.2]> acc) u d.

Definition findOne (q : fields) (c : list doc) : option doc :=
  List.find (matches q) c.

(** [updateOne(q, { $set: u })]: the first match in natural order. *)
Fixpoint updateOne (q u : fields) (c : list doc) : list doc :=
  match c with
  | [] => []
  | d :: r =>
      if matches q d then set_fields u d :: r else d :: updateOne q u r
  end.

Definition updateMany (q u : fields) (c : list doc) : list doc :=
  List.map (fun d => if matches q d then set_fields u d else d) c.

(** [findOne(q, { sort: { k: -1 } })]: the match with the greatest date
    under [k]; a missing or null date sorts last. Among equal dates the
    first in natural order is taken. *)
Definition date_field (k : string) (d : doc) : option Z :=
  match d !! k with
  | Some (VDate t) => Some t
  | _ => None
  end.

Definition earlier (a b : option Z) : bool :=
  match a, b with
  | Some x, Some y => (x <? y)%Z
  | None, Some _ => true
  | _, None => false
  end.

Definition findOne_desc (q : fields) (k : string) (c : list doc) : option doc :=
  fold_left
    (fun best d =>
       if matches q d then
         match best with
         | Some b =>
             if earlier (date_field k b) (date_field k d) then Some d else best
         | None => Some d
         end
       else best)
    c None.

(** A unique index over some fields. A sparse index skips the documents
    that have none of them; otherwise a missing field counts as null. *)
Record index := { index_fields : list string; index_sparse : bool }.

Definition index_key (ix : index) (d : doc) : option (list value) :=
  if index_sparse ix && forallb (fun k => bool_decide (d !! k = None)) (index_fields ix)
  then None
  else Some (List.map (fun k => default VNull (d !! k)) (index_fields ix)).

Definition duplicate_key (ix : index) (d : doc) (c : list doc) : bool :=
  match index_key ix d with
  | Some key => existsb (fun d' => bool_decide (index_key ix d' = Some key)) c
  | None => false
  end.

(** [insertOne]: [None] is the duplicate-key error. The update operators
    above never write an indexed field in this service, so only inserts
    are checked. *)
Definition insertOne (ixs : list index) (d : doc) (c : list doc)
    : option (list doc) :=
  if existsb (fun ix => duplicate_key ix d c) ixs then None
  else Some (c ++ [d])%list.

(** [updateOne(q, { $setOnInsert: soi, $set: u }, { upsert: true })]. *)
Definition upsertOne (ixs : list index) (q soi u : fields) (c : list doc)
    : option (list doc) :=
  if existsb (matches q) c then Some (updateOne q u c)
  else insertOne ixs (set_fields u (set_fields soi (set_fields q ∅))) c.

End Mongo.

(** ** State, effects and the outside world *)

Module Service.
Import Mongo.
Local Open Scope string_scope.

Definition ALLOWED_GUILD_ID := "1269702895549419544".
Definition REFUND_APPROVER_USER_ID := "1400281740978815118".
Definition CURRENCY := "gbp".
Definition REFUND_WINDOW_MS : Z := 24 * 60 * 60 * 1000.
Definition CONFIG_CACHE_TTL_MS : Z := 30000.

(** A thrown JavaScript [Error]. *)
Record Err := { ename : string; emessage : string }.

(** [String(e)] for an [Error] object. *)
Definition Err_toString (e : Err) : string :=
  if String.eqb (ename e) "" then emessage e
  else if String.eqb (emessage e) "" then ename e
  else ename e ++ ": " ++ emessage e.

Inductive outcome (A : Type) :=
  | Ok (a : A)
  | Throw (e : Err).
Arguments Ok {A} a.
Arguments Throw {A} e.

#[global] Instance outcome_fmap : FMap outcome := fun A B f r =>
  match r with
  | Ok a => Ok (f a)
  | Throw e => Throw e
  end.

(** *** Stripe objects *)

Record session := {
  session_id : string;
  session_metadata : option (gmap string string);
  session_payment_intent : option string;
  session_subscription : option string
}.

Record subscription := {
  sub_id : string;
  sub_status : string;
  sub_cancel_at_period_end : bool;
  sub_current_period_end : option Z;
  sub_latest_invoice_payment_intent : option string
}.

Inductive event :=
  | CheckoutSessionCompleted (s : session)
  | CustomerSubscriptionUpdated (sub : subscription)
  | CustomerSubscriptionDeleted (sub : subscription)
  | OtherEvent (type : string).

Record request := { req_body : string; req_signature : option string }.

Inductive body :=
  | Text (s : string)
  | JsonReceived.

Record response := { status : N; content : body }.

Definition received : response := {| status := 200; content := JsonReceived |}.

(** *** Catalog *)

Record Product := {
  product_id : string;
  product_guildId : string;
  product_name : string;
  product_description : string;
  product_roleId : string;
  product_prices : option (gmap string Money.PlanPrice)
}.

(** *** What the handlers do to the outside world, in order: the calls
    to Stripe, and the Discord calls that write (reads are not logged). *)

Inductive message :=
  | PurchaseCompleted (user purchase type : string) (amount : option Js.jsstring)
      (plan product mode : option string)
  | ThankYou (user purchase : string)
  | SubscriptionEnded (user purchase : string) (role : option string)
  | UpgradeHint (product productId : string) (monthly : Js.jsstring).

Inductive effect :=
  | StripeCheckoutCreate (mode : string) (metadata : list (string * string))
      (unit_amount : N)
  | StripeSubscriptionRetrieve (id : string)
  | StripeRefundCreate (payment_intent : string)
  | StripeSubscriptionCancel (id : string)
  | RoleAdd (guild user role reason : string)
  | RoleRemove (guild user role reason : string)
  | ChannelCreate (guild name : string)
  | ChannelSend (channel : string) (msg : message)
  | DirectMessage (user : string) (msg : message)
  | Interaction (kind text : string).

(** *** The answers of Stripe and Discord during one handler run, and
    of the BSON library: [object_id text] is the id that
    [new ObjectId(text)] builds, as [toString()] prints it, or nothing
    when the constructor throws. Which texts it takes depends on the
    version of the library. *)

Record env := {
  constructEvent : request -> outcome event;
  checkout_sessions_create :
    string -> list (string * string) -> outcome (string * string);
  subscriptions_retrieve : string -> outcome subscription;
  refunds_create : string -> outcome string;
  subscriptions_cancel : string -> outcome unit;
  guilds_fetch : string -> bool;
  members_fetch : string -> string -> bool;
  users_fetch : string -> bool;
  roles_add : string -> string -> string -> bool;
  roles_remove : string -> string -> string -> bool;
  channels_fetch : string -> string -> option bool;
  channels_cache_find : string -> string -> option string;
  channels_create : string -> string -> outcome string;
  object_id : string -> option string
}.

(** *** The state: the collections, the config cache and the effect log.
    [src/index.js] has no entitlements collection and no cache; its
    handlers leave those two alone. *)

Record state := {
  products : list Product;
  shop_config : list doc;
  purchases : list doc;
  refund_requests : list doc;
  tickets : list doc;
  entitlements : list doc;
  configCache : gmap string (option doc * Z);
  effects : list effect
}.

Definition set_shop_config (c : list doc) (s : state) : state :=
  {| products := products s; shop_config := c; purchases := purchases s;
     refund_requests := refund_requests s; tickets := tickets s;
     entitlements := entitlements s; configCache := configCache s;
     effects := effects s |}.

Definition set_purchases (c : list doc) (s : state) : state :=
  {| products := products s; shop_config := shop_config s; purchases := c;
     refund_requests := refund_requests s; tickets := tickets s;
     entitlements := entitlements s; configCache := configCache s;
     effects := effects s |}.

Definition set_refund_requests (c : list doc) (s : state) : state :=
  {| products := products s; shop_config := shop_config s;
     purchases := purchases s; refund_requests := c; tickets := tickets s;
     entitlements := entitlements s; configCache := configCache s;
     effects := effects s |}.

Definition set_entitlements (c : list doc) (s : state) : state :=
  {| products := products s; shop_config := shop_config s;
     purchases := purchases s; refund_requests := refund_requests s;
     tickets := tickets s; entitlements := c; configCache := configCache s;
     effects := effects s |}.

Definition set_configCache (c : gmap string (option doc * Z)) (s : state)
    : state :=
  {| products := products s; shop_config := shop_config s;
     purchases := purchases s; refund_requests := refund_requests s;
     tickets := tickets s; entitlements := entitlements s; configCache := c;
     effects := effects s |}.

Definition set_effects (l : list effect) (s : state) : state :=
  {| products := products s; shop_config := shop_config s;
     purchases := purchases s; refund_requests := refund_requests s;
     tickets := tickets s; entitlements := entitlements s;
     configCache := configCache s; effects := l |}.

(** *** Handlers: state passing with exceptions. A [throw] keeps the
    writes made so far, as the store has no transactions here. *)

Definition M (A : Type) : Type := state -> outcome A * state.

#[global] Instance M_ret : MRet M := fun A a s => (Ok a, s).
#[global] Instance M_bind : MBind M := fun A B f m s =>
  match m s with
  | (Ok a, s') => f a s'
  | (Throw e, s') => (Throw e, s')
  end.

Definition throw {A} (e : Err) : M A := fun s => (Throw e, s).

(** [try { m } catch (e) { h e }]. *)
Definition try_catch {A} (m : M A) (h : Err -> M A) : M A := fun s =>
  match m s with
  | (Ok a, s') => (Ok a, s')
  | (Throw e, s') => h e s'
  end.

Definition get : M state := fun s => (Ok s, s).
Definition modify (f : state -> state) : M unit := fun s => (Ok tt, f s).
Definition emit (e : effect) : M unit :=
  modify (fun s => set_effects (effects s ++ [e])%list s).

(** An awaited call: log it, then return or throw what the world answers. *)
Definition call {A} (e : effect) (r : outcome A) : M A :=
  emit e;; match r with Ok a => mret a | Throw err => throw err end.

(** Kinds of effect. *)
Definition is_interaction (e : effect) : Prop :=
  match e with Interaction _ _ => True | _ => False end.

Definition is_role_add (e : effect) : Prop :=
  match e with RoleAdd _ _ _ _ => True | _ => False end.

Definition discord_error : Err :=
  {| ename := "DiscordAPIError"; emessage := "Unknown" |}.

Definition check (e : effect) (ok : bool) : M unit :=
  call e (if ok then Ok tt else Throw discord_error).

(** A button click, after [interaction.isButton()]. *)
Record interaction := {
  i_guild : option string;
  i_user : string;
  i_admin : bool;
  i_customId : string
}.

Definition reply (text : string) : M unit := emit (Interaction "reply" text).

(** [s.split(":")]. *)
Fixpoint split_colon (s : string) : list string :=
  match s with
  | EmptyString => [EmptyString]
  | String c r =>
      if Ascii.eqb c ":" then EmptyString :: split_colon r
      else match split_colon r with
           | h :: t => String c h :: t
           | [] => [String c EmptyString]
           end
  end.

Definition PLAN_LABELS (k : string) : option string :=
  if String.eqb k "one_time" then Some "One-time"
  else if String.eqb k "monthly" then Some "Monthly"
  else if String.eqb k "annual" then Some "Annually"
  else if String.eqb k "lifetime" then Some "Lifetime"
  else None.

(** The approver clicks the approve button of request [requestId]. The
    ids that [makeRefundRequestId] makes hold no colon. *)
Definition approve_click (i : interaction) (requestId : string) : Prop :=
  i_guild i = Some ALLOWED_GUILD_ID /\
  i_user i = REFUND_APPROVER_USER_ID /\
  i_customId i = "refund_approve:" ++ requestId /\
  split_colon requestId = [requestId].

(** *** Truthiness and [||] on nullable strings *)

Definition truthy (o : option string) : bool :=
  match o with
  | Some s => negb (String.eqb s "")
  | None => false
  end.

Definition or_null (o : option string) : option string :=
  if truthy o then o else None.

Definition vstr (o : option string) : value :=
  match o with
  | Some s => VStr s
  | None => VNull
  end.

Definition str_field (k : string) (d : doc) : option string :=
  match d !! k with
  | Some (VStr s) => Some s
  | _ => None
  end.

(** [Number(s || 0) || 0] on the [amount_minor] metadata, which the
    checkout initiator writes as [String(amountMinor)]: this is the exact
    reading of a run of decimal digits of value below [2^1024], of the
    empty text and of a missing entry, and of every text that is no
    numeric literal (0). The other literals that [Number] takes (a sign, a
    fraction, an exponent, a radix prefix, padding, [Infinity]) denote
    numbers that the documents of this model do not hold; they read as 0
    here, and nothing below is stated about them. *)
Definition amount_of_metadata (o : option string) : N :=
  match o with
  | Some s =>
      let u := Js.lit s in
      if forallb Js.is_digit u then
        match Js.round64 (Js.digits_value u) with
        | Js.Fin n => n
        | _ => 0
        end
      else 0
  | None => 0
  end%N.

(** The unique indexes created by [initDb]. *)
Definition purchase_indexes : list index :=
  [ {| index_fields := ["purchaseId"]; index_sparse := false |};
    {| index_fields := ["stripeSessionId"]; index_sparse := true |} ].
Definition config_indexes : list index :=
  [ {| index_fields := ["guildId"]; index_sparse := false |} ].
Definition refund_request_indexes : list index :=
  [ {| index_fields := ["requestId"]; index_sparse := false |} ].
Definition entitlement_indexes : list index :=
  [ {| index_fields := ["guildId"; "userId"; "productId"];
       index_sparse := false |} ].

Definition duplicate_key_error : Err :=
  {| ename := "MongoServerError"; emessage := "E11000 duplicate key error" |}.

Definition store {A} (r : option A) (put : A -> state -> state) : M unit :=
  match r with
  | Some c => modify (put c)
  | None => throw duplicate_key_error
  end.

(** A completed checkout session gets past the correlation checks of the
    webhook: the four metadata fields are there and the guild is ours. *)
Definition passes_gate (ses : session) (purchaseId type : string) : Prop :=
  exists userId,
    let meta := default ∅ (session_metadata ses) in
    meta !! "purchase_id" = Some purchaseId /\
    meta !! "guild_id" = Some ALLOWED_GUILD_ID /\
    meta !! "user_id" = Some userId /\
    meta !! "type" = Some type /\
    purchaseId <> "" /\ userId <> "" /\ type <> "".

(** Stripe answers the subscription lookup of the session, if it has one. *)
Definition lookup_ok (E : env) (ses : session) : Prop :=
  forall id, or_null (session_subscription ses) = Some id ->
    exists sub, subscriptions_retrieve E id = Ok sub.

(** The query that ties a purchase to its checkout session. *)
Definition by_both (purchaseId : string) (ses : session) : fields :=
  [("purchaseId", VStr purchaseId); ("stripeSessionId", VStr (session_id ses))].

End Service.

(** ** The handlers of [src/index.js] *)

Module Shop.
Import Mongo Service.
Local Open Scope string_scope.

Section Handlers.
(** What Stripe and Discord answer during this run, and the clock: the
    [new Date()] and [Date.now()] calls of one run read the same instant,
    in milliseconds. *)
Variable E : env.
Variable now : Z.

Definition getConfig (guildId : string) : M (option doc) :=
  s ← get; mret (findOne [("guildId", VStr guildId)] (shop_config s)).

Definition upsertConfig (guildId : string) (patch : fields) : M unit :=
  s ← get;
  store (upsertOne config_indexes [("guildId", VStr guildId)] []
           (patch ++ [("updatedAt", VDate now)])%list (shop_config s))
        set_shop_config.

Definition ensurePurchaseLogChannel (guild : string) : M string :=
  cfg ← getConfig guild;
  let configured := or_null (cfg ≫= str_field "purchaseLogChannelId") in
  match configured ≫= (fun id =>
          match channels_fetch E guild id with
          | Some true => Some id
          | _ => None
          end) with
  | Some ch => mret ch
  | None =>
      match channels_cache_find E guild "purchase-log" with
      | Some existing =>
          upsertConfig guild [("purchaseLogChannelId", VStr existing)];;
          mret existing
      | None =>
          created ← call (ChannelCreate guild "purchase-log")
                      (channels_create E guild "purchase-log");
          upsertConfig guild [("purchaseLogChannelId", VStr created)];;
          mret created
      end
  end.

Definition logToPurchaseLog (guild : string) (embed : message) : M unit :=
  ch ← ensurePurchaseLogChannel guild;
  emit (ChannelSend ch embed).

Definition sendThanksIfConfigured (guild userId purchaseId : string)
    : M unit :=
  cfg ← getConfig guild;
  match or_null (cfg ≫= str_field "thanksChannelId") with
  | None => mret tt
  | Some id =>
      match channels_fetch E guild id with
      | Some true => emit (ChannelSend id (ThankYou userId purchaseId))
      | _ => mret tt
      end
  end.

(** *** Checkout sessions *)

Definition donation_metadata (purchaseId guildId userId : string)
    (amountMinor : N) : list (string * string) :=
  [ ("purchase_id", purchaseId);
    ("guild_id", guildId);
    ("user_id", userId);
    ("type", "donation");
    ("amount_minor",
      string_of_list_ascii
        (List.map ascii_of_N (Js.Number_toString amountMinor)));
    ("currency", CURRENCY) ].

Definition createCheckoutSessionForDonation
    (guildId userId : string) (amountMinor : N) (purchaseId : string)
    : M string :=
  let metadata := donation_metadata purchaseId guildId userId amountMinor in
  session ← call (StripeCheckoutCreate "payment" metadata amountMinor)
              (checkout_sessions_create E "payment" metadata);
  s ← get;
  store (insertOne purchase_indexes
           (set_fields
              [ ("purchaseId", VStr purchaseId);
                ("guildId", VStr guildId);
                ("userId", VStr userId);
                ("type", VStr "donation");
                ("amountMinor", VNum amountMinor);
                ("currency", VStr CURRENCY);
                ("stripeSessionId", VStr session.1);
                ("status", VStr "created");
                ("createdAt", VDate now) ] ∅)
           (purchases s))
        set_purchases;;
  mret session.2.

(** *** Refund execution *)

Definition executeRefundInternal (purchase : doc) : M (option string) :=
  match or_null (str_field "stripePaymentIntentId" purchase),
        or_null (str_field "stripeSubscriptionId" purchase) with
  | Some pi, _ =>
      refund ← call (StripeRefundCreate pi) (refunds_create E pi);
      mret (Some refund)
  | None, Some subId =>
      sub ← call (StripeSubscriptionRetrieve subId)
              (subscriptions_retrieve E subId);
      refundId ←
        match or_null (sub_latest_invoice_payment_intent sub) with
        | Some pi =>
            refund ← call (StripeRefundCreate pi) (refunds_create E pi);
            mret (Some refund)
        | None => mret None
        end;
      try_catch
        (call (StripeSubscriptionCancel subId) (subscriptions_cancel E subId))
        (fun _ => mret tt);;
      mret refundId
  | None, None =>
      throw {| ename := "Error";
               emessage := "No Stripe payment references on record." |}
  end.

(** *** The refund buttons. Reached for a button whose custom id starts
    with [refund_approve:] or [refund_reject:]; the ticket buttons are
    handled by other branches, which this function leaves out. *)

Definition set_request (requestId : string) (u : fields) : M unit :=
  modify (fun s =>
    set_refund_requests
      (updateOne [("requestId", VStr requestId)] u (refund_requests s)) s).

Definition within_window (paidAt : option Z) : bool :=
  match paidAt with
  | Some t => negb (REFUND_WINDOW_MS <? now - t)%Z
  | None => false
  end.

Definition refund_button (i : interaction) : M unit :=
  if negb (bool_decide (i_guild i = Some ALLOWED_GUILD_ID)) then
    reply "This bot is locked to one server. Not this one."
  else if negb (String.prefix "refund_approve:" (i_customId i)
                || String.prefix "refund_reject:" (i_customId i)) then
    mret tt
  else if negb (String.eqb (i_user i) REFUND_APPROVER_USER_ID) then
    reply "You are not allowed to approve/reject refunds."
  else
    let parts := split_colon (i_customId i) in
    let action := nth 0 parts "" in
    let requestId := nth 1 parts "" in
    s ← get;
    match findOne [("requestId", VStr requestId);
                   ("guildId", VStr ALLOWED_GUILD_ID)] (refund_requests s) with
    | None => reply "Refund request not found."
    | Some reqDoc =>
        if negb (bool_decide (reqDoc !! "status" = Some (VStr "pending"))) then
          reply ("Request already `"
                 ++ default "undefined" (str_field "status" reqDoc) ++ "`.")
        else if String.eqb action "refund_reject" then
          set_request requestId
            [("status", VStr "rejected"); ("rejectedAt", VDate now);
             ("rejectedBy", VStr (i_user i))];;
          emit (Interaction "update" "rejected")
        else
          emit (Interaction "deferUpdate" "");;
          match findOne [("purchaseId", default VNull (reqDoc !! "purchaseId"));
                         ("guildId", VStr ALLOWED_GUILD_ID)] (purchases s) with
          | None =>
              set_request requestId
                [("status", VStr "failed"); ("failedAt", VDate now);
                 ("failureReason", VStr "Purchase not found")];;
              emit (Interaction "editReply" "failed (missing purchase)")
          | Some purchase =>
              if negb (within_window (date_field "paidAt" purchase)) then
                set_request requestId
                  [("status", VStr "failed"); ("failedAt", VDate now);
                   ("failureReason", VStr "Refund window expired")];;
                emit (Interaction "editReply" "failed (window expired)")
              else
                try_catch
                  (set_request requestId
                     [("status", VStr "approved"); ("approvedAt", VDate now);
                      ("approvedBy", VStr (i_user i))];;
                   refundId ← executeRefundInternal purchase;
                   (match str_field "roleId" purchase,
                          str_field "userId" purchase with
                    | Some role, Some user =>
                        if bool_decide (purchase !! "type" = Some (VStr "product"))
                           && truthy (Some role)
                           && members_fetch E ALLOWED_GUILD_ID user
                        then emit (RoleRemove ALLOWED_GUILD_ID user role
                                     ("Refund approved (" ++ requestId ++ ")"))
                        else mret tt
                    | _, _ => mret tt
                    end);;
                   modify (fun s =>
                     set_purchases
                       (updateOne
                          [("purchaseId", default VNull (purchase !! "purchaseId"))]
                          [("status", VStr "refunded"); ("refundedAt", VDate now);
                           ("stripeRefundId", vstr refundId)]
                          (purchases s)) s);;
                   set_request requestId
                     [("status", VStr "executed"); ("executedAt", VDate now)];;
                   emit (Interaction "editReply" "refunded"))
                  (fun e =>
                     set_request requestId
                       [("status", VStr "failed"); ("failedAt", VDate now);
                        ("failureReason",
                          VStr (String.substring 0 200
                                  (if String.eqb (emessage e) ""
                                   then Err_toString e else emessage e)))];;
                     emit (Interaction "editReply" "failed"))
          end
    end.

(** *** [POST /stripe/webhook] *)

(** The [$set] part of both writes that mark a purchase paid. *)
Definition paid_fields (paymentIntentId subscriptionId : option string)
    (currentPeriodEnd subscriptionStatus cancelAtPeriodEnd : value) : fields :=
  [ ("status", VStr "paid");
    ("paidAt", VDate now);
    ("stripePaymentIntentId", vstr paymentIntentId);
    ("stripeSubscriptionId", vstr subscriptionId);
    ("currentPeriodEnd", currentPeriodEnd);
    ("subscriptionStatus", subscriptionStatus);
    ("cancelAtPeriodEnd", cancelAtPeriodEnd) ].

Definition period_end (sub : subscription) : value :=
  match sub_current_period_end sub with
  | Some t => if (t =? 0)%Z then VNull else VDate (t * 1000)
  | None => VNull
  end.

(** Read the subscription behind a session, when there is one. *)
Definition subscription_side_data (subscriptionId : option string)
    : M (value * value * value) :=
  match subscriptionId with
  | Some id =>
      sub ← call (StripeSubscriptionRetrieve id) (subscriptions_retrieve E id);
      mret (period_end sub, VStr (sub_status sub),
            VBool (sub_cancel_at_period_end sub))
  | None => mret (VNull, VNull, VNull)
  end.

Definition grant_role (guildId userId role purchaseId : string) : M unit :=
  try_catch
    (if members_fetch E guildId userId
     then check (RoleAdd guildId userId role ("Stripe paid: " ++ purchaseId))
            (roles_add E guildId userId role)
     else throw discord_error)
    (fun _ => mret tt).

(** [amountMinor ? minorToDisplay(amountMinor) : "n/a"], with [None] for
    the text "n/a". *)
Definition display_amount (amountMinor : N) : option Js.jsstring :=
  if (amountMinor =? 0)%N then None else Some (Money.minorToDisplay amountMinor).

(** The [checkout.session.completed] branch. [findOneAndUpdate] by
    purchase id and session id comes first. The test [!updated.value] is
    read as it is written, against a result [{ value }] whose [value] is
    the row that matched, or [null]: without a match the session id alone
    anchors an upsert. (A driver that answers with the row itself, not
    wrapped, is not what this test is written for; that reading is not
    modelled.) *)
Definition checkout_session_completed (session : session) : M response :=
  let meta := default ∅ (session_metadata session) in
  let purchaseId := meta !! "purchase_id" in
  let guildId := meta !! "guild_id" in
  let userId := meta !! "user_id" in
  let type := meta !! "type" in
  match purchaseId, guildId, userId, type with
  | Some purchaseId, Some guildId, Some userId, Some type =>
      if negb (truthy (Some purchaseId) && truthy (Some guildId)
               && truthy (Some userId) && truthy (Some type)) then
        mret received
      else if negb (String.eqb guildId ALLOWED_GUILD_ID) then mret received
      else
        let paymentIntentId := or_null (session_payment_intent session) in
        let subscriptionId := or_null (session_subscription session) in
        '(currentPeriodEnd, subscriptionStatus, cancelAtPeriodEnd) ←
          subscription_side_data subscriptionId;
        let paid := paid_fields paymentIntentId subscriptionId
                      currentPeriodEnd subscriptionStatus cancelAtPeriodEnd in
        let by_both := [("purchaseId", VStr purchaseId);
                        ("stripeSessionId", VStr (session_id session))] in
        s ← get;
        (if existsb (matches by_both) (purchases s) then
           modify (set_purchases (updateOne by_both paid (purchases s)))
         else
           store (upsertOne purchase_indexes
                    [("stripeSessionId", VStr (session_id session))]
                    [ ("purchaseId", VStr purchaseId);
                      ("guildId", VStr guildId);
                      ("userId", VStr userId);
                      ("type", VStr type);
                      ("amountMinor", VNum (amount_of_metadata (meta !! "amount_minor")));
                      ("currency", VStr (default CURRENCY (or_null (meta !! "currency"))));
                      ("stripeSessionId", VStr (session_id session));
                      ("createdAt", VDate now) ]
                    paid (purchases s))
                 set_purchases);;
        if negb (guilds_fetch E guildId) then mret received
        else
          (match or_null (meta !! "role_id") with
           | Some role =>
               if String.eqb type "product"
               then grant_role guildId userId role purchaseId
               else mret tt
           | None => mret tt
           end);;
          let amountMinor := amount_of_metadata (meta !! "amount_minor") in
          let planKey := or_null (meta !! "plan_key") in
          logToPurchaseLog guildId
            (PurchaseCompleted userId purchaseId type
               (display_amount amountMinor)
               ((fun k => default k (PLAN_LABELS k)) <$> planKey)
               (or_null (meta !! "product_name")) None);;
          (if String.eqb type "product"
           then sendThanksIfConfigured guildId userId purchaseId
           else mret tt);;
          mret received
  | _, _, _, _ => mret received
  end.

Definition by_subscription (sub : subscription) : fields :=
  [("stripeSubscriptionId", VStr (sub_id sub)); ("status", VStr "paid")].

Definition customer_subscription_updated (sub : subscription) : M response :=
  modify (fun s =>
    set_purchases
      (updateMany (by_subscription sub)
         [ ("subscriptionStatus", VStr (sub_status sub));
           ("cancelAtPeriodEnd", VBool (sub_cancel_at_period_end sub));
           ("currentPeriodEnd", period_end sub);
           ("subscriptionUpdatedAt", VDate now) ]
         (purchases s)) s);;
  mret received.

Definition customer_subscription_deleted (sub : subscription) : M response :=
  s ← get;
  (match findOne_desc
           (by_subscription sub ++ [("type", VStr "product")])%list
           "paidAt" (purchases s) with
   | Some purchase =>
       let guildId := str_field "guildId" purchase in
       let userId := str_field "userId" purchase in
       let roleId := or_null (str_field "roleId" purchase) in
       if negb (from_option (guilds_fetch E) false guildId) then mret tt
       else
         let guild := default "" guildId in
         try_catch
           (if from_option (members_fetch E guild) false userId then
              match roleId with
              | Some role =>
                  check (RoleRemove guild (default "" userId) role
                           "Subscription ended")
                    (roles_remove E guild (default "" userId) role)
              | None => mret tt
              end
            else throw discord_error)
           (fun _ => mret tt);;
         logToPurchaseLog guild
           (SubscriptionEnded (default "undefined" userId)
              (default "undefined" (str_field "purchaseId" purchase)) roleId)
   | None => mret tt
   end);;
  modify (fun s =>
    set_purchases
      (updateMany (by_subscription sub)
         [ ("subscriptionStatus", VStr "canceled");
           ("subscriptionEndedAt", VDate now) ]
         (purchases s)) s);;
  mret received.

Definition webhook (req : request) : M response :=
  match constructEvent E req with
  | Throw err =>
      mret {| status := 400;
              content := Text ("Webhook Error: " ++ emessage err) |}
  | Ok event =>
      try_catch
        (match event with
         | CheckoutSessionCompleted session => checkout_session_completed session
         | CustomerSubscriptionUpdated sub => customer_subscription_updated sub
         | CustomerSubscriptionDeleted sub => customer_subscription_deleted sub
         | OtherEvent _ => mret received
         end)
        (fun _ => mret {| status := 500;
                          content := Text "Webhook handler failed" |})
  end.

End Handlers.
End Shop.

(** ** The handlers of the entitlement revision *)

Module Ent.
Import Mongo Service.
Local Open Scope string_scope.

Definition PURCHASE_LOG_FALLBACK_NAME := "purchase-log".

(** [minorToDisplay] of this revision: its pound sign is U+00A3 alone. *)
Definition minorToDisplay (minor : N) : Js.jsstring :=
  (163 :: Js.toFixed2 (Js.fdiv minor 100))%list.

(** [amountMinor ? minorToDisplay(amountMinor) : "n/a"], with [None] for
    the text "n/a". *)
Definition display_amount (amountMinor : N) : option Js.jsstring :=
  if (amountMinor =? 0)%N then None else Some (minorToDisplay amountMinor).

(** What [new ObjectId(text)] throws for a text it does not take. No
    handler looks at it. *)
Definition object_id_error : Err :=
  {| ename := "BSONError"; emessage := "invalid ObjectId" |}.

Section Handlers.
Variable E : env.
Variable now : Z.

(** [getConfig] reads through a cache that keeps an answer, a missing
    document included, for thirty seconds. *)
Definition getConfig (guildId : string) : M (option doc) :=
  s ← get;
  let reload :=
    let d := findOne [("guildId", VStr guildId)] (shop_config s) in
    modify (set_configCache
              (<[guildId := (d, now + CONFIG_CACHE_TTL_MS)%Z]> (configCache s)));;
    mret d in
  match configCache s !! guildId with
  | Some cached => if (now <? cached.2)%Z then mret cached.1 else reload
  | None => reload
  end.

Definition upsertConfig (guildId : string) (patch : fields) : M unit :=
  s ← get;
  store (upsertOne config_indexes [("guildId", VStr guildId)] []
           (patch ++ [("updatedAt", VDate now)])%list (shop_config s))
        set_shop_config;;
  modify (fun s => set_configCache (delete guildId (configCache s)) s).

Definition ensurePurchaseLogChannel (guild : string) : M string :=
  cfg ← getConfig guild;
  let configured := or_null (cfg ≫= str_field "purchaseLogChannelId") in
  match configured ≫= (fun id =>
          match channels_fetch E guild id with
          | Some true => Some id
          | _ => None
          end) with
  | Some ch => mret ch
  | None =>
      match channels_cache_find E guild PURCHASE_LOG_FALLBACK_NAME with
      | Some existing =>
          upsertConfig guild [("purchaseLogChannelId", VStr existing)];;
          mret existing
      | None =>
          created ← call (ChannelCreate guild PURCHASE_LOG_FALLBACK_NAME)
                      (channels_create E guild PURCHASE_LOG_FALLBACK_NAME);
          upsertConfig guild [("purchaseLogChannelId", VStr created)];;
          mret created
      end
  end.

Definition logToPurchaseLog (guild : string) (embed : message) : M unit :=
  ch ← ensurePurchaseLogChannel guild;
  emit (ChannelSend ch embed).

Definition dmUser (userId : string) (payload : message) : M bool :=
  if users_fetch E userId
  then emit (DirectMessage userId payload);; mret true
  else mret false.

(** *** Entitlements: no second purchase of a product, one upgrade path *)

Definition getEntitlement (guildId userId productId : string)
    : M (option doc) :=
  s ← get;
  mret (findOne [("guildId", VStr guildId); ("userId", VStr userId);
                 ("productId", VStr productId)] (entitlements s)).

Record gate := { ok : bool; reason : option string }.

Definition canStartCheckout (guildId userId : string) (product : Product)
    (planKey : string) (isUpgrade : bool) : M gate :=
  ent ← getEntitlement guildId userId (product_id product);
  match ent with
  | None => mret {| ok := true; reason := None |}
  | Some ent =>
      if negb (bool_decide (ent !! "status" = Some (VStr "active"))) then
        mret {| ok := true; reason := None |}
      else if bool_decide (ent !! "planKey" = Some (VStr "lifetime")) then
        mret {| ok := false;
                reason := Some "You already own **Lifetime** for this product." |}
      else if isUpgrade then
        if negb (bool_decide (ent !! "planKey" = Some (VStr "one_time"))) then
          mret {| ok := false;
                  reason := Some "Upgrade is only for **One-time → Monthly/Annual**." |}
        else if negb (String.eqb planKey "monthly" || String.eqb planKey "annual") then
          mret {| ok := false;
                  reason := Some "Upgrade must be **Monthly** or **Annual**." |}
        else if truthy (str_field "stripeSubscriptionId" ent) then
          mret {| ok := false;
                  reason := Some "A subscription is already on record for this product." |}
        else mret {| ok := true; reason := None |}
      else
        let owned := default "undefined" (str_field "planKey" ent) in
        mret {| ok := false;
                reason := Some ("You already own this product (**"
                  ++ default owned (PLAN_LABELS owned) ++ "**). "
                  ++ "If you bought one-time and want updates, use **/upgrade**.") |}
  end.

(** [executeRefundInternal] is the same text in both revisions. *)
Definition executeRefundInternal := Shop.executeRefundInternal E.

(** *** The refund buttons *)

Definition set_request (requestId : string) (u : fields) : M unit :=
  modify (fun s =>
    set_refund_requests
      (updateOne [("requestId", VStr requestId)] u (refund_requests s)) s).

Definition editReply (text : string) : M unit :=
  emit (Interaction "editReply" text).

Definition refund_button (i : interaction) : M unit :=
  if negb (bool_decide (i_guild i = Some ALLOWED_GUILD_ID)) then
    reply "Bot is locked to one server. Not this one."
  else if negb (String.prefix "refund_approve:" (i_customId i)
                || String.prefix "refund_reject:" (i_customId i)) then
    mret tt
  else
    let parts := split_colon (i_customId i) in
    let action := nth 0 parts "" in
    let requestId := nth 1 parts "" in
    if negb (String.eqb (i_user i) REFUND_APPROVER_USER_ID || i_admin i) then
      reply "Not allowed."
    else
      emit (Interaction "deferReply" "");;
      s ← get;
      match findOne [("requestId", VStr requestId);
                     ("guildId", VStr ALLOWED_GUILD_ID)] (refund_requests s) with
      | None => editReply "Refund request not found."
      | Some rr =>
          if negb (bool_decide (rr !! "status" = Some (VStr "pending"))) then
            editReply ("Refund request is already `"
                       ++ default "undefined" (str_field "status" rr) ++ "`.")
          else
            match findOne [("purchaseId", default VNull (rr !! "purchaseId"));
                           ("guildId", VStr ALLOWED_GUILD_ID)] (purchases s) with
            | None =>
                set_request requestId
                  [("status", VStr "rejected"); ("rejectedAt", VDate now);
                   ("rejectedBy", VStr (i_user i));
                   ("reason", VStr "Purchase missing")];;
                editReply "Purchase missing. Request rejected."
            | Some purchase =>
                if String.eqb action "refund_reject" then
                  set_request requestId
                    [("status", VStr "rejected"); ("rejectedAt", VDate now);
                     ("rejectedBy", VStr (i_user i))];;
                  editReply "Refund rejected."
                else
                  match date_field "paidAt" purchase with
                  | None => editReply "No paidAt. Unsafe to refund."
                  | Some paidAt =>
                      if (REFUND_WINDOW_MS <? now - paidAt)%Z then
                        editReply "Refund window expired (>24h)."
                      else
                        try_catch
                          (refundId ← executeRefundInternal purchase;
                           set_request requestId
                             [("status", VStr "approved");
                              ("approvedAt", VDate now);
                              ("approvedBy", VStr (i_user i));
                              ("stripeRefundId", vstr refundId)];;
                           modify (fun s =>
                             set_purchases
                               (updateOne
                                  [("purchaseId",
                                     default VNull (purchase !! "purchaseId"))]
                                  [("status", VStr "refunded");
                                   ("refundedAt", VDate now);
                                   ("stripeRefundId", vstr refundId)]
                                  (purchases s)) s);;
                           (match or_null (str_field "productId" purchase) with
                            | Some productId =>
                                modify (fun s =>
                                  set_entitlements
                                    (updateOne
                                       [("guildId", default VNull (purchase !! "guildId"));
                                        ("userId", default VNull (purchase !! "userId"));
                                        ("productId", VStr productId)]
                                       [("status", VStr "revoked");
                                        ("revokedAt", VDate now);
                                        ("revokedBy", VStr (i_user i))]
                                       (entitlements s)) s)
                            | None => mret tt
                            end);;
                           editReply ("Refund approved. Refund ID: `"
                                      ++ default "n/a" (or_null refundId) ++ "`"))
                          (fun _ => editReply "Refund failed in Stripe.")
                  end
            end
      end.

(** *** [POST /stripe/webhook] *)

Definition reference_code (meta : gmap string string) : option string :=
  match or_null (meta !! "reference_code") with
  | Some c => if String.eqb c "none" then None else Some c
  | None => None
  end.

Definition or_vnull (v : value) : value :=
  match v with
  | VStr s => if String.eqb s "" then VNull else v
  | VBool false => VNull
  | _ => v
  end.

(** The body of the [try] around the upgrade hint. The product is looked
    up by [new ObjectId(productId)], which throws for a text that is no
    id. *)
Definition upgrade_hint (guildId userId productId planKey : string) : M unit :=
  match object_id E productId with
  | None => throw object_id_error
  | Some oid =>
      s ← get;
      match List.find (fun p => String.eqb (product_id p) oid
                                && String.eqb (product_guildId p) guildId)
              (products s) with
      | Some product =>
          match product_prices product ≫= (.!! "monthly") with
          | Some monthly =>
              if String.eqb planKey "one_time"
                 && negb (Money.amountMinor monthly =? 0)%N
              then dmUser userId
                     (UpgradeHint (product_name product) productId
                        (minorToDisplay (Money.amountMinor monthly)));;
                   mret tt
              else mret tt
          | None => mret tt
          end
      | None => mret tt
      end
  end.

Definition checkout_session_completed (session : session) : M response :=
  let meta := default ∅ (session_metadata session) in
  match meta !! "purchase_id", meta !! "guild_id",
        meta !! "user_id", meta !! "type" with
  | Some purchaseId, Some guildId, Some userId, Some type =>
      if negb (truthy (Some purchaseId) && truthy (Some guildId)
               && truthy (Some userId) && truthy (Some type)) then
        mret received
      else if negb (String.eqb guildId ALLOWED_GUILD_ID) then mret received
      else
        let paymentIntentId := or_null (session_payment_intent session) in
        let subscriptionId := or_null (session_subscription session) in
        '(currentPeriodEnd, subscriptionStatus, cancelAtPeriodEnd) ←
          Shop.subscription_side_data E subscriptionId;
        s ← get;
        store (upsertOne purchase_indexes
                 [("purchaseId", VStr purchaseId);
                  ("stripeSessionId", VStr (session_id session))]
                 [ ("purchaseId", VStr purchaseId);
                   ("guildId", VStr guildId);
                   ("userId", VStr userId);
                   ("type", VStr type);
                   ("amountMinor", VNum (amount_of_metadata (meta !! "amount_minor")));
                   ("currency", VStr (default CURRENCY (or_null (meta !! "currency"))));
                   ("referenceCode", vstr (reference_code meta));
                   ("stripeSessionId", VStr (session_id session));
                   ("createdAt", VDate now) ]
                 (Shop.paid_fields now paymentIntentId subscriptionId
                    currentPeriodEnd subscriptionStatus cancelAtPeriodEnd
                  ++ [ ("planKey", vstr (or_null (meta !! "plan_key")));
                       ("productId", vstr (or_null (meta !! "product_id"))) ])%list
                 (purchases s))
              set_purchases;;
        if negb (guilds_fetch E guildId) then mret received
        else
          (match or_null (meta !! "role_id") with
           | Some role =>
               if String.eqb type "product"
               then Shop.grant_role E guildId userId role purchaseId
               else mret tt
           | None => mret tt
           end);;
          (match or_null (meta !! "product_id") with
           | Some productId =>
               if String.eqb type "product" then
                 let planKey := default "one_time" (or_null (meta !! "plan_key")) in
                 s ← get;
                 store (upsertOne entitlement_indexes
                          [("guildId", VStr guildId); ("userId", VStr userId);
                           ("productId", VStr productId)]
                          [("createdAt", VDate now)]
                          [ ("guildId", VStr guildId);
                            ("userId", VStr userId);
                            ("productId", VStr productId);
                            ("status", VStr "active");
                            ("planKey", VStr planKey);
                            ("referenceCode", vstr (reference_code meta));
                            ("lastPurchaseId", VStr purchaseId);
                            ("stripeSubscriptionId", vstr subscriptionId);
                            ("currentPeriodEnd", currentPeriodEnd);
                            ("subscriptionStatus", or_vnull subscriptionStatus);
                            ("updatedAt", VDate now) ]
                          (entitlements s))
                       set_entitlements;;
                 try_catch (upgrade_hint guildId userId productId planKey)
                   (fun _ => mret tt)
               else mret tt
           | None => mret tt
           end);;
          let amountMinor := amount_of_metadata (meta !! "amount_minor") in
          let planKey := or_null (meta !! "plan_key") in
          logToPurchaseLog guildId
            (PurchaseCompleted userId purchaseId type
               (display_amount amountMinor)
               ((fun k => default k (PLAN_LABELS k)) <$> planKey)
               (or_null (meta !! "product_name"))
               (or_null (meta !! "mode_tag")));;
          mret received
  | _, _, _, _ => mret received
  end.

Definition webhook (req : request) : M response :=
  match constructEvent E req with
  | Throw err =>
      mret {| status := 400;
              content := Text ("Webhook Error: " ++ emessage err) |}
  | Ok event =>
      try_catch
        (match event with
         | CheckoutSessionCompleted session => checkout_session_completed session
         | _ => mret received
         end)
        (fun _ => mret {| status := 500;
                          content := Text "Webhook handler failed" |})
  end.

End Handlers.
End Ent.

(** ** Plans on display and in checkout *)

Module Catalog.
Import Js Money Service.
Local Open Scope string_scope.

Definition BRAND_NAME := "Vivid Tweaks".

(** The separator of the brand line in [src/index.js], as the file has
    it: U+201A U+00C4 U+00A2. *)
Definition BRAND_SEP : jsstring := [8218; 196; 162].

Definition SPACE : N := 32.

(** [pricesObj[key].amountMinor], read for a plan that is there. *)
Definition plan_amount (pricesObj : option (gmap string PlanPrice))
    (key : string) : N :=
  from_option amountMinor 0 (pricesObj ≫= (.!! key)).

(** [PLAN_LABELS[key]] inside a template literal. *)
Definition plan_label (key : string) : jsstring :=
  lit (default "undefined" (PLAN_LABELS key)).

(** *** Buttons *)

Inductive ButtonStyle := Primary | Secondary | Success | Danger.

Record Button := {
  b_customId : string;
  b_style : ButtonStyle;
  b_label : jsstring
}.

(** The components of a ticket message: a list of action rows. *)
Definition planButtonsForTicket (product : Product) : list (list Button) :=
  let plans := enabledPlans (product_prices product) in
  if Nat.eqb (length plans) 0 then []
  else
    let row :=
      fold_left
        (fun row planKey =>
           (row ++ [ {| b_customId := "tp:" ++ product_id product ++ ":" ++ planKey;
                        b_style := Primary;
                        b_label := (plan_label planKey ++ SPACE
                          :: minorToDisplay
                               (plan_amount (product_prices product) planKey))%list
                     |} ])%list)
        plans [] in
    [ (row ++ [ {| b_customId := "close_ticket"; b_style := Danger;
                   b_label := lit "Close Ticket" |} ])%list ].

(** *** Line items *)

Record Recurring := { interval : string; interval_count : N }.

Definition PLAN_INTERVAL (key : string) : option Recurring :=
  if String.eqb key "monthly"
  then Some {| interval := "month"; interval_count := 1 |}
  else if String.eqb key "annual"
  then Some {| interval := "year"; interval_count := 1 |}
  else None.

Record LineItem := {
  li_currency : string;
  li_unit_amount : N;
  li_name : jsstring;
  li_description : string;
  li_recurring : option Recurring;
  li_quantity : N
}.

Definition plan_not_available : Err :=
  {| ename := "Error"; emessage := "Plan not available" |}.

Definition makeLineItemForProduct (product : Product) (planKey : string)
    : outcome LineItem :=
  if negb (plan_amount_truthy (product_prices product) planKey)
  then Throw plan_not_available
  else
    let isSub := String.eqb planKey "monthly" || String.eqb planKey "annual" in
    let recurring := if isSub then PLAN_INTERVAL planKey else None in
    Ok {| li_currency := CURRENCY;
          li_unit_amount := plan_amount (product_prices product) planKey;
          li_name := (lit BRAND_NAME ++ SPACE :: BRAND_SEP ++ SPACE
                        :: lit (product_name product) ++ lit " ("
                        ++ plan_label planKey ++ lit ")")%list;
          li_description := product_description product;
          li_recurring := recurring;
          li_quantity := 1 |}.

End Catalog.

(** ** Checkout, donations, configuration commands and tickets of
    [src/index.js] *)

Module Desk.
Import Js Money Mongo Service Catalog.
Local Open Scope string_scope.

(** Who runs a slash command, after [interaction.isChatInputCommand()]. *)
Record command := {
  c_guild : option string;
  c_user : string;
  c_admin : bool
}.

Definition set_tickets (c : list doc) (s : state) : state :=
  {| products := products s; shop_config := shop_config s;
     purchases := purchases s; refund_requests := refund_requests s;
     tickets := c; entitlements := entitlements s;
     configCache := configCache s; effects := effects s |}.

(** The unique index of the tickets collection. *)
Definition ticket_indexes : list index :=
  [ {| index_fields := ["guildId"; "channelId"]; index_sparse := false |} ].

Section Handlers.
Variable E : env.
Variable now : Z.

Definition ensureAllowedGuild (guild : option string) : M bool :=
  if negb (bool_decide (guild = Some ALLOWED_GUILD_ID)) then
    reply "This bot is locked to one server. Not this one.";; mret false
  else mret true.

Definition requireAdmin (admin : bool) : M bool :=
  if negb admin then
    reply "Administrator permission required.";; mret false
  else mret true.

(** The last resort of the interaction listener. *)
Definition guarded (m : M unit) : M unit :=
  try_catch m (fun _ => reply "Something broke. Shocking.").

(** *** Product checkout *)

Definition product_metadata (purchaseId guildId userId : string)
    (product : Product) (planKey : string) : list (string * string) :=
  [ ("purchase_id", purchaseId);
    ("guild_id", guildId);
    ("user_id", userId);
    ("type", "product");
    ("product_id", product_id product);
    ("product_name", product_name product);
    ("plan_key", planKey);
    ("role_id", product_roleId product);
    ("amount_minor",
      string_of_list_ascii
        (List.map ascii_of_N
           (Number_toString (plan_amount (product_prices product) planKey))));
    ("currency", CURRENCY) ].

Definition createCheckoutSessionForProduct
    (guildId userId : string) (product : Product) (planKey purchaseId : string)
    : M string :=
  let isSubscription :=
    String.eqb planKey "monthly" || String.eqb planKey "annual" in
  match makeLineItemForProduct product planKey with
  | Throw e => throw e
  | Ok lineItem =>
      let mode := if isSubscription then "subscription" else "payment" in
      let metadata :=
        product_metadata purchaseId guildId userId product planKey in
      session ← call (StripeCheckoutCreate mode metadata (li_unit_amount lineItem))
                  (checkout_sessions_create E mode metadata);
      s ← get;
      store (insertOne purchase_indexes
               (set_fields
                  [ ("purchaseId", VStr purchaseId);
                    ("guildId", VStr guildId);
                    ("userId", VStr userId);
                    ("type", VStr "product");
                    ("productId", VStr (product_id product));
                    ("productName", VStr (product_name product));
                    ("planKey", VStr planKey);
                    ("roleId", VStr (product_roleId product));
                    ("amountMinor",
                      VNum (plan_amount (product_prices product) planKey));
                    ("currency", VStr CURRENCY);
                    ("stripeSessionId", VStr session.1);
                    ("status", VStr "created");
                    ("createdAt", VDate now) ] ∅)
               (purchases s))
            set_purchases;;
      mret session.2
  end.

(** *** [/donate]. [amountRaw] is the required [amount] option and
    [purchaseId] what [makePurchaseId] returns in this run. The test
    [!minor] rejects [null] and 0. *)
Definition donate_command (c : command) (amountRaw : jsstring)
    (purchaseId : string) : M unit :=
  guarded
    (allowed ← ensureAllowedGuild (c_guild c);
     if negb allowed then mret tt
     else
       match amountToMinorUnits amountRaw with
       | None => reply "Invalid amount. Example: 5 or 9.99"
       | Some minor =>
           if (minor =? 0)%N then reply "Invalid amount. Example: 5 or 9.99"
           else if (minor <? 100)%N then reply "Minimum donation is ¬£1.00"
           else
             Shop.createCheckoutSessionForDonation E now
               ALLOWED_GUILD_ID (c_user c) minor purchaseId;;
             reply ("Your donation checkout is ready (Purchase ID: `"
                    ++ purchaseId
                    ++ "`). Please check your DMs or this channel shortly.")
       end).

(** *** [/setthankschannel] and [/setsupportrole]. The channel option is
    given by its id and by whether it is a guild text channel. *)
Definition setthankschannel_command (c : command) (ch : string * bool)
    : M unit :=
  guarded
    (allowed ← ensureAllowedGuild (c_guild c);
     if negb allowed then mret tt
     else
       admin ← requireAdmin (c_admin c);
       if negb admin then mret tt
       else if negb ch.2 then reply "Pick a normal text channel."
       else
         Shop.upsertConfig now ALLOWED_GUILD_ID [("thanksChannelId", VStr ch.1)];;
         reply ("Thanks channel set to <#" ++ ch.1 ++ ">")).

Definition setsupportrole_command (c : command) (role : string) : M unit :=
  guarded
    (allowed ← ensureAllowedGuild (c_guild c);
     if negb allowed then mret tt
     else
       admin ← requireAdmin (c_admin c);
       if negb admin then mret tt
       else
         Shop.upsertConfig now ALLOWED_GUILD_ID [("supportRoleId", VStr role)];;
         reply ("Support role set to <@&" ++ role ++ ">")).

(** *** Tickets *)

(** The category lookup goes by name, like the lookup of the log channel;
    the two names differ. *)
Definition ensureTicketsCategory (guild : string) : M string :=
  match channels_cache_find E guild "vivid-tickets" with
  | Some existing => mret existing
  | None =>
      call (ChannelCreate guild "vivid-tickets")
        (channels_create E guild "vivid-tickets")
  end.

Definition open_ticket (guild userId : string) : fields :=
  [("guildId", VStr guild); ("userId", VStr userId); ("status", VStr "open")].

(** The permission overwrites of the new channel (everyone, the user, the
    bot and the support role, if one is configured) are not part of the
    logged call. *)
Definition createOrGetTicketChannel (guild userId : string) : M string :=
  s ← get;
  let existing := findOne (open_ticket guild userId) (tickets s) in
  reuse ←
    match or_null (existing ≫= str_field "channelId") with
    | Some channelId =>
        match channels_fetch E guild channelId with
        | Some true => mret (Some channelId)
        | _ =>
            modify (fun s =>
              set_tickets
                (updateOne (open_ticket guild userId)
                   [("status", VStr "stale"); ("staleAt", VDate now)]
                   (tickets s)) s);;
            mret None
        end
    | None => mret None
    end;
  match reuse with
  | Some ch => mret ch
  | None =>
      cfg ← Shop.getConfig guild;
      let supportRoleId := or_null (cfg ≫= str_field "supportRoleId") in
      category ← ensureTicketsCategory guild;
      ch ← call (ChannelCreate guild ("ticket-" ++ userId))
             (channels_create E guild ("ticket-" ++ userId));
      s ← get;
      store (insertOne ticket_indexes
               (set_fields
                  [ ("guildId", VStr guild);
                    ("channelId", VStr ch);
                    ("userId", VStr userId);
                    ("status", VStr "open");
                    ("createdAt", VDate now) ] ∅)
               (tickets s))
            set_tickets;;
      mret ch
  end.

End Handlers.
End Desk.

(** ** The checkout rate limit and the panel helpers of the entitlement
    revision *)

Module EntUi.
Import Js Money Service Catalog.
Local Open Scope string_scope.

Definition ACTION_COOLDOWN_MS : Z := 2000.

(** [isCooling(key)] at clock reading [now]: the answer and the map it
    leaves. A key never seen reads as time 0. *)
Definition isCooling (now : Z) (key : string) (cooldown : gmap string Z)
    : bool * gmap string Z :=
  let last := default 0%Z (cooldown !! key) in
  if (now - last <? ACTION_COOLDOWN_MS)%Z then (true, cooldown)
  else (false, <[key := now]> cooldown).

(** A message component as Discord delivers it, and the builder made from
    it: the same data with the disabled flag set. *)
Record Component (A : Type) := {
  comp_type : N;
  comp_disabled : bool;
  comp_data : A
}.
Arguments comp_type {A} c.
Arguments comp_disabled {A} c.
Arguments comp_data {A} c.

Definition setDisabled {A} (b : bool) (c : Component A) : Component A :=
  {| comp_type := comp_type c; comp_disabled := b; comp_data := comp_data c |}.

(** [components] and each row's [components] may be missing. *)
Definition disableComponents {A}
    (components : option (list (option (list (Component A)))))
    : list (list (Component A)) :=
  fold_left
    (fun out row =>
       let newRow :=
         fold_left
           (fun newRow comp =>
              if (comp_type comp =? 2)%N then (newRow ++ [setDisabled true comp])%list
              else if (comp_type comp =? 3)%N
              then (newRow ++ [setDisabled true comp])%list
              else newRow)
           (default [] row) [] in
       if negb (Nat.eqb (length newRow) 0) then (out ++ [newRow])%list else out)
    (default [] components) [].

Definition ARROW : N := 8594.

Definition planButtons (product : Product) : list (list Button) :=
  let plans := enabledPlans (product_prices product) in
  if Nat.eqb (length plans) 0 then []
  else
    [ fold_left
        (fun row planKey =>
           (row ++ [ {| b_customId := "buy:" ++ product_id product ++ ":" ++ planKey;
                        b_style := Success;
                        b_label := (plan_label planKey ++ SPACE
                          :: Ent.minorToDisplay
                               (plan_amount (product_prices product) planKey))%list
                     |} ])%list)
        plans [] ].

Definition upgradeButtons (product : Product) : list (list Button) :=
  let prices := product_prices product in
  let row0 : list Button := [] in
  let '(row1, added1) :=
    if plan_amount_truthy prices "monthly" then
      ((row0 ++ [ {| b_customId := "upgrade:" ++ product_id product ++ ":monthly";
                     b_style := Primary;
                     b_label := (lit "Upgrade " ++ ARROW :: lit " Monthly "
                       ++ Ent.minorToDisplay (plan_amount prices "monthly"))%list
                  |} ])%list,
       true)
    else (row0, false) in
  let '(row2, added2) :=
    if plan_amount_truthy prices "annual" then
      ((row1 ++ [ {| b_customId := "upgrade:" ++ product_id product ++ ":annual";
                     b_style := Primary;
                     b_label := (lit "Upgrade " ++ ARROW :: lit " Annual "
                       ++ Ent.minorToDisplay (plan_amount prices "annual"))%list
                  |} ])%list,
       true)
    else (row1, added1) in
  if added2 then [row2] else [].

End EntUi.

(** ** Notions the further properties are stated with *)

Module Vocabulary.
Import Mongo Service.
Local Open Scope string_scope.

(** A run of [isCooling] calls, each with the clock reading and the key
    it is made with; the answers, in order. *)
Fixpoint presses (calls : list (Z * string)) (cooldown : gmap string Z)
    : list bool :=
  match calls with
  | [] => []
  | (t, key) :: rest =>
      let r := EntUi.isCooling t key cooldown in
      r.1 :: presses rest r.2
  end.

(** Every cache entry holds what the collection holds for its guild. *)
Definition cache_current (s : state) : Prop :=
  forall g d t,
    configCache s !! g = Some (d, t) ->
    d = findOne [("guildId", VStr g)] (shop_config s).

(** What a paid checkout may do to the outside world: a role is added
    only in the allowed guild, only for a product, and only the role and
    the user that the session metadata name; no role is removed, no
    refund is made and no subscription is cancelled. *)
Definition paid_effect (ses : session) (e : effect) : Prop :=
  let meta := default ∅ (session_metadata ses) in
  match e with
  | RoleAdd guild user role _ =>
      guild = ALLOWED_GUILD_ID /\ meta !! "type" = Some "product" /\
      meta !! "user_id" = Some user /\ meta !! "role_id" = Some role
  | RoleRemove _ _ _ _ | StripeRefundCreate _ | StripeSubscriptionCancel _
  | StripeCheckoutCreate _ _ _ => False
  | _ => True
  end.

(** The refunds among the calls. *)
Definition is_stripe_refund (e : effect) : bool :=
  match e with StripeRefundCreate _ => true | _ => false end.

(** A click on the reject button of request [requestId] by the approver. *)
Definition reject_click (i : interaction) (requestId : string) : Prop :=
  i_guild i = Some ALLOWED_GUILD_ID /\
  i_user i = REFUND_APPROVER_USER_ID /\
  i_customId i = "refund_reject:" ++ requestId /\
  split_colon requestId = [requestId].

End Vocabulary.

(** ** Sample data *)

Module Samples.
Import Mongo Service.
Local Open Scope string_scope.

Definition no_such : Err := {| ename := "Error"; emessage := "unavailable" |}.

(** An [ObjectId] constructor that takes the 24-digit hexadecimal texts
    and prints them in lower case. *)
Definition is_hex (c : N) : bool :=
  (((48 <=? c) && (c <=? 57)) || ((65 <=? c) && (c <=? 70))
   || ((97 <=? c) && (c <=? 102)))%N.

Definition lower_hex (c : N) : N :=
  (if (65 <=? c) && (c <=? 70) then c + 32 else c)%N.

Definition hex24 (text : string) : option string :=
  let l := Js.lit text in
  if Nat.eqb (length l) 24 && forallb is_hex l
  then Some (string_of_list_ascii (List.map (fun c => ascii_of_N (lower_hex c)) l))
  else None.

(** A world in which signature checking answers [ev], Discord knows the
    guild and its members, Stripe answers [sub] and [refund], and
    [ObjectId] takes the 24-digit hexadecimal texts. *)
Definition world (ev : outcome event) (sub : outcome subscription)
    (refund : outcome string) : env :=
  {| constructEvent := fun _ => ev;
     checkout_sessions_create := fun _ _ => Ok ("cs_test_1", "https://checkout.test/1");
     subscriptions_retrieve := fun _ => sub;
     refunds_create := fun _ => refund;
     subscriptions_cancel := fun _ => Ok tt;
     guilds_fetch := fun _ => true;
     members_fetch := fun _ _ => true;
     users_fetch := fun _ => true;
     roles_add := fun _ _ _ => true;
     roles_remove := fun _ _ _ => true;
     channels_fetch := fun _ _ => Some true;
     channels_cache_find := fun _ _ => Some "log-channel";
     channels_create := fun _ _ => Ok "log-channel";
     object_id := hex24 |}.

(** The same world, except that cancelling a subscription fails. *)
Definition world_cancel_fails (ev : outcome event) (sub : outcome subscription)
    (refund : outcome string) : env :=
  let W := world ev sub refund in
  {| constructEvent := constructEvent W;
     checkout_sessions_create := checkout_sessions_create W;
     subscriptions_retrieve := subscriptions_retrieve W;
     refunds_create := refunds_create W;
     subscriptions_cancel := fun _ => Throw no_such;
     guilds_fetch := guilds_fetch W;
     members_fetch := members_fetch W;
     users_fetch := users_fetch W;
     roles_add := roles_add W;
     roles_remove := roles_remove W;
     channels_fetch := channels_fetch W;
     channels_cache_find := channels_cache_find W;
     channels_create := channels_create W;
     object_id := object_id W |}.

Definition a_request : request :=
  {| req_body := "{}"; req_signature := Some "t=1,v1=abc" |}.

Definition store_of (p r e : list doc) : state :=
  {| products := []; shop_config := []; purchases := p; refund_requests := r;
     tickets := []; entitlements := e; configCache := ∅; effects := [] |}.

Definition HOUR : Z := 3600000.

(** A product purchase [VT-1], created by checkout session [cs_1]. *)
Definition purchase_created : doc :=
  set_fields
    [ ("purchaseId", VStr "VT-1"); ("guildId", VStr ALLOWED_GUILD_ID);
      ("userId", VStr "42"); ("type", VStr "product");
      ("productId", VStr "p1"); ("planKey", VStr "monthly");
      ("roleId", VStr "role-9"); ("amountMinor", VNum 499);
      ("currency", VStr "gbp"); ("stripeSessionId", VStr "cs_1");
      ("status", VStr "created"); ("createdAt", VDate 0) ] ∅.

(** The same purchase once paid at time 0 through subscription [sub_1]. *)
Definition purchase_paid : doc :=
  set_fields
    [ ("status", VStr "paid"); ("paidAt", VDate 0);
      ("stripePaymentIntentId", VNull);
      ("stripeSubscriptionId", VStr "sub_1");
      ("currentPeriodEnd", VDate 2592000000);
      ("subscriptionStatus", VStr "active");
      ("cancelAtPeriodEnd", VBool false) ] purchase_created.

(** A one-time purchase paid at time 0 through payment intent [pi_1]. *)
Definition purchase_paid_once : doc :=
  set_fields
    [ ("planKey", VStr "one_time"); ("status", VStr "paid");
      ("paidAt", VDate 0); ("stripePaymentIntentId", VStr "pi_1");
      ("stripeSubscriptionId", VNull) ] purchase_created.

Definition card_declined : Err :=
  {| ename := "StripeInvalidRequestError";
     emessage := "Charge ch_1 has already been refunded." |}.

(** A second row on the same subscription, already refunded. *)
Definition purchase_refunded : doc :=
  set_fields
    [ ("purchaseId", VStr "VT-2"); ("stripeSessionId", VStr "cs_2");
      ("status", VStr "refunded"); ("refundedAt", VDate 5) ] purchase_paid.

Definition request_pending : doc :=
  set_fields
    [ ("requestId", VStr "RR-1"); ("purchaseId", VStr "VT-1");
      ("guildId", VStr ALLOWED_GUILD_ID); ("requestedBy", VStr "7");
      ("status", VStr "pending"); ("createdAt", VDate (23 * HOUR)) ] ∅.


Definition entitlement_lifetime : doc :=
  set_fields
    [ ("guildId", VStr ALLOWED_GUILD_ID); ("userId", VStr "42");
      ("productId", VStr "p1"); ("status", VStr "active");
      ("planKey", VStr "lifetime") ] ∅.

Definition a_product : Product :=
  {| product_id := "p1"; product_guildId := ALLOWED_GUILD_ID;
     product_name := "Tweaks"; product_description := "Pack";
     product_roleId := "role-9";
     product_prices := Some {[ "monthly" := {| Money.amountMinor := 499 |} ]} |}.

Definition a_subscription : subscription :=
  {| sub_id := "sub_1"; sub_status := "active";
     sub_cancel_at_period_end := false; sub_current_period_end := Some 1700000000%Z;
     sub_latest_invoice_payment_intent := Some "pi_1" |}.

Definition approver_click (action requestId : string) : interaction :=
  {| i_guild := Some ALLOWED_GUILD_ID; i_user := REFUND_APPROVER_USER_ID;
     i_admin := false; i_customId := action ++ ":" ++ requestId |}.

Definition session_of (meta : list (string * string)) (sub : option string)
    : session :=
  {| session_id := "cs_1"; session_metadata := Some (list_to_map meta);
     session_payment_intent := None; session_subscription := sub |}.

End Samples.

Module MoneyFacts.
Import Js Money.

Lemma round_half_even_1 n : round_half_even n 1 = n.
Proof.
  unfold round_half_even. rewrite N.div_1_r, N.mod_1_r. reflexivity.
Qed.

Lemma round64_exact n : n < 2 ^ 53 -> round64 n = Fin n.
Proof.
  intros H. unfold round64.
  assert (Hs : N.size n - 53 = 0).
  { destruct (N.eq_dec n 0) as [->|Hn]; [reflexivity|].
    rewrite N.size_log2 by assumption.
    assert (N.log2 n < 53) by (apply N.log2_lt_pow2; lia). lia. }
  rewrite Hs, N.pow_0_r, round_half_even_1, N.mul_1_r.
  destruct (N.leb_spec (2 ^ 1024) n) as [Hle|_]; [|reflexivity].
  exfalso. assert (2 ^ 53 < 2 ^ 1024) by (apply N.pow_lt_mono_r; lia). lia.
Qed.

(** The arithmetic above agrees with the binary64 specification of the
    Standard Library on the boundary cases and on a sweep of integers. *)
Example round64_agrees_ieee :
  forallb round64_agrees
    ([0; 1; 2 ^ 53 - 1; 2 ^ 53; 2 ^ 53 + 1; 2 ^ 53 + 2; 2 ^ 53 + 3;
      2 ^ 54 + 2; 2 ^ 54 + 5; 2 ^ 54 + 6; 10 ^ 23; 10 ^ 308; 2 * 10 ^ 308;
      2 ^ 1024 - 2 ^ 970 - 1; 2 ^ 1024 - 2 ^ 970; 2 ^ 1024 - 1; 2 ^ 1024;
      10 ^ 400]
     ++ List.map (fun x => x * x * x) (sample_integers 2000 999)) = true.
Proof. vm_compute. reflexivity. Qed.

Example fdiv_agrees_ieee :
  forallb (fun n => fdiv_agrees n 100)
    ([0; 1; 5; 99; 100; 101; 7036874417766399; 7036874417766400;
      7036874417766401; 2 ^ 53 - 1; 2 ^ 53; 2 ^ 1000]
     ++ List.map (fun x => x mod 2 ^ 53) (sample_integers 2000 12345)) = true.
Proof. vm_compute. reflexivity. Qed.

Lemma digit_not_dot c : is_digit c = true -> (c =? DOT) = false.
Proof.
  unfold is_digit, DOT. intros H. apply andb_true_iff in H as [H1 H2].
  apply N.leb_le in H1. apply N.eqb_neq. lia.
Qed.

Lemma take_drop_digits t : take_digits t ++ drop_digits t = t.
Proof.
  induction t as [|c r IH]; simpl; [reflexivity|].
  destruct (is_digit c); simpl; [now rewrite IH | reflexivity].
Qed.

Lemma take_digits_all t : forallb is_digit (take_digits t) = true.
Proof.
  induction t as [|c r IH]; simpl; [reflexivity|].
  destruct (is_digit c) eqn:E; simpl; [now rewrite E | reflexivity].
Qed.

Lemma drop_digits_head t c r : drop_digits t = c :: r -> is_digit c = false.
Proof.
  induction t as [|a t IH]; simpl; [discriminate|].
  destruct (is_digit a) eqn:E; [exact IH|]. intros [= <- _]. exact E.
Qed.

Lemma take_drop_app w r :
  forallb is_digit w = true ->
  match r with [] => True | c :: _ => is_digit c = false end ->
  take_digits (w ++ r) = w /\ drop_digits (w ++ r) = r.
Proof.
  intros Hw Hr. induction w as [|a w IH]; simpl in *.
  - destruct r as [|c r]; simpl; [auto|]. now rewrite Hr.
  - apply andb_true_iff in Hw as [Ha Hw]. rewrite Ha.
    destruct (IH Hw) as [-> ->]. auto.
Qed.

Lemma split_digits w r :
  forallb is_digit w = true -> split DOT (w ++ DOT :: r) = w :: split DOT r.
Proof.
  intros Hw. induction w as [|a w IH]; simpl in *.
  - reflexivity.
  - apply andb_true_iff in Hw as [Ha Hw].
    rewrite (digit_not_dot _ Ha), (IH Hw). reflexivity.
Qed.

Lemma split_nodot w : forallb is_digit w = true -> split DOT w = [w].
Proof.
  intros Hw. induction w as [|a w IH]; simpl in *; [reflexivity|].
  apply andb_true_iff in Hw as [Ha Hw].
  rewrite (digit_not_dot _ Ha), (IH Hw). reflexivity.
Qed.

Lemma digits_value_snoc w d :
  digits_value (w ++ [d]) = 10 * digits_value w + (d - 48).
Proof. unfold digits_value. rewrite fold_left_app. reflexivity. Qed.

Lemma digit_range d : is_digit d = true -> d - 48 <= 9.
Proof.
  unfold is_digit. intros H. apply andb_true_iff in H as [H1 H2].
  apply N.leb_le in H1, H2. lia.
Qed.

(** What [amountToMinorUnits] reads off a numeral: the regular expression
    accepts it, and the two [Number] calls see its whole part and its
    hundredths. *)
Lemma decimal2_parse t W F :
  decimal2 t W F ->
  amount_re t = true /\
  Number (nth 0 (split DOT t) []) = round64 W /\
  Number (slice0 2 (padEnd 2 ZERO (nth 1 (split DOT t) []))) = round64 F /\
  F < 100.
Proof.
  intros H. destruct H as [w Hne Hw | w d Hne Hw Hd | w d1 d2 Hne Hw Hd1 Hd2].
  - unfold amount_re.
    destruct (take_drop_app w [] Hw I) as [Ht Hd].
    rewrite app_nil_r in Ht, Hd. rewrite Ht, Hd.
    rewrite (split_nodot _ Hw). simpl.
    unfold Number. rewrite Hw. repeat split; try reflexivity; try lia.
    destruct w; [congruence | reflexivity].
  - unfold amount_re.
    destruct (take_drop_app w [DOT; d] Hw eq_refl) as [-> ->].
    assert (Hf : forallb is_digit [d] = true) by (simpl; now rewrite Hd).
    rewrite (split_digits _ _ Hw), (split_nodot _ Hf).
    pose proof (digit_range _ Hd).
    repeat split.
    + rewrite Hf. destruct w; [congruence | reflexivity].
    + cbn [nth]. unfold Number. now rewrite Hw.
    + cbn [nth]. unfold Number, slice0, padEnd. cbn. rewrite Hd. cbn.
      f_equal. unfold ZERO. lia.
    + lia.
  - unfold amount_re.
    destruct (take_drop_app w [DOT; d1; d2] Hw eq_refl) as [-> ->].
    assert (Hf : forallb is_digit [d1; d2] = true)
      by (simpl; now rewrite Hd1, Hd2).
    rewrite (split_digits _ _ Hw), (split_nodot _ Hf).
    pose proof (digit_range _ Hd1). pose proof (digit_range _ Hd2).
    repeat split.
    + rewrite Hf. destruct w; [congruence | reflexivity].
    + cbn [nth]. unfold Number. now rewrite Hw.
    + cbn [nth]. unfold Number, slice0, padEnd. cbn. rewrite Hd1, Hd2. cbn.
      f_equal.
    + lia.
Qed.

(** Conversely, whatever the regular expression accepts is a numeral. *)
Lemma amount_re_decimal2 t :
  amount_re t = true -> exists W F, decimal2 t W F.
Proof.
  unfold amount_re. intros H. apply andb_true_iff in H as [Hn Hr].
  assert (Hne : take_digits t <> []).
  { destruct (take_digits t); [discriminate | congruence]. }
  pose proof (take_digits_all t) as Hw.
  rewrite <- (take_drop_digits t).
  destruct (drop_digits t) as [|c fr] eqn:Ed.
  - rewrite app_nil_r. eauto using decimal2_whole.
  - repeat (apply andb_true_iff in Hr as [Hr ?]).
    apply N.eqb_eq in Hr. subst c.
    destruct fr as [|d1 [|d2 [|]]]; simpl in *; try discriminate.
    + repeat (match goal with H : _ && _ = true |- _ =>
        apply andb_true_iff in H as [? ?] end).
      eauto using decimal2_frac1.
    + repeat (match goal with H : _ && _ = true |- _ =>
        apply andb_true_iff in H as [? ?] end).
      eauto using decimal2_frac2.
Qed.

Local Ltac divmod := zify; Z.to_euclidean_division_equations; lia.

Lemma digits_aux_fuel f1 : forall f2 n,
  n < 2 ^ N.of_nat (S f1) -> n < 2 ^ N.of_nat (S f2) ->
  digits_aux (S f1) n = digits_aux (S f2) n.
Proof.
  induction f1 as [|f1 IH]; intros f2 n H1 H2.
  - change (2 ^ N.of_nat 1) with 2 in H1. cbn [digits_aux].
    destruct (N.ltb_spec n 10); [reflexivity | lia].
  - cbn [digits_aux]. destruct (N.ltb_spec n 10) as [|Hn]; [reflexivity|].
    destruct f2 as [|f2].
    { change (2 ^ N.of_nat 1) with 2 in H2. lia. }
    f_equal. apply IH.
    + rewrite Nat2N.inj_succ, N.pow_succ_r' in H1.
      apply N.Div0.div_lt_upper_bound. lia.
    + rewrite Nat2N.inj_succ, N.pow_succ_r' in H2.
      apply N.Div0.div_lt_upper_bound. lia.
Qed.

Lemma to_digits_small n : n < 10 -> to_digits n = [48 + n].
Proof.
  intros H. unfold to_digits. cbn [digits_aux].
  destruct (N.ltb_spec n 10); [reflexivity | lia].
Qed.

Lemma to_digits_step n :
  10 <= n -> to_digits n = to_digits (n / 10) ++ [48 + n mod 10].
Proof.
  intros H. unfold to_digits at 1. cbn [digits_aux].
  destruct (N.ltb_spec n 10); [lia|]. f_equal.
  assert (Hl : 3 <= N.log2 n).
  { change 3 with (N.log2 8). apply N.log2_le_mono. lia. }
  destruct (N.to_nat (N.log2 n)) as [|m] eqn:Em; [lia|].
  unfold to_digits. apply digits_aux_fuel.
  - rewrite <- Em, N2Nat.id.
    destruct (N.log2_spec n) as [_ Hu]; [lia|].
    rewrite N.pow_succ_r' in Hu. apply N.Div0.div_lt_upper_bound. lia.
  - rewrite Nat2N.inj_succ, N2Nat.id.
    apply N.log2_spec. apply N.div_str_pos. lia.
Qed.

Lemma to_digits_length n : (1 <= length (to_digits n))%nat.
Proof.
  destruct (N.lt_ge_cases n 10) as [H|H].
  - rewrite to_digits_small by assumption. simpl. lia.
  - rewrite to_digits_step by assumption. rewrite length_app. simpl. lia.
Qed.

Lemma to_digits_value n :
  digits_value (to_digits n) = n /\ forallb is_digit (to_digits n) = true.
Proof.
  induction n as [n IH] using (well_founded_induction N.lt_wf_0).
  destruct (N.lt_ge_cases n 10) as [H|H].
  - rewrite to_digits_small by assumption. unfold digits_value, is_digit.
    cbn [fold_left forallb]. split; [lia|].
    rewrite andb_true_r. apply andb_true_iff.
    split; apply N.leb_le; lia.
  - rewrite to_digits_step by assumption.
    destruct (IH (n / 10)) as [Hv Hd]; [divmod|].
    rewrite digits_value_snoc, Hv, forallb_app, Hd. cbn [forallb andb].
    split; [divmod|]. unfold is_digit. rewrite andb_true_r.
    apply andb_true_iff. split; apply N.leb_le; divmod.
Qed.

(** An integer from [2^53] on does not round below [2^53]. *)
Lemma round64_large m y : round64 m = Fin y -> y < 2 ^ 53 -> m = y.
Proof.
  intros Hr Hy. destruct (N.lt_ge_cases m (2 ^ 53)) as [Hm|Hm].
  { rewrite round64_exact in Hr by assumption. now injection Hr. }
  exfalso. unfold round64 in Hr.
  set (sh := N.size m - 53) in *.
  destruct (2 ^ 1024 <=? _); [discriminate|]. injection Hr as <-.
  assert (Hm0 : m <> 0) by (intros ->; cbn in Hm; lia).
  assert (Hl : 53 <= N.log2 m).
  { change 53 with (N.log2 (2 ^ 53)). now apply N.log2_le_mono. }
  assert (Hsh : sh = N.log2 m - 52).
  { unfold sh. rewrite N.size_log2 by assumption. lia. }
  destruct (N.log2_spec m) as [Hlo _]; [lia|].
  assert (Hq : 2 ^ 52 <= m / 2 ^ sh).
  { apply N.div_le_lower_bound; [apply N.pow_nonzero; lia|].
    rewrite <- N.pow_add_r. rewrite Hsh.
    replace (N.log2 m - 52 + 52) with (N.log2 m) by lia. exact Hlo. }
  assert (Hr' : m / 2 ^ sh <= round_half_even m (2 ^ sh)).
  { unfold round_half_even. destruct (_ || _); lia. }
  assert (Hp : 2 <= 2 ^ sh).
  { change 2 with (2 ^ 1) at 1. apply N.pow_le_mono_r; lia. }
  assert (2 ^ 53 <= round_half_even m (2 ^ sh) * 2 ^ sh).
  { change (2 ^ 53) with (2 ^ 52 * 2). apply N.mul_le_mono; lia. }
  lia.
Qed.

Lemma to_digits_bounds x :
  0 < x ->
  10 ^ (N.of_nat (length (to_digits x)) - 1) <= x
  /\ x < 10 ^ N.of_nat (length (to_digits x)).
Proof.
  induction x as [x IH] using (well_founded_induction N.lt_wf_0). intros Hx.
  destruct (N.lt_ge_cases x 10) as [H|H].
  - rewrite to_digits_small by assumption. cbn [length].
    change (10 ^ (N.of_nat 1 - 1)) with 1. change (10 ^ N.of_nat 1) with 10. lia.
  - rewrite to_digits_step by assumption. rewrite length_app. cbn [length].
    destruct (IH (x / 10)) as [Hlo Hhi]; [divmod | divmod |].
    pose proof (to_digits_length (x / 10)) as Hl.
    replace (N.of_nat (length (to_digits (x / 10)) + 1))
      with (N.succ (N.of_nat (length (to_digits (x / 10))))) by lia.
    rewrite N.pow_succ_r'.
    replace (N.succ (N.of_nat (length (to_digits (x / 10)))) - 1)
      with (N.succ (N.of_nat (length (to_digits (x / 10))) - 1)) by lia.
    rewrite N.pow_succ_r'.
    generalize dependent (10 ^ (N.of_nat (length (to_digits (x / 10))) - 1)).
    generalize dependent (10 ^ N.of_nat (length (to_digits (x / 10)))).
    intros U HU L HL. split; divmod.
Qed.

Lemma to_digits_shift v j :
  0 < v -> to_digits (v * 10 ^ N.of_nat j) = to_digits v ++ repeat ZERO j.
Proof.
  intros Hv. induction j as [|j IH].
  - cbn [repeat]. rewrite N.pow_0_r, N.mul_1_r, app_nil_r. reflexivity.
  - rewrite Nat2N.inj_succ, N.pow_succ_r'.
    assert (Hp : 0 < 10 ^ N.of_nat j) by (apply N.neq_0_lt_0, N.pow_nonzero; lia).
    rewrite to_digits_step by nia.
    replace (v * (10 * 10 ^ N.of_nat j) / 10) with (v * 10 ^ N.of_nat j).
    2:{ symmetry. replace (v * (10 * 10 ^ N.of_nat j))
          with (v * 10 ^ N.of_nat j * 10) by lia.
        apply N.div_mul. lia. }
    replace (v * (10 * 10 ^ N.of_nat j) mod 10) with 0.
    2:{ symmetry. replace (v * (10 * 10 ^ N.of_nat j))
          with (v * 10 ^ N.of_nat j * 10) by lia.
        apply N.Div0.mod_mul. }
    rewrite IH, <- app_assoc. f_equal.
    change (48 + 0) with ZERO. change [ZERO] with (repeat ZERO 1).
    rewrite <- repeat_app. f_equal. lia.
Qed.

Definition prints (x : N) (r : N * N) : Prop :=
  to_digits r.1 ++ repeat ZERO (N.to_nat r.2 - length (to_digits r.1))
  = to_digits x.

Lemma pick_digits_exact x k r :
  0 < x -> x < 2 ^ 53 -> pick_digits x k = Some r -> prints x r.
Proof.
  intros H0 Hx. unfold pick_digits. cbv zeta.
  set (d := N.of_nat (length (to_digits x))).
  set (p := 10 ^ (d - k)).
  destruct (to_digits_bounds x H0) as [Hlo Hhi]. fold d in Hlo, Hhi.
  assert (Hok : forall v,
            match round64 (v * p) with Fin y => y =? x | _ => false end = true ->
            prints x (if v =? 10 ^ k then (10 ^ (k - 1), d + 1) else (v, d))).
  { intros v Hv.
    destruct (round64 (v * p)) as [y| |] eqn:Er; try discriminate.
    apply N.eqb_eq in Hv. subst y.
    apply round64_large in Er; [|assumption].
    assert (Hp : 0 < p) by (apply N.neq_0_lt_0, N.pow_nonzero; lia).
    assert (Hv0 : 0 < v) by nia.
    destruct (N.eqb_spec v (10 ^ k)) as [->|_].
    { exfalso. unfold p in Er. rewrite <- N.pow_add_r in Er.
      assert (d <= k + (d - k)) by lia.
      assert (10 ^ d <= 10 ^ (k + (d - k))) by (apply N.pow_le_mono_r; lia).
      lia. }
    assert (Hs : to_digits x = to_digits v ++ repeat ZERO (N.to_nat (d - k))).
    { rewrite <- Er. unfold p. rewrite <- (N2Nat.id (d - k)) at 1.
      now apply to_digits_shift. }
    unfold prints. cbn [fst snd]. rewrite Hs. f_equal. f_equal.
    assert (length (to_digits x) =
            (length (to_digits v) + N.to_nat (d - k))%nat)
      by now rewrite Hs, length_app, repeat_length.
    unfold d in *. lia. }
  pose proof (Hok (x / p)) as H1. pose proof (Hok (x / p + 1)) as H2.
  destruct (match round64 (x / p * p) with Fin y => y =? x | _ => false end);
    destruct (match round64 ((x / p + 1) * p) with
              | Fin y => y =? x | _ => false end);
    intros H;
    repeat match type of H with
           | (if ?c then _ else _) = _ => destruct c
           end;
    try discriminate; injection H as <-; auto.
Qed.

Lemma shortest_digits_exact x : 0 < x -> x < 2 ^ 53 ->
  forall tries k, prints x (shortest_digits tries x k).
Proof.
  intros H0 Hx. induction tries as [|t IH]; intros k; cbn [shortest_digits].
  - unfold prints. cbn [fst snd]. rewrite Nat2N.id, Nat.sub_diag.
    apply app_nil_r.
  - destruct (pick_digits x k) as [r|] eqn:Ep; [|apply IH].
    exact (pick_digits_exact x k r H0 Hx Ep).
Qed.

(** An integer below [2^53] prints as its own digits. *)
Lemma Number_toString_exact n : n < 2 ^ 53 -> Number_toString n = to_digits n.
Proof.
  intros Hn. unfold Number_toString.
  assert (H21 : 2 ^ 53 < 10 ^ 21) by reflexivity.
  rewrite (proj2 (N.ltb_lt n (10 ^ 21))) by lia.
  destruct (N.eq_dec n 0) as [->|Hn0]; [reflexivity|].
  unfold toString_plain.
  pose proof (shortest_digits_exact n ltac:(lia) Hn 17%nat 1) as H.
  destruct (shortest_digits 17 n 1) as [s m]. exact H.
Qed.

Example Number_toString_samples :
  List.map Number_toString
    [0; 7; 1000; 9007199254740991; 9007199254740992; 32404672708522488;
     18014398509481988; 123456789012345680000; 10 ^ 21; 2 ^ 70]
  = List.map lit
      ["0"; "7"; "1000"; "9007199254740991"; "9007199254740992";
       "32404672708522490"; "18014398509481988"; "123456789012345680000";
       "1e+21"; "1.1805916207174113e+21"]%string.
Proof. vm_compute. reflexivity. Qed.

(** The displayed numeral is an unsigned decimal with two fractional
    digits, and it denotes the amount it was made from. *)
Lemma display_decimal2 W F :
  F < 100 -> decimal2 (to_digits W ++ DOT :: two_digits F) W F.
Proof.
  intros HF. destruct (to_digits_value W) as [Hv Hd].
  pose proof (decimal2_frac2 (to_digits W) (48 + F / 10) (48 + F mod 10)) as H.
  rewrite Hv in H.
  replace (10 * (48 + F / 10 - 48) + (48 + F mod 10 - 48)) with F in H
    by divmod.
  apply H.
  - pose proof (to_digits_length W). destruct (to_digits W); [cbn in *; lia | discriminate].
  - exact Hd.
  - unfold is_digit. apply andb_true_iff. split; apply N.leb_le; divmod.
  - unfold is_digit. apply andb_true_iff. split; apply N.leb_le; divmod.
Qed.

Lemma fixed_digits_spec n :
  fixed_digits n = to_digits (n / 100) ++ DOT :: two_digits (n mod 100).
Proof.
  unfold fixed_digits, two_digits.
  destruct (N.lt_ge_cases n 10) as [H10|H10].
  - assert (Hm : (if n =? 0 then [ZERO] else to_digits n) = [48 + n]).
    { destruct (N.eqb_spec n 0) as [->|_]; [reflexivity|].
      now apply to_digits_small. }
    rewrite Hm. rewrite (N.div_small n 100), (N.mod_small n 100) by lia.
    rewrite (N.div_small n 10), (N.mod_small n 10) by lia.
    reflexivity.
  - destruct (N.eqb_spec n 0) as [|_]; [lia|].
    destruct (N.lt_ge_cases n 100) as [H100|H100].
    + rewrite (to_digits_step n H10).
      rewrite (to_digits_small (n / 10)) by divmod.
      rewrite (N.div_small n 100), (N.mod_small n 100) by lia.
      reflexivity.
    + rewrite (to_digits_step n H10).
      rewrite (to_digits_step (n / 10)) by divmod.
      replace (n / 10 / 10) with (n / 100) by divmod.
      replace (n mod 100 / 10) with ((n / 10) mod 10) by divmod.
      replace ((n mod 100) mod 10) with (n mod 10) by divmod.
      set (a := to_digits (n / 100)).
      pose proof (to_digits_length (n / 100)) as Hl. fold a in Hl.
      rewrite <- app_assoc. cbn [app].
      rewrite !length_app. cbn [length].
      replace (3 - (length a + 2))%nat with 0%nat by lia.
      cbn [repeat app length].
      replace (0 + (length a + 2) - 2)%nat with (length a) by lia.
      now rewrite take_app_length, drop_app_length.
Qed.

(** Rounding to nearest moves the quotient by at most half a unit. *)
Lemma round_half_even_bound num den :
  0 < den ->
  2 * den * round_half_even num den <= 2 * num + den /\
  2 * num <= 2 * den * round_half_even num den + den.
Proof.
  intros Hd. unfold round_half_even.
  pose proof (N.div_mod num den ltac:(lia)) as Hq.
  pose proof (N.mod_lt num den ltac:(lia)) as Hr.
  set (q := num / den) in *. set (r := num mod den) in *.
  destruct (N.ltb_spec den (2 * r)); cbn [orb].
  - nia.
  - destruct (N.eqb_spec (2 * r) den); cbn [andb];
      [destruct (N.odd q)|]; nia.
Qed.

Lemma quot_log2_100 n :
  0 < n -> n < 100 * 2 ^ 46 -> (quot_log2 n 100 <= 45)%Z.
Proof.
  intros Hpos Hn. unfold quot_log2.
  change (N.log2 100) with 6.
  assert (Hl : N.log2 n < 53).
  { apply N.log2_lt_pow2; [assumption|].
    eapply N.lt_trans; [eassumption | reflexivity]. }
  set (k := (Z.of_N (N.log2 n) - Z.of_N 6)%Z).
  assert (Hk : (k <= 46)%Z) by (unfold k; lia).
  destruct (N.leb_spec (100 * 2 ^ Z.to_N k) (n * 2 ^ Z.to_N (- k)))
    as [Hle|_]; [|lia].
  destruct (Z.eq_dec k 46%Z) as [E|]; [|lia].
  rewrite E in Hle. change (Z.to_N 46%Z) with 46 in Hle.
  change (Z.to_N (- 46)%Z) with 0 in Hle. rewrite N.pow_0_r in Hle. lia.
Qed.

(** Below [2^46] pounds the division by 100 and [toFixed(2)] lose nothing:
    the display shows the whole pounds and the two pence digits. *)
Lemma minorToDisplay_exact n :
  n < 100 * 2 ^ 46 ->
  minorToDisplay n =
    CURRENCY_PREFIX ++ to_digits (n / 100) ++ DOT :: two_digits (n mod 100).
Proof.
  intros Hn. unfold minorToDisplay. f_equal.
  rewrite <- fixed_digits_spec. unfold fdiv.
  destruct (N.eqb_spec n 0) as [->|Hn0]; [reflexivity|].
  pose proof (quot_log2_100 n ltac:(lia) Hn) as HE.
  set (e := Z.max (quot_log2 n 100 - 52) (-1074)).
  assert (He : (-1074 <= e <= -7)%Z) by (unfold e; lia).
  unfold toFixed2. cbn [mant expo].
  replace (Z.to_N e) with 0 by lia.
  rewrite N.pow_0_r, !N.mul_1_r.
  set (s := Z.to_N (- e)).
  assert (Hs : 2 ^ 7 <= 2 ^ s) by (apply N.pow_le_mono_r; lia).
  change (2 ^ 7) with 128 in Hs.
  set (d := 2 ^ s) in *.
  destruct (round_half_even_bound (n * d) 100 ltac:(lia)) as [Hu Hl].
  set (m := round_half_even (n * d) 100) in *.
  assert (Hbig : 100 * 2 ^ 46 < 10 ^ 21) by reflexivity.
  destruct (N.leb_spec (10 ^ 21 * d) m) as [Hle|_].
  { exfalso. nia. }
  f_equal. symmetry.
  apply (N.div_unique _ _ n (200 * m + d - 2 * d * n)); nia.
Qed.

Lemma decimal2_head t W F :
  decimal2 t W F -> exists c r, t = c :: r /\ is_digit c = true.
Proof.
  intros H.
  assert (Hw : forall (w r : jsstring), w <> [] -> forallb is_digit w = true ->
            exists c r', w ++ r = c :: r' /\ is_digit c = true).
  { intros [|c w] r Hne Hd; [congruence|]. simpl in Hd.
    apply andb_true_iff in Hd as [Hc _]. exists c, (w ++ r). auto. }
  destruct H as [w Hne Hd | w d Hne Hd _ | w d1 d2 Hne Hd _ _].
  - rewrite <- (app_nil_r w). now apply Hw.
  - now apply Hw.
  - now apply Hw.
Qed.

(** The arithmetic of [amountToMinorUnits] on a numeral. *)
Lemma amountToMinorUnits_decimal2 s W F :
  decimal2 (trim s) W F ->
  amountToMinorUnits s =
    match add (mul (round64 W) (Fin 100)) (round64 F) with
    | Fin n => if n =? 0 then None else Some n
    | Inf | NaN => None
    end.
Proof.
  intros H. destruct (decimal2_parse _ _ _ H) as (Hre & HW & HF & _).
  unfold amountToMinorUnits. rewrite Hre. cbn [negb]. now rewrite HW, HF.
Qed.

(** What [amountToMinorUnits] returns is never zero. *)
Lemma amountToMinorUnits_positive s n :
  amountToMinorUnits s = Some n -> 0 < n.
Proof.
  unfold amountToMinorUnits. destruct (negb _); [discriminate|].
  destruct (add _ _) as [m| |]; try discriminate.
  destruct (N.eqb_spec m 0); [discriminate|]. intros [= <-]. lia.
Qed.

Lemma enabledPlans_filter pricesObj :
  enabledPlans pricesObj =
    List.filter (plan_amount_truthy pricesObj) PLAN_KEYS.
Proof.
  unfold enabledPlans, PLAN_KEYS. cbn [fold_left List.filter].
  repeat (destruct (plan_amount_truthy pricesObj _)); reflexivity.
Qed.

End MoneyFacts.

(** ** Facts about the document store *)

Module MongoFacts.
Import Mongo.

(** The unique-index invariant that [insertOne] maintains. *)
Definition unique_index (ix : index) (c : list doc) : Prop :=
  forall i j d d' k,
    c !! i = Some d -> c !! j = Some d' ->
    index_key ix d = Some k -> index_key ix d' = Some k -> i = j.

Lemma matches_lookup q d k v :
  matches q d = true -> In (k, v) q -> d !! k = Some v.
Proof.
  unfold matches. rewrite forallb_forall. intros H Hin.
  specialize (H _ Hin). now apply bool_decide_eq_true in H.
Qed.

Lemma set_fields_lookup_other u d k :
  ~ In k (List.map fst u) -> set_fields u d !! k = d !! k.
Proof.
  unfold set_fields. revert d.
  induction u as [|[k' v] u IH]; intros d Hk; [reflexivity|].
  cbn [fold_left fst snd]. rewrite IH.
  - apply lookup_insert_ne. intros ->. apply Hk. now left.
  - intros Hin. apply Hk. now right.
Qed.

(** A [$set] that writes none of the queried fields keeps the match. *)
Lemma matches_set_fields q u d :
  (forall k, In k (List.map fst q) -> ~ In k (List.map fst u)) ->
  matches q (set_fields u d) = matches q d.
Proof.
  intros Hdis. unfold matches.
  induction q as [|[k v] q IH]; [reflexivity|]. cbn [forallb fst snd].
  rewrite set_fields_lookup_other by (apply Hdis; now left).
  f_equal. apply IH. intros k' Hk'. apply Hdis. now right.
Qed.

Lemma findOne_Some q c d :
  findOne q c = Some d -> In d c /\ matches q d = true.
Proof. apply find_some. Qed.

Lemma findOne_split q c d :
  findOne q c = Some d ->
  exists c1 c2, c = (c1 ++ d :: c2)%list /\
    forallb (fun x => negb (matches q x)) c1 = true /\ matches q d = true.
Proof.
  unfold findOne. induction c as [|a c IH]; [discriminate|].
  cbn [List.find]. destruct (matches q a) eqn:Ea.
  - intros [= ->]. exists [], c. auto.
  - intros H. destruct (IH H) as (c1 & c2 & -> & H1 & H2).
    exists (a :: c1), c2. cbn [forallb]. rewrite Ea. auto.
Qed.

Lemma updateOne_split q u c1 d c2 :
  forallb (fun x => negb (matches q x)) c1 = true -> matches q d = true ->
  updateOne q u (c1 ++ d :: c2) = (c1 ++ set_fields u d :: c2)%list.
Proof.
  intros H1 H2. induction c1 as [|a c1 IH]; cbn [app updateOne].
  - now rewrite H2.
  - cbn [forallb] in H1. apply andb_true_iff in H1 as [Ha H1].
    apply negb_true_iff in Ha. rewrite Ha. f_equal. now apply IH.
Qed.

Lemma updateOne_none q u c :
  existsb (matches q) c = false -> updateOne q u c = c.
Proof.
  induction c as [|a c IH]; [reflexivity|]. cbn [existsb updateOne].
  intros H. apply orb_false_iff in H as [Ha H]. rewrite Ha. f_equal. auto.
Qed.

Lemma updateOne_length q u c : length (updateOne q u c) = length c.
Proof.
  induction c as [|a c IH]; [reflexivity|]. cbn [updateOne].
  destruct (matches q a); cbn [length]; congruence.
Qed.

(** Counting the rows a query selects is not affected by an update that
    leaves the queried fields alone. *)
Lemma updateOne_filter_length q q' u c :
  (forall k, In k (List.map fst q) -> ~ In k (List.map fst u)) ->
  length (List.filter (matches q) (updateOne q' u c)) =
  length (List.filter (matches q) c).
Proof.
  intros Hdis. induction c as [|a c IH]; [reflexivity|]. cbn [updateOne].
  destruct (matches q' a); cbn [List.filter].
  - rewrite (matches_set_fields q u a Hdis).
    destruct (matches q a); reflexivity.
  - destruct (matches q a); cbn [length]; congruence.
Qed.

Lemma existsb_matches_updateOne q q' u c :
  (forall k, In k (List.map fst q) -> ~ In k (List.map fst u)) ->
  existsb (matches q) (updateOne q' u c) = existsb (matches q) c.
Proof.
  intros Hdis. induction c as [|a c IH]; [reflexivity|]. cbn [updateOne].
  destruct (matches q' a); cbn [existsb].
  - now rewrite (matches_set_fields q u a Hdis).
  - now rewrite IH.
Qed.

Lemma index_key_matches ix q d :
  index_sparse ix = false -> List.map fst q = index_fields ix ->
  matches q d = true -> index_key ix d = Some (List.map snd q).
Proof.
  intros Hs Hf Hm. unfold index_key. rewrite Hs. cbn [andb]. f_equal.
  rewrite <- Hf. clear Hf. induction q as [|[k v] q IH]; [reflexivity|].
  cbn [List.map fst snd]. unfold matches in Hm. cbn [forallb] in Hm.
  apply andb_true_iff in Hm as [Hk Hm]. apply bool_decide_eq_true in Hk.
  cbn [fst snd] in Hk. rewrite Hk. cbn [default from_option]. f_equal. now apply IH.
Qed.

Lemma unique_index_cons ix a c :
  unique_index ix (a :: c) ->
  unique_index ix c /\
  forall d k, In d c -> index_key ix a = Some k -> index_key ix d <> Some k.
Proof.
  intros Hu. split.
  - intros i j d d' k Hi Hj Hd Hd'.
    specialize (Hu (S i) (S j) d d' k Hi Hj Hd Hd'). congruence.
  - intros d k Hin Ha Hd.
    apply list_elem_of_In, list_elem_of_lookup in Hin as [i Hi].
    specialize (Hu 0%nat (S i) a d k eq_refl Hi Ha Hd). discriminate.
Qed.

(** Under a unique index, a query on the indexed fields selects at most
    one row. *)
Lemma unique_filter_length ix q c :
  unique_index ix c ->
  index_sparse ix = false -> List.map fst q = index_fields ix ->
  (length (List.filter (matches q) c) <= 1)%nat.
Proof.
  intros Hu Hs Hf. induction c as [|a c IH]; cbn [List.filter length]; [lia|].
  apply unique_index_cons in Hu as [Hu Ha].
  destruct (matches q a) eqn:Ea; [|auto].
  assert (Hnone : List.filter (matches q) c = []).
  { destruct (List.filter (matches q) c) as [|d l] eqn:Ef; [reflexivity|].
    exfalso.
    assert (Hd : In d (List.filter (matches q) c)) by (rewrite Ef; now left).
    apply filter_In in Hd as [Hin Hd].
    eapply Ha; eauto using index_key_matches. }
  rewrite Hnone. cbn [length]. lia.
Qed.

Lemma matches_app q q' d :
  matches (q ++ q') d = matches q d && matches q' d.
Proof. unfold matches. apply forallb_app. Qed.

(** [insertOne] keeps every index it checks unique. *)
Lemma insertOne_unique ixs ix d c c' :
  In ix ixs -> unique_index ix c -> insertOne ixs d c = Some c' ->
  unique_index ix c'.
Proof.
  unfold insertOne. intros Hix Hu H.
  destruct (existsb _ ixs) eqn:Ex; [discriminate|]. injection H as <-.
  assert (Hd : duplicate_key ix d c = false).
  { destruct (duplicate_key ix d c) eqn:Ed; [|reflexivity].
    rewrite <- Ex. symmetry. apply existsb_exists. eauto. }
  unfold duplicate_key in Hd.
  assert (Hfresh : forall j d' k, c !! j = Some d' ->
            index_key ix d = Some k -> index_key ix d' = Some k -> False).
  { intros j d' k Hj Hk Hk'. rewrite Hk in Hd.
    assert (existsb (fun x => bool_decide (index_key ix x = Some k)) c = true).
    { apply existsb_exists. exists d'. split.
      - apply list_elem_of_In, list_elem_of_lookup. eauto.
      - now apply bool_decide_eq_true. }
    congruence. }
  intros i j a b k Hi Hj Ha Hb.
  destruct (decide (i < length c)%nat) as [Li|Li];
    destruct (decide (j < length c)%nat) as [Lj|Lj].
  - rewrite lookup_app_l in Hi, Hj by assumption. eauto.
  - rewrite lookup_app_l in Hi by assumption.
    rewrite lookup_app_r in Hj by lia.
    destruct (j - length c)%nat; [|discriminate]. injection Hj as <-.
    exfalso. eauto.
  - rewrite lookup_app_l in Hj by assumption.
    rewrite lookup_app_r in Hi by lia.
    destruct (i - length c)%nat; [|discriminate]. injection Hi as <-.
    exfalso. eauto.
  - rewrite lookup_app_r in Hi, Hj by lia.
    destruct (i - length c)%nat eqn:Ei; [|discriminate].
    destruct (j - length c)%nat eqn:Ej; [|discriminate]. lia.
Qed.

(** An update that writes none of the indexed fields keeps the index
    unique. *)
Lemma updateOne_unique_index ix q u c :
  (forall k, In k (index_fields ix) -> ~ In k (List.map fst u)) ->
  unique_index ix c -> unique_index ix (updateOne q u c).
Proof.
  intros Hdis Hu.
  assert (Hkey : forall d, index_key ix (set_fields u d) = index_key ix d).
  { intros d. unfold index_key.
    assert (Hl : forall k, In k (index_fields ix) ->
              set_fields u d !! k = d !! k)
      by (intros k Hk; apply set_fields_lookup_other; auto).
    revert Hl. generalize (index_fields ix). intros l Hl.
    assert (Hall : forallb (fun k => bool_decide (set_fields u d !! k = None)) l
                   = forallb (fun k => bool_decide (d !! k = None)) l).
    { induction l as [|k l IH]; [reflexivity|]. cbn [forallb].
      rewrite Hl by now left. f_equal. apply IH. intros; apply Hl. now right. }
    assert (Hmap : List.map (fun k => default VNull (set_fields u d !! k)) l
                   = List.map (fun k => default VNull (d !! k)) l).
    { clear Hall. induction l as [|k l IH]; [reflexivity|]. cbn [List.map].
      rewrite Hl by now left. f_equal. apply IH. intros; apply Hl. now right. }
    now rewrite Hall, Hmap. }
  assert (Hlook : forall i d, updateOne q u c !! i = Some d ->
            exists d0, c !! i = Some d0 /\ index_key ix d = index_key ix d0).
  { clear Hu. induction c as [|a c IH]; intros i d Hi; [discriminate|].
    cbn [updateOne] in Hi. destruct (matches q a).
    - destruct i as [|i]; cbn in Hi |- *.
      + injection Hi as <-. eauto.
      + eauto.
    - destruct i as [|i]; cbn in Hi |- *; [injection Hi as <-; eauto|].
      apply IH. exact Hi. }
  intros i j d d' k Hi Hj Hd Hd'.
  destruct (Hlook _ _ Hi) as (a & Ha & Ka).
  destruct (Hlook _ _ Hj) as (b & Hb & Kb).
  apply (Hu i j a b k Ha Hb); congruence.
Qed.

(** Under a unique index, a query on the indexed fields finds the row
    that carries those values. *)
Lemma findOne_unique ix q c d :
  unique_index ix c ->
  index_sparse ix = false -> List.map fst q = index_fields ix ->
  In d c -> matches q d = true -> findOne q c = Some d.
Proof.
  intros Hu Hs Hf Hin Hd. unfold findOne.
  induction c as [|a c IH]; [destruct Hin|]. cbn [List.find].
  apply unique_index_cons in Hu as [Hu Ha].
  destruct (matches q a) eqn:Ea.
  - destruct Hin as [->|Hin]; [reflexivity|]. exfalso.
    eapply Ha; eauto using index_key_matches.
  - destruct Hin as [->|Hin]; [congruence | auto].
Qed.

(** Under a unique index, [updateOne] on the indexed fields rewrites the
    one row that carries those values, in place. *)
Lemma updateOne_unique ix q u c1 d c2 :
  unique_index ix (c1 ++ d :: c2) ->
  index_sparse ix = false -> List.map fst q = index_fields ix ->
  matches q d = true ->
  forallb (fun x => negb (matches q x)) c1 = true /\
  updateOne q u (c1 ++ d :: c2) = (c1 ++ set_fields u d :: c2)%list.
Proof.
  intros Hu Hs Hf Hd.
  assert (Hc1 : forallb (fun x => negb (matches q x)) c1 = true).
  { apply forallb_forall. intros x Hx. apply negb_true_iff.
    destruct (matches q x) eqn:Ex; [exfalso | reflexivity].
    apply list_elem_of_In, list_elem_of_lookup in Hx as [i Hi].
    pose proof (lookup_lt_Some _ _ _ Hi) as Hlt.
    assert (H1 : (c1 ++ d :: c2) !! i = Some x)
      by (rewrite lookup_app_l; assumption).
    assert (H2 : (c1 ++ d :: c2) !! length c1 = Some d)
      by (rewrite list_lookup_middle; reflexivity).
    pose proof (Hu _ _ _ _ _ H1 H2
                  (index_key_matches ix q x Hs Hf Ex)
                  (index_key_matches ix q d Hs Hf Hd)).
    lia. }
  split; [assumption | now apply updateOne_split].
Qed.

(** A wider query selects no more rows. *)
Lemma filter_matches_app q q' c :
  (length (List.filter (matches (q ++ q')) c) <=
   length (List.filter (matches q) c))%nat.
Proof.
  induction c as [|a c IH]; cbn [List.filter]; [lia|].
  rewrite matches_app.
  destruct (matches q a); cbn [andb]; [|exact IH].
  destruct (matches q' a); cbn [length]; lia.
Qed.

Lemma existsb_filter_length (f : doc -> bool) c :
  existsb f c = true -> (1 <= length (List.filter f c))%nat.
Proof.
  induction c as [|a c IH]; cbn [existsb List.filter]; [discriminate|].
  destruct (f a); cbn [orb length]; [lia | exact IH].
Qed.

Lemma existsb_findOne q c :
  existsb (matches q) c = true -> exists d, findOne q c = Some d.
Proof.
  unfold findOne. induction c as [|a c IH]; cbn [existsb List.find];
    [discriminate|].
  destruct (matches q a); [eauto | exact IH].
Qed.

Lemma filter_none (f : doc -> bool) c :
  forallb (fun x => negb (f x)) c = true -> List.filter f c = [].
Proof.
  induction c as [|a c IH]; cbn [forallb List.filter]; [reflexivity|].
  intros H. apply andb_true_iff in H as [Ha H].
  apply negb_true_iff in Ha. rewrite Ha. auto.
Qed.

(** A field that a [$set] writes does not depend on what was there. *)
Lemma set_fields_lookup_same u d d' k :
  In k (List.map fst u) -> set_fields u d !! k = set_fields u d' !! k.
Proof.
  unfold set_fields. revert d d'.
  induction u as [|[k' v] u IH]; intros d d' Hk; [destruct Hk|].
  cbn [fold_left fst snd].
  destruct (in_dec string_dec k (List.map fst u)) as [Hin|Hout].
  - now apply IH.
  - change (fold_left (fun acc kv => <[kv.1:=kv.2]> acc) u ?m)
      with (set_fields u m).
    rewrite !set_fields_lookup_other by assumption.
    destruct Hk as [<-|Hk]; [|contradiction].
    cbn [fst]. now rewrite !lookup_insert_eq.
Qed.

(** A second [$set] of the same fields leaves nothing of the first. *)
Lemma set_fields_overwrite u1 u2 d :
  List.map fst u1 = List.map fst u2 ->
  set_fields u2 (set_fields u1 d) = set_fields u2 d.
Proof.
  intros Hk. apply map_eq. intros k.
  destruct (in_dec string_dec k (List.map fst u2)) as [Hin|Hout].
  - now apply set_fields_lookup_same.
  - rewrite !set_fields_lookup_other by congruence. reflexivity.
Qed.

Lemma updateOne_overwrite q u1 u2 c :
  (forall k, In k (List.map fst q) -> ~ In k (List.map fst u1)) ->
  List.map fst u1 = List.map fst u2 ->
  updateOne q u2 (updateOne q u1 c) = updateOne q u2 c.
Proof.
  intros Hdis Hk. induction c as [|a c IH]; [reflexivity|]. cbn [updateOne].
  destruct (matches q a) eqn:Ea; cbn [updateOne].
  - rewrite (matches_set_fields q u1 a Hdis), Ea.
    now rewrite set_fields_overwrite.
  - rewrite Ea. now rewrite IH.
Qed.

(** An update through a query that pins a uniquely indexed field: the
    query still selects exactly one row, the one the update rewrote. *)
Lemma updateOne_one_row ix q1 q2 u c :
  unique_index ix c ->
  index_sparse ix = false -> List.map fst q1 = index_fields ix ->
  existsb (matches (q1 ++ q2)) c = true ->
  (forall k, In k (List.map fst (q1 ++ q2)) -> ~ In k (List.map fst u)) ->
  exists d,
    In d c /\ matches (q1 ++ q2) d = true /\
    List.filter (matches (q1 ++ q2)) (updateOne (q1 ++ q2) u c) =
    [set_fields u d].
Proof.
  intros Hu Hs Hf Hex H1. set (q := (q1 ++ q2)%list) in *.
  destruct (existsb_findOne _ _ Hex) as [d Hd].
  destruct (findOne_split _ _ _ Hd) as (c1 & c2 & Hc & Hc1 & Hm).
  exists d. split; [now apply findOne_Some in Hd|]. split; [assumption|].
  assert (Hlen : length (List.filter (matches q) c) = 1%nat).
  { pose proof (existsb_filter_length _ _ Hex).
    pose proof (filter_matches_app q1 q2 c).
    pose proof (unique_filter_length ix q1 c Hu Hs Hf). fold q in H0. lia. }
  assert (Hc2 : List.filter (matches q) c2 = []).
  { rewrite Hc, List.filter_app, (filter_none _ _ Hc1) in Hlen.
    cbn [app List.filter] in Hlen. rewrite Hm in Hlen. cbn [length] in Hlen.
    destruct (List.filter (matches q) c2); [reflexivity | discriminate]. }
  rewrite Hc, (updateOne_split q u c1 d c2 Hc1 Hm).
  rewrite List.filter_app, (filter_none _ _ Hc1). cbn [app List.filter].
  rewrite matches_set_fields by assumption. now rewrite Hm, Hc2.
Qed.

(** [findOne] with a descending sort returns a match that no other match
    is later than. *)
Lemma findOne_desc_latest q k c p :
  findOne_desc q k c = Some p ->
  In p c /\ matches q p = true /\
  forall d, In d c -> matches q d = true ->
    earlier (date_field k p) (date_field k d) = false.
Proof.
  unfold findOne_desc.
  set (step := fun best d =>
         if matches q d then
           match best with
           | Some b =>
               if earlier (date_field k b) (date_field k d) then Some d else best
           | None => Some d
           end
         else best).
  assert (Htrans : forall a b c0, earlier a b = false -> earlier b c0 = false ->
                     earlier a c0 = false).
  { intros [x|] [y|] [z|]; cbn; try congruence; rewrite !Z.ltb_ge; lia. }
  assert (Hgen : forall c best (pre : list doc),
            match best with
            | Some b => In b pre /\ matches q b = true /\
                forall d, In d pre -> matches q d = true ->
                  earlier (date_field k b) (date_field k d) = false
            | None => forall d, In d pre -> matches q d = false
            end ->
            fold_left step c best = Some p ->
            In p (pre ++ c) /\ matches q p = true /\
            forall d, In d (pre ++ c) -> matches q d = true ->
              earlier (date_field k p) (date_field k d) = false).
  { clear c. induction c as [|a c IH]; intros best pre Hbest Hfold.
    - cbn in Hfold. subst best. rewrite app_nil_r. exact Hbest.
    - cbn [fold_left] in Hfold.
      replace (pre ++ a :: c)%list with ((pre ++ [a]) ++ c)%list
        by (now rewrite <- app_assoc).
      apply (IH (step best a)); [|exact Hfold].
      unfold step. destruct (matches q a) eqn:Ea.
      + destruct best as [b|].
        * destruct Hbest as (Hb1 & Hb2 & Hb3).
          destruct (earlier (date_field k b) (date_field k a)) eqn:Eba.
          -- split; [apply in_app_iff; right; now left|]. split; [assumption|].
             intros d Hd Hm. apply in_app_iff in Hd as [Hd|[<-|[]]].
             ++ assert (Hbd := Hb3 d Hd Hm).
                destruct (date_field k a) as [x|], (date_field k b) as [y|],
                  (date_field k d) as [z|]; cbn in *; try congruence;
                  rewrite ?Z.ltb_ge, ?Z.ltb_lt in *; lia.
             ++ destruct (date_field k a) as [x|]; cbn; [apply Z.ltb_irrefl | reflexivity].
          -- split; [apply in_app_iff; now left|]. split; [assumption|].
             intros d Hd Hm. apply in_app_iff in Hd as [Hd|[<-|[]]]; auto.
        * split; [apply in_app_iff; right; now left|]. split; [assumption|].
          intros d Hd Hm. apply in_app_iff in Hd as [Hd|[<-|[]]].
          -- rewrite (Hbest d Hd) in Hm. discriminate.
          -- destruct (date_field k a) as [x|]; cbn; [apply Z.ltb_irrefl | reflexivity].
      + destruct best as [b|].
        * destruct Hbest as (Hb1 & Hb2 & Hb3).
          split; [apply in_app_iff; now left|]. split; [assumption|].
          intros d Hd Hm. apply in_app_iff in Hd as [Hd|[<-|[]]]; [auto|congruence].
        * intros d Hd. apply in_app_iff in Hd as [Hd|[<-|[]]]; auto. }
  intros H. apply (Hgen c None []); [intros d []|exact H].
Qed.

Lemma updateMany_lookup q u c i :
  updateMany q u c !! i =
    (fun d => if matches q d then set_fields u d else d) <$> c !! i.
Proof. unfold updateMany. apply list_lookup_fmap. Qed.

End MongoFacts.

(** ** Facts about handlers: what a computation leaves alone *)

Module ServiceFacts.
Import Mongo Service.
Local Open Scope string_scope.

Lemma bind_run {A B} (m : M A) (f : A -> M B) s :
  (m ≫= f) s =
    match m s with
    | (Ok a, s') => f a s'
    | (Throw e, s') => (Throw e, s')
    end.
Proof. reflexivity. Qed.

Lemma emit_run e s : emit e s = (Ok tt, set_effects (effects s ++ [e]) s).
Proof. reflexivity. Qed.

Lemma call_run {A} e (r : outcome A) s :
  call e r s = (r, set_effects (effects s ++ [e]) s).
Proof. now destruct r. Qed.

Lemma try_catch_run {A} (m : M A) h s :
  try_catch m h s =
    match m s with
    | (Ok a, s') => (Ok a, s')
    | (Throw e, s') => h e s'
    end.
Proof. reflexivity. Qed.

Lemma get_run s : get s = (Ok s, s).
Proof. reflexivity. Qed.

Lemma modify_run f s : modify f s = (Ok tt, f s).
Proof. reflexivity. Qed.

Lemma prefix_app s r : String.prefix s (s ++ r) = true.
Proof.
  induction s as [|c s IH]; [now destruct r|].
  change (String c s ++ r) with (String c (s ++ r)).
  cbn [String.prefix].
  destruct (ascii_dec c c); [exact IH | congruence].
Qed.

Lemma approve_click_parts i rid :
  approve_click i rid ->
  String.prefix "refund_approve:" (i_customId i) = true /\
  split_colon (i_customId i) = ["refund_approve"; rid].
Proof.
  intros (_ & _ & Hc & Hs). rewrite Hc. split; [apply prefix_app|].
  change ("refund_approve:" ++ rid)
    with (String "r" (String "e" (String "f" (String "u" (String "n"
         (String "d" (String "_" (String "a" (String "p" (String "p"
         (String "r" (String "o" (String "v" (String "e" (String ":" rid
         ))))))))))))))).
  cbn [split_colon Ascii.eqb Bool.eqb]. now rewrite Hs.
Qed.

Lemma set_effects_nil s : set_effects (effects s ++ []) s = s.
Proof. rewrite app_nil_r. now destruct s. Qed.

(** [respects R m]: every run of [m] takes a state to an [R]-related one,
    whether it returns or throws. *)
Definition respects {A} (R : relation state) (m : M A) : Prop :=
  forall s, R s (m s).2.

Section Respects.
Context (R : relation state) `{!PreOrder R}.

Lemma respects_ret {A} (a : A) : respects R (mret a).
Proof. intros s. reflexivity. Qed.

Lemma respects_throw {A} e : respects R (@throw A e).
Proof. intros s. reflexivity. Qed.

Lemma respects_get : respects R get.
Proof. intros s. reflexivity. Qed.

Lemma respects_bind {A B} (m : M A) (f : A -> M B) :
  respects R m -> (forall a, respects R (f a)) -> respects R (m ≫= f).
Proof.
  intros Hm Hf s. rewrite bind_run. specialize (Hm s).
  destruct (m s) as [[a|e] s']; cbn [snd] in *; [|exact Hm].
  etransitivity; [exact Hm | apply Hf].
Qed.

Lemma respects_try {A} (m : M A) h :
  respects R m -> (forall e, respects R (h e)) -> respects R (try_catch m h).
Proof.
  intros Hm Hh s. unfold try_catch. specialize (Hm s).
  destruct (m s) as [[a|e] s']; cbn [snd] in *; [exact Hm|].
  etransitivity; [exact Hm | apply Hh].
Qed.

Lemma respects_modify f : (forall s, R s (f s)) -> respects R (modify f).
Proof. intros H s. apply H. Qed.

Lemma respects_store {A} (r : option A) put :
  (forall c s, R s (put c s)) -> respects R (store r put).
Proof.
  intros H. destruct r; [apply respects_modify; auto | apply respects_throw].
Qed.

(** What [R] has to tolerate: config and cache writes, and the effects
    picked out by [okE]. *)
Record tolerates (okE : effect -> Prop) : Prop := {
  tol_config : forall c s, R s (set_shop_config c s);
  tol_cache : forall c s, R s (set_configCache c s);
  tol_effect : forall e s, okE e -> R s (set_effects (effects s ++ [e])%list s)
}.

Context (okE : effect -> Prop) (T : tolerates okE).

Lemma respects_emit e : okE e -> respects R (emit e).
Proof. intros H. apply respects_modify. intros s. now apply (tol_effect _ T). Qed.

Lemma respects_call {A} e (r : outcome A) : okE e -> respects R (call e r).
Proof.
  intros H. unfold call. apply respects_bind; [now apply respects_emit|].
  intros _. destruct r; [apply respects_ret | apply respects_throw].
Qed.

Lemma respects_check e b : okE e -> respects R (check e b).
Proof. intros H. now apply respects_call. Qed.

End Respects.

(** One step of a syntax-directed proof of [respects]. *)
Ltac respects_step :=
  lazymatch goal with
  | |- respects _ (mret _) => apply respects_ret; try typeclasses eauto
  | |- respects _ (throw _) => apply respects_throw; try typeclasses eauto
  | |- respects _ get => apply respects_get; try typeclasses eauto
  | |- respects _ (try_catch _ _) =>
      apply respects_try; [try typeclasses eauto | | intros ?]
  | |- respects _ (mbind _ _) =>
      apply respects_bind; [try typeclasses eauto | | intros ?]
  | |- respects _ (match ?x with _ => _ end) => destruct x
  end.

Section Helpers.
Context (R : relation state) `{!PreOrder R}.
Context (okE : effect -> Prop) (T : tolerates R okE).
Context (E : env) (now : Z).

Local Ltac prim :=
  first
    [ apply (respects_emit R okE T)
    | apply (respects_call R okE T)
    | apply (respects_check R okE T)
    | apply respects_store; [try typeclasses eauto | apply (tol_config R okE T)]
    | apply respects_modify; intros ?; apply (tol_cache R okE T) ].

Local Ltac go := repeat first [ respects_step | prim ]; auto.

Lemma respects_Shop_log g m :
  (forall n, okE (ChannelCreate g n)) -> (forall ch, okE (ChannelSend ch m)) ->
  respects R (Shop.logToPurchaseLog E now g m).
Proof.
  intros Hc Hs.
  unfold Shop.logToPurchaseLog, Shop.ensurePurchaseLogChannel,
    Shop.upsertConfig, Shop.getConfig.
  go.
Qed.

Lemma respects_Shop_thanks g u p :
  (forall ch, okE (ChannelSend ch (ThankYou u p))) ->
  respects R (Shop.sendThanksIfConfigured E g u p).
Proof.
  intros Hs. unfold Shop.sendThanksIfConfigured, Shop.getConfig. go.
Qed.

Lemma respects_grant_role g u r p :
  (forall why, okE (RoleAdd g u r why)) ->
  respects R (Shop.grant_role E g u r p).
Proof. intros H. unfold Shop.grant_role. go. Qed.

Lemma respects_side_data o :
  (forall id, okE (StripeSubscriptionRetrieve id)) ->
  respects R (Shop.subscription_side_data E o).
Proof. intros H. unfold Shop.subscription_side_data. go. Qed.

Lemma respects_executeRefundInternal p :
  (forall id, okE (StripeSubscriptionRetrieve id)) ->
  (forall id, okE (StripeRefundCreate id)) ->
  (forall id, okE (StripeSubscriptionCancel id)) ->
  respects R (Shop.executeRefundInternal E p).
Proof. intros H1 H2 H3. unfold Shop.executeRefundInternal. go. Qed.

Lemma respects_Ent_log g m :
  (forall n, okE (ChannelCreate g n)) -> (forall ch, okE (ChannelSend ch m)) ->
  respects R (Ent.logToPurchaseLog E now g m).
Proof.
  intros Hc Hs.
  unfold Ent.logToPurchaseLog, Ent.ensurePurchaseLogChannel,
    Ent.upsertConfig, Ent.getConfig.
  go.
Qed.

Lemma respects_upgrade_hint g u p k :
  (forall m, okE (DirectMessage u m)) ->
  respects R (Ent.upgrade_hint E g u p k).
Proof. intros H. unfold Ent.upgrade_hint, Ent.dmUser. go. Qed.

End Helpers.

(** The relation "the purchases are the same". *)
Definition keeps_purchases : relation state :=
  fun s s' => purchases s' = purchases s.

#[global] Instance keeps_purchases_preorder : PreOrder keeps_purchases.
Proof.
  split; [intros s; reflexivity|].
  intros a b c H1 H2. unfold keeps_purchases in *. congruence.
Qed.

Lemma keeps_purchases_tolerates : tolerates keeps_purchases (fun _ => True).
Proof. split; intros; reflexivity. Qed.

Lemma try_catch_const_state {A} (m : M A) (a : A) s :
  (try_catch m (fun _ => mret a) s).2 = (m s).2.
Proof. unfold try_catch. now destruct (m s) as [[?|?] ?]. Qed.

Lemma truthy_Some s : s <> "" -> truthy (Some s) = true.
Proof. intros H. cbn. now apply negb_true_iff, String.eqb_neq. Qed.

Lemma truthy_Some' s : s <> "" -> or_null (Some s) = Some s.
Proof. intros H. unfold or_null. now rewrite truthy_Some. Qed.

Lemma side_data_run E ses s :
  lookup_ok E ses ->
  exists t l,
    Shop.subscription_side_data E (or_null (session_subscription ses)) s =
      (Ok t, set_effects (effects s ++ l) s).
Proof.
  intros Hok. unfold Shop.subscription_side_data.
  destruct (or_null (session_subscription ses)) as [id|] eqn:Eid.
  - destruct (Hok id Eid) as [sub Hs].
    eexists _, [_]. rewrite bind_run, call_run, Hs. reflexivity.
  - eexists _, []. cbn. now rewrite set_effects_nil.
Qed.

(** Proving that the rest of a handler keeps the purchases. *)
Ltac keeps_purchases_tail :=
  repeat first
    [ respects_step
    | apply (respects_grant_role _ _ keeps_purchases_tolerates)
    | apply (respects_check _ _ keeps_purchases_tolerates)
    | apply (respects_Shop_log _ _ keeps_purchases_tolerates)
    | apply (respects_Shop_thanks _ _ keeps_purchases_tolerates)
    | apply (respects_Ent_log _ _ keeps_purchases_tolerates)
    | apply (respects_upgrade_hint _ _ keeps_purchases_tolerates)
    | apply respects_store; [typeclasses eauto | intros ? ?; reflexivity] ];
  auto.

(** What a delivery reads from the subscription behind the session. *)
Definition side_data (E : env) (ses : session) : value * value * value :=
  match or_null (session_subscription ses) with
  | Some id =>
      match subscriptions_retrieve E id with
      | Ok sub => (Shop.period_end sub, VStr (sub_status sub),
                   VBool (sub_cancel_at_period_end sub))
      | Throw _ => (VNull, VNull, VNull)
      end
  | None => (VNull, VNull, VNull)
  end.

(** The fields a delivery writes on the purchase. *)
Definition paid_by (E : env) (now : Z) (ses : session) : fields :=
  Shop.paid_fields now (or_null (session_payment_intent ses))
    (or_null (session_subscription ses))
    (side_data E ses).1.1 (side_data E ses).1.2 (side_data E ses).2.

Definition stamps (ses : session) : fields :=
  [ ("planKey", vstr (or_null (default ∅ (session_metadata ses) !! "plan_key")));
    ("productId",
      vstr (or_null (default ∅ (session_metadata ses) !! "product_id"))) ].

Lemma side_data_ok E ses s :
  lookup_ok E ses ->
  exists l,
    Shop.subscription_side_data E (or_null (session_subscription ses)) s =
      (Ok (side_data E ses), set_effects (effects s ++ l) s).
Proof.
  intros Hok. unfold Shop.subscription_side_data, side_data.
  destruct (or_null (session_subscription ses)) as [id|] eqn:Eid.
  - destruct (Hok id Eid) as [sub Hs].
    exists [StripeSubscriptionRetrieve id].
    rewrite bind_run, call_run, Hs. reflexivity.
  - exists []. cbn. now rewrite set_effects_nil.
Qed.

Lemma side_data_fails E ses s :
  ~ lookup_ok E ses ->
  exists e l,
    Shop.subscription_side_data E (or_null (session_subscription ses)) s =
      (Throw e, set_effects (effects s ++ l) s).
Proof.
  intros Hno. unfold Shop.subscription_side_data.
  destruct (or_null (session_subscription ses)) as [id|] eqn:Eid.
  - destruct (subscriptions_retrieve E id) as [sub|e] eqn:Es.
    + exfalso. apply Hno. intros id' Hid. rewrite Eid in Hid.
      injection Hid as <-. eauto.
    + exists e, [StripeSubscriptionRetrieve id].
      rewrite bind_run, call_run. reflexivity.
  - exfalso. apply Hno. intros id' Hid. rewrite Eid in Hid. discriminate.
Qed.

(** One delivery of a paid event whose purchase is on record, in
    [src/index.js]: when the subscription lookup answers, the row found by
    purchase id and session id is rewritten with the paid fields, and
    nothing else touches the purchases; when it throws, no purchase
    changes. *)
Lemma Shop_delivery E now req st ses pid ty :
  constructEvent E req = Ok (CheckoutSessionCompleted ses) ->
  passes_gate ses pid ty ->
  existsb (matches (by_both pid ses)) (purchases st) = true ->
  (lookup_ok E ses ->
   purchases (Shop.webhook E now req st).2 =
     updateOne (by_both pid ses) (paid_by E now ses) (purchases st)) /\
  (~ lookup_ok E ses ->
   purchases (Shop.webhook E now req st).2 = purchases st).
Proof.
  intros Hev (uid & Hp & Hg & Hu & Ht & Np & Nu & Nt) Hex.
  unfold Shop.webhook. rewrite Hev, try_catch_const_state.
  unfold Shop.checkout_session_completed.
  cbn zeta in Hp, Hg, Hu, Ht. rewrite Hp, Hg, Hu, Ht.
  rewrite !truthy_Some by (assumption || discriminate).
  rewrite String.eqb_refl. cbn [negb andb].
  split; intros Hok.
  - destruct (side_data_ok E ses st Hok) as (l & Hrun).
    rewrite bind_run, Hrun.
    destruct (side_data E ses) as [[a b] c] eqn:Esd.
    rewrite bind_run, get_run.
    cbn [purchases set_effects]. unfold by_both in Hex. rewrite Hex.
    rewrite bind_run, modify_run.
    lazymatch goal with
    | |- purchases (?m ?s).2 = _ =>
        assert (Hk : respects keeps_purchases m) by keeps_purchases_tail;
        rewrite (Hk s)
    end.
    unfold paid_by. rewrite Esd. reflexivity.
  - destruct (side_data_fails E ses st Hok) as (e & l & Hrun).
    rewrite bind_run, Hrun. reflexivity.
Qed.

(** The same delivery in the entitlement revision, whose upsert also
    stamps the plan and the product. *)
Lemma Ent_delivery E now req st ses pid ty :
  constructEvent E req = Ok (CheckoutSessionCompleted ses) ->
  passes_gate ses pid ty ->
  existsb (matches (by_both pid ses)) (purchases st) = true ->
  (lookup_ok E ses ->
   purchases (Ent.webhook E now req st).2 =
     updateOne (by_both pid ses) (paid_by E now ses ++ stamps ses)
       (purchases st)) /\
  (~ lookup_ok E ses ->
   purchases (Ent.webhook E now req st).2 = purchases st).
Proof.
  intros Hev (uid & Hp & Hg & Hu & Ht & Np & Nu & Nt) Hex.
  unfold Ent.webhook. rewrite Hev, try_catch_const_state.
  unfold Ent.checkout_session_completed.
  cbn zeta in Hp, Hg, Hu, Ht. rewrite Hp, Hg, Hu, Ht.
  rewrite !truthy_Some by (assumption || discriminate).
  rewrite String.eqb_refl. cbn [negb andb].
  split; intros Hok.
  - destruct (side_data_ok E ses st Hok) as (l & Hrun).
    rewrite bind_run, Hrun.
    destruct (side_data E ses) as [[a b] c] eqn:Esd.
    rewrite bind_run, get_run.
    cbn [purchases set_effects]. unfold upsertOne. unfold by_both in Hex.
    rewrite Hex. cbn [store].
    rewrite bind_run, modify_run.
    lazymatch goal with
    | |- purchases (?m ?s).2 = _ =>
        assert (Hk : respects keeps_purchases m) by keeps_purchases_tail;
        rewrite (Hk s)
    end.
    unfold paid_by, stamps. rewrite Esd. reflexivity.
  - destruct (side_data_fails E ses st Hok) as (e & l & Hrun).
    rewrite bind_run, Hrun. reflexivity.
Qed.

Lemma lookup_ok_dec E ses : lookup_ok E ses \/ ~ lookup_ok E ses.
Proof.
  unfold lookup_ok.
  destruct (or_null (session_subscription ses)) as [id|]; [|left; discriminate].
  destruct (subscriptions_retrieve E id) as [sub|e] eqn:Es.
  - left. intros id' [= <-]. eauto.
  - right. intros H. destruct (H id eq_refl) as [sub Hs]. congruence.
Qed.

(** Two deliveries in a row, of which one at least gets its lookup
    answered, in a handler that rewrites the row under [q] with [u1] and
    then [u2]: the purchases end as the later delivery that got through
    would have left them on its own. *)
Lemma replay_last_wins (run1 run2 : state -> state) (q u1 u2 : fields)
    (ok1 ok2 : Prop) st :
  List.map fst u1 = List.map fst u2 ->
  (forall k, In k (List.map fst q) -> ~ In k (List.map fst u1)) ->
  (forall s, existsb (matches q) (purchases s) = true ->
     (ok1 -> purchases (run1 s) = updateOne q u1 (purchases s)) /\
     (~ ok1 -> purchases (run1 s) = purchases s)) ->
  (forall s, existsb (matches q) (purchases s) = true ->
     (ok2 -> purchases (run2 s) = updateOne q u2 (purchases s)) /\
     (~ ok2 -> purchases (run2 s) = purchases s)) ->
  existsb (matches q) (purchases st) = true ->
  ok1 \/ ~ ok1 -> ok2 \/ ~ ok2 -> ok1 \/ ok2 ->
  (exists u, (u = u1 \/ u = u2) /\
     purchases (run2 (run1 st)) = updateOne q u (purchases st)) /\
  (ok2 -> purchases (run2 (run1 st)) = purchases (run2 st)) /\
  (~ ok2 -> purchases (run2 (run1 st)) = purchases (run1 st)).
Proof.
  intros Hkeys Hdis Hrun1 Hrun2 Hex Hd1 Hd2 Hor.
  destruct (Hrun1 st Hex) as [H1ok H1no].
  destruct (Hrun2 st Hex) as [H2ok H2no].
  assert (Hex1 : existsb (matches q) (purchases (run1 st)) = true).
  { destruct Hd1 as [H1|H1].
    - rewrite (H1ok H1), MongoFacts.existsb_matches_updateOne; auto.
    - now rewrite (H1no H1). }
  destruct (Hrun2 (run1 st) Hex1) as [H3ok H3no].
  assert (Hlast : ok2 -> purchases (run2 (run1 st)) = updateOne q u2 (purchases st)).
  { intros H2. rewrite (H3ok H2). destruct Hd1 as [H1|H1].
    - rewrite (H1ok H1). now apply MongoFacts.updateOne_overwrite.
    - now rewrite (H1no H1). }
  split; [|split].
  - destruct Hd2 as [H2|H2].
    + exists u2. split; [now right | auto].
    + exists u1. split; [now left|]. rewrite (H3no H2).
      destruct Hor as [H1|H2']; [auto | contradiction].
  - intros H2. rewrite (Hlast H2). symmetry. auto.
  - intros H2. auto.
Qed.

(** The relation "the entitlements are the same and every new effect
    satisfies [P]". *)
Definition quiet (P : effect -> Prop) : relation state :=
  fun s s' =>
    entitlements s' = entitlements s /\
    exists l, effects s' = (effects s ++ l)%list /\ Forall P l.

#[global] Instance quiet_preorder P : PreOrder (quiet P).
Proof.
  split.
  - intros s. split; [reflexivity|]. exists []. now rewrite app_nil_r.
  - intros a b c [E1 (l1 & H1 & F1)] [E2 (l2 & H2 & F2)]. split; [congruence|].
    exists (l1 ++ l2)%list. rewrite H2, H1, app_assoc. split; [reflexivity|].
    now apply Forall_app.
Qed.

Lemma quiet_same P s s' :
  entitlements s' = entitlements s -> effects s' = effects s -> quiet P s s'.
Proof.
  intros H1 H2. split; [assumption|]. exists []. now rewrite app_nil_r.
Qed.

Lemma quiet_tolerates P : tolerates (quiet P) P.
Proof.
  split; intros; try (now apply quiet_same).
  split; [reflexivity|]. exists [e]. split; [reflexivity|]. now constructor.
Qed.

(** [executeRefundInternal] never reads the state: its answer and the calls
    it makes depend on the purchase and on what Stripe answers. *)
Lemma executeRefundInternal_run E p :
  exists r l, forall s,
    Shop.executeRefundInternal E p s = (r, set_effects (effects s ++ l) s).
Proof.
  unfold Shop.executeRefundInternal.
  destruct (or_null (str_field "stripePaymentIntentId" p)) as [pi|].
  { exists (Some <$> refunds_create E pi), [StripeRefundCreate pi]. intros s.
    rewrite bind_run, call_run. now destruct (refunds_create E pi). }
  destruct (or_null (str_field "stripeSubscriptionId" p)) as [id|].
  2:{ eexists _, []. intros s. unfold throw. now rewrite set_effects_nil. }
  destruct (subscriptions_retrieve E id) as [sub|e] eqn:Es.
  2:{ exists (Throw e), [StripeSubscriptionRetrieve id]. intros s.
      now rewrite bind_run, call_run. }
  destruct (or_null (sub_latest_invoice_payment_intent sub)) as [pi|] eqn:Ep.
  - destruct (refunds_create E pi) as [rf|e] eqn:Er.
    + exists (Ok (Some rf)),
        [StripeSubscriptionRetrieve id; StripeRefundCreate pi;
         StripeSubscriptionCancel id].
      intros s. rewrite bind_run, call_run, bind_run, Ep, !bind_run, call_run, Er.
      cbn [mret M_ret]. rewrite bind_run. unfold try_catch. rewrite call_run.
      destruct (subscriptions_cancel E id); cbn; now rewrite <- !app_assoc.
    + exists (Throw e), [StripeSubscriptionRetrieve id; StripeRefundCreate pi].
      intros s. rewrite bind_run, call_run, bind_run, Ep, !bind_run, call_run, Er.
      cbn. now rewrite <- !app_assoc.
  - exists (Ok None),
      [StripeSubscriptionRetrieve id; StripeSubscriptionCancel id].
    intros s. rewrite bind_run, call_run, bind_run, Ep.
    cbn [mret M_ret]. rewrite bind_run. unfold try_catch. rewrite call_run.
    destruct (subscriptions_cancel E id); cbn; now rewrite <- !app_assoc.
Qed.

(** When [executeRefundInternal] throws: the refund creation fails, or the
    subscription cannot be retrieved, or there is no payment reference.
    A failing cancellation is not among the causes. *)
Lemma executeRefundInternal_throws E p s e :
  (Shop.executeRefundInternal E p s).1 = Throw e <->
  match or_null (str_field "stripePaymentIntentId" p),
        or_null (str_field "stripeSubscriptionId" p) with
  | Some pi, _ => refunds_create E pi = Throw e
  | None, Some id =>
      match subscriptions_retrieve E id with
      | Throw e' => e' = e
      | Ok sub =>
          match or_null (sub_latest_invoice_payment_intent sub) with
          | Some pi => refunds_create E pi = Throw e
          | None => False
          end
      end
  | None, None =>
      e = {| ename := "Error";
             emessage := "No Stripe payment references on record." |}
  end.
Proof.
  unfold Shop.executeRefundInternal.
  destruct (or_null (str_field "stripePaymentIntentId" p)) as [pi|].
  { rewrite bind_run, call_run.
    destruct (refunds_create E pi); cbn; split; congruence. }
  destruct (or_null (str_field "stripeSubscriptionId" p)) as [id|].
  2:{ cbn. split; congruence. }
  rewrite bind_run, call_run.
  destruct (subscriptions_retrieve E id) as [sub|e']; [|cbn; split; congruence].
  rewrite bind_run.
  destruct (or_null (sub_latest_invoice_payment_intent sub)) as [pi|].
  - rewrite bind_run, call_run.
    destruct (refunds_create E pi) as [rf|e']; [|cbn; split; congruence].
    cbn [mret M_ret]. rewrite bind_run, try_catch_run, call_run.
    destruct (subscriptions_cancel E id); cbn; split; congruence.
  - cbn [mret M_ret]. rewrite bind_run, try_catch_run, call_run.
    destruct (subscriptions_cancel E id); cbn; split; (congruence || tauto).
Qed.

End ServiceFacts.

(** * The specified properties *)

Import Js Money Mongo Service MoneyFacts MongoFacts ServiceFacts.
Local Open Scope string_scope.

(** Reading a field that a [$set] has just written. *)
Local Ltac read_field :=
  unfold set_fields; cbn [fold_left fst snd];
  repeat (rewrite lookup_insert_ne by discriminate);
  first [ apply lookup_insert_eq | reflexivity | assumption ].

(** Entering the approve path of [src/index.js]: the guards pass and the
    pending request is found. *)
Local Ltac enter_approve Hclick Hreq Hpending :=
  let Hpre := fresh "Hpre" in
  let Hparts := fresh "Hparts" in
  destruct (approve_click_parts _ _ Hclick) as [Hpre Hparts];
  destruct Hclick as (Hg & Hu & _ & _);
  unfold Shop.refund_button;
  rewrite Hg, Hu, Hpre, Hparts;
  rewrite (bool_decide_eq_true_2 _ eq_refl), String.eqb_refl;
  cbn [negb orb nth];
  rewrite bind_run, get_run, Hreq;
  rewrite (bool_decide_eq_true_2 _ Hpending);
  change (String.eqb "refund_approve" "refund_reject") with false;
  cbn [negb];
  rewrite bind_run, emit_run.

(** C1, as the code has it. Take a verified checkout.session.completed
    event that gets past the correlation checks (purchase id, guild id,
    user id and type all present, the guild being the allowed one), whose
    subscription lookup, if there is one, succeeds on one at least of two
    deliveries, and whose purchase id and session id are those of a
    purchase on record. After it is delivered twice, in either revision,
    exactly one purchase carries that purchase id and session id; it is
    [paid], and it holds what the row on record held in every field that
    the handler does not write (the entitlement revision also stamps the
    plan and the product). The replay repeats the write: the purchases
    end as the second delivery alone would have left them, or, when its
    lookup fails, as the first delivery left them. *)
Theorem replayed_checkout_one_paid_row (E1 E2 : env) (now1 now2 : Z)
    (req : request) (st : state) (ses : session) (pid ty : string)
    (webhook : env -> Z -> request -> M response) (stamped : list string) :
  (webhook = Shop.webhook /\ stamped = []) \/
  (webhook = Ent.webhook /\ stamped = ["planKey"; "productId"]) ->
  constructEvent E1 req = Ok (CheckoutSessionCompleted ses) ->
  constructEvent E2 req = Ok (CheckoutSessionCompleted ses) ->
  passes_gate ses pid ty ->
  lookup_ok E1 ses \/ lookup_ok E2 ses ->
  unique_index {| index_fields := ["purchaseId"]; index_sparse := false |}
    (purchases st) ->
  existsb (matches (by_both pid ses)) (purchases st) = true ->
  let first := (webhook E1 now1 req st).2 in
  let replay := (webhook E2 now2 req first).2 in
  let written :=
    (["status"; "paidAt"; "stripePaymentIntentId"; "stripeSubscriptionId";
      "currentPeriodEnd"; "subscriptionStatus"; "cancelAtPeriodEnd"]
     ++ stamped)%list in
  (exists d row,
     In d (purchases st) /\ matches (by_both pid ses) d = true /\
     List.filter (matches (by_both pid ses)) (purchases replay) = [row] /\
     row !! "status" = Some (VStr "paid") /\
     forall k, ~ In k written -> row !! k = d !! k) /\
  (lookup_ok E2 ses ->
   purchases replay = purchases (webhook E2 now2 req st).2) /\
  (~ lookup_ok E2 ses -> purchases replay = purchases first).
Proof.
  intros Hw Hev1 Hev2 Hgate Hor Huniq Hex first replay written.
  assert (Hq : forall E now k, In k (List.map fst (by_both pid ses)) ->
            ~ In k (List.map fst (paid_by E now ses ++ stamps ses))).
  { intros E now k Hk Hin. cbn in Hk, Hin. intuition (subst; discriminate). }
  assert (Hq' : forall E now k, In k (List.map fst (by_both pid ses)) ->
            ~ In k (List.map fst (paid_by E now ses))).
  { intros E now k Hk Hin. apply (Hq E now k Hk).
    rewrite map_app, in_app_iff. now left. }
  assert (Hone : forall u,
            (forall k, In k (List.map fst (by_both pid ses)) ->
                       ~ In k (List.map fst u)) ->
            (forall d, set_fields u d !! "status" = Some (VStr "paid")) ->
            (forall k, In k (List.map fst u) -> In k written) ->
            forall c, c = updateOne (by_both pid ses) u (purchases st) ->
            exists d row,
              In d (purchases st) /\ matches (by_both pid ses) d = true /\
              List.filter (matches (by_both pid ses)) c = [row] /\
              row !! "status" = Some (VStr "paid") /\
              forall k, ~ In k written -> row !! k = d !! k).
  { intros u Hu Hst Hkeys c ->.
    destruct (updateOne_one_row _ [("purchaseId", VStr pid)]
                [("stripeSessionId", VStr (session_id ses))] u
                (purchases st) Huniq eq_refl eq_refl Hex Hu)
      as (d & Hin & Hm & Hrow).
    exists d, (set_fields u d).
    split; [exact Hin|]. split; [exact Hm|]. split; [exact Hrow|].
    split; [apply Hst|]. intros k Hk.
    apply set_fields_lookup_other. intros Hk'. apply Hk, Hkeys, Hk'. }
  destruct Hw as [[-> Hst] | [-> Hst]]; subst stamped.
  - destruct (replay_last_wins
                (fun s => (Shop.webhook E1 now1 req s).2)
                (fun s => (Shop.webhook E2 now2 req s).2)
                (by_both pid ses) (paid_by E1 now1 ses) (paid_by E2 now2 ses)
                (lookup_ok E1 ses) (lookup_ok E2 ses) st)
      as ((u & Hu & Hrep) & Hlast & Hfirst);
      [ reflexivity | apply Hq'
      | intros s Hs; exact (Shop_delivery E1 now1 req s ses pid ty Hev1 Hgate Hs)
      | intros s Hs; exact (Shop_delivery E2 now2 req s ses pid ty Hev2 Hgate Hs)
      | exact Hex | apply lookup_ok_dec | apply lookup_ok_dec | exact Hor | ].
    split; [|split; assumption].
    apply (Hone u); [| | |exact Hrep];
      destruct Hu as [-> | ->];
      first [ apply Hq'
            | intros d; unfold paid_by, Shop.paid_fields; read_field
            | intros k Hk; cbn in Hk; unfold written; cbn; tauto ].
  - destruct (replay_last_wins
                (fun s => (Ent.webhook E1 now1 req s).2)
                (fun s => (Ent.webhook E2 now2 req s).2)
                (by_both pid ses)
                (paid_by E1 now1 ses ++ stamps ses)
                (paid_by E2 now2 ses ++ stamps ses)
                (lookup_ok E1 ses) (lookup_ok E2 ses) st)
      as ((u & Hu & Hrep) & Hlast & Hfirst);
      [ reflexivity | apply Hq
      | intros s Hs; exact (Ent_delivery E1 now1 req s ses pid ty Hev1 Hgate Hs)
      | intros s Hs; exact (Ent_delivery E2 now2 req s ses pid ty Hev2 Hgate Hs)
      | exact Hex | apply lookup_ok_dec | apply lookup_ok_dec | exact Hor | ].
    split; [|split; assumption].
    apply (Hone u); [| | |exact Hrep];
      destruct Hu as [-> | ->];
      first [ apply Hq
            | intros d; unfold paid_by, stamps, Shop.paid_fields; cbn [app];
              read_field
            | intros k Hk; cbn in Hk; unfold written; cbn; tauto ].
Qed.

Lemma replayed_checkout_one_paid_row_witness :
  let ses := Samples.session_of
               [("purchase_id", "VT-1"); ("guild_id", ALLOWED_GUILD_ID);
                ("user_id", "42"); ("type", "product");
                ("product_id", "p1"); ("plan_key", "monthly");
                ("role_id", "role-9"); ("amount_minor", "499")]
               (Some "sub_1") in
  let E1 := Samples.world (Ok (CheckoutSessionCompleted ses))
              (Throw Samples.no_such) (Throw Samples.no_such) in
  let E2 := Samples.world (Ok (CheckoutSessionCompleted ses))
              (Ok Samples.a_subscription) (Throw Samples.no_such) in
  let st := Samples.store_of [Samples.purchase_created] [] [] in
  (exists row,
     List.filter (matches (by_both "VT-1" ses))
       (purchases (Shop.webhook E2 2 Samples.a_request
                     (Shop.webhook E1 1 Samples.a_request st).2).2)
     = [row] /\ row !! "status" = Some (VStr "paid")) /\
  (exists row,
     List.filter (matches (by_both "VT-1" ses))
       (purchases (Ent.webhook E2 2 Samples.a_request
                     (Ent.webhook E1 1 Samples.a_request st).2).2)
     = [row] /\ row !! "status" = Some (VStr "paid")).
Proof.
  intros ses E1 E2 st.
  assert (Hgate : passes_gate ses "VT-1" "product")
    by (exists "42"; repeat split; discriminate).
  assert (Hok : lookup_ok E1 ses \/ lookup_ok E2 ses).
  { right. intros id _. exists Samples.a_subscription. reflexivity. }
  assert (Hu : unique_index
                 {| index_fields := ["purchaseId"]; index_sparse := false |}
                 (purchases st)).
  { intros [|a] [|b] d d' k Ha Hb; try discriminate; reflexivity. }
  split.
  - destruct (replayed_checkout_one_paid_row E1 E2 1 2 Samples.a_request st ses
                "VT-1" "product" Shop.webhook [] (or_introl (conj eq_refl eq_refl))
                eq_refl eq_refl Hgate Hok Hu eq_refl)
      as ((d & row & _ & _ & H1 & H2 & _) & _).
    exists row. split; assumption.
  - destruct (replayed_checkout_one_paid_row E1 E2 1 2 Samples.a_request st ses
                "VT-1" "product" Ent.webhook ["planKey"; "productId"]
                (or_intror (conj eq_refl eq_refl))
                eq_refl eq_refl Hgate Hok Hu eq_refl)
      as ((d & row & _ & _ & H1 & H2 & _) & _).
    exists row. split; assumption.
Defined.

(** C1 as the specification states it asks only for a purchase id and a
    session id that match a purchase on record, and calls the update
    idempotent. An event that matches but lacks the user id, the type or
    the guild id, or names another guild, is acknowledged without action,
    and an event whose subscription lookup fails on both deliveries is
    answered with status 500 both times: after two deliveries the one
    matching row is still [created]. And a replay that gets through is no
    second no-op: it moves [paidAt] from the time of the first delivery to
    its own. *)
Lemma replay_claim_counterexample :
  let st := Samples.store_of [Samples.purchase_created] [] [] in
  let read (k : string) (q : fields) (s : state) :=
    List.map (fun d => d !! k) (List.filter (matches q) (purchases s)) in
  let twice (webhook : env -> Z -> request -> M response) (E : env) :=
    (webhook E 2%Z Samples.a_request (webhook E 1%Z Samples.a_request st).2).2 in
  let once (webhook : env -> Z -> request -> M response) (E : env) :=
    (webhook E 1%Z Samples.a_request st).2 in
  (let ses := Samples.session_of
                [("purchase_id", "VT-1"); ("guild_id", ALLOWED_GUILD_ID);
                 ("type", "product")] None in
   let E := Samples.world (Ok (CheckoutSessionCompleted ses))
              (Ok Samples.a_subscription) (Throw Samples.no_such) in
   existsb (matches (by_both "VT-1" ses)) (purchases st) = true /\
   read "status" (by_both "VT-1" ses) (twice Shop.webhook E)
     = [Some (VStr "created")] /\
   read "status" (by_both "VT-1" ses) (twice Ent.webhook E)
     = [Some (VStr "created")]) /\
  (let ses := Samples.session_of
                [("purchase_id", "VT-1"); ("guild_id", ALLOWED_GUILD_ID);
                 ("user_id", "42")] None in
   let E := Samples.world (Ok (CheckoutSessionCompleted ses))
              (Ok Samples.a_subscription) (Throw Samples.no_such) in
   existsb (matches (by_both "VT-1" ses)) (purchases st) = true /\
   read "status" (by_both "VT-1" ses) (twice Shop.webhook E)
     = [Some (VStr "created")] /\
   read "status" (by_both "VT-1" ses) (twice Ent.webhook E)
     = [Some (VStr "created")]) /\
  (let ses := Samples.session_of
                [("purchase_id", "VT-1"); ("user_id", "42");
                 ("type", "product")] None in
   let E := Samples.world (Ok (CheckoutSessionCompleted ses))
              (Ok Samples.a_subscription) (Throw Samples.no_such) in
   existsb (matches (by_both "VT-1" ses)) (purchases st) = true /\
   read "status" (by_both "VT-1" ses) (twice Shop.webhook E)
     = [Some (VStr "created")] /\
   read "status" (by_both "VT-1" ses) (twice Ent.webhook E)
     = [Some (VStr "created")]) /\
  (let ses := Samples.session_of
                [("purchase_id", "VT-1"); ("guild_id", "1");
                 ("user_id", "42"); ("type", "product")] None in
   let E := Samples.world (Ok (CheckoutSessionCompleted ses))
              (Ok Samples.a_subscription) (Throw Samples.no_such) in
   existsb (matches (by_both "VT-1" ses)) (purchases st) = true /\
   read "status" (by_both "VT-1" ses) (twice Shop.webhook E)
     = [Some (VStr "created")] /\
   read "status" (by_both "VT-1" ses) (twice Ent.webhook E)
     = [Some (VStr "created")]) /\
  (let ses := Samples.session_of
                [("purchase_id", "VT-1"); ("guild_id", ALLOWED_GUILD_ID);
                 ("user_id", "42"); ("type", "product")] (Some "sub_1") in
   let E := Samples.world (Ok (CheckoutSessionCompleted ses))
              (Throw Samples.no_such) (Throw Samples.no_such) in
   existsb (matches (by_both "VT-1" ses)) (purchases st) = true /\
   status <$> (Shop.webhook E 1 Samples.a_request st).1 = Ok 500%N /\
   read "status" (by_both "VT-1" ses) (twice Shop.webhook E)
     = [Some (VStr "created")] /\
   read "status" (by_both "VT-1" ses) (twice Ent.webhook E)
     = [Some (VStr "created")]) /\
  (let ses := Samples.session_of
                [("purchase_id", "VT-1"); ("guild_id", ALLOWED_GUILD_ID);
                 ("user_id", "42"); ("type", "product")] (Some "sub_1") in
   let E := Samples.world (Ok (CheckoutSessionCompleted ses))
              (Ok Samples.a_subscription) (Throw Samples.no_such) in
   read "paidAt" (by_both "VT-1" ses) (once Shop.webhook E)
     = [Some (VDate 1)] /\
   read "paidAt" (by_both "VT-1" ses) (twice Shop.webhook E)
     = [Some (VDate 2)] /\
   read "paidAt" (by_both "VT-1" ses) (once Ent.webhook E)
     = [Some (VDate 1)] /\
   read "paidAt" (by_both "VT-1" ses) (twice Ent.webhook E)
     = [Some (VDate 2)]).
Proof. vm_compute. repeat split. Qed.

(** C2. A webhook request whose signature does not verify is answered
    with status 400 and nothing else happens: both revisions return the
    state they were given, with no write to any collection and no call to
    Stripe or Discord, whatever the request carries. *)
Theorem webhook_bad_signature (E : env) (now : Z) (req : request)
    (st : state) (err : Err) :
  constructEvent E req = Throw err ->
  Shop.webhook E now req st =
    (Ok {| status := 400; content := Text ("Webhook Error: " ++ emessage err) |}, st)
  /\ Ent.webhook E now req st =
    (Ok {| status := 400; content := Text ("Webhook Error: " ++ emessage err) |}, st).
Proof.
  intros H. unfold Shop.webhook, Ent.webhook. rewrite H. split; reflexivity.
Qed.

Lemma webhook_bad_signature_witness :
  let E := Samples.world (Throw Samples.no_such) (Throw Samples.no_such)
             (Throw Samples.no_such) in
  let st := Samples.store_of [Samples.purchase_created] [] [] in
  Shop.webhook E 0 Samples.a_request st =
    (Ok {| status := 400; content := Text "Webhook Error: unavailable" |}, st)
  /\ Ent.webhook E 0 Samples.a_request st =
    (Ok {| status := 400; content := Text "Webhook Error: unavailable" |}, st).
Proof.
  intros E st.
  apply (webhook_bad_signature E 0 Samples.a_request st Samples.no_such).
  reflexivity.
Defined.

(** C3. When the approver approves a pending request inside the window
    and [executeRefundInternal] throws (Stripe refuses the refund or the
    subscription lookup, or the purchase has no payment reference), the
    request ends as [failed], its failure reason is the error text cut to
    200 characters, and the purchases are left as they were: a purchase
    that was [paid] stays [paid]. *)
Theorem refund_failure_recorded (E : env) (now : Z) (i : interaction)
    (st : state) (rid : string) (r p : doc) (paidAt : Z) (e : Err) :
  approve_click i rid ->
  unique_index {| index_fields := ["requestId"]; index_sparse := false |}
    (refund_requests st) ->
  findOne [("requestId", VStr rid); ("guildId", VStr ALLOWED_GUILD_ID)]
    (refund_requests st) = Some r ->
  r !! "status" = Some (VStr "pending") ->
  findOne [("purchaseId", default VNull (r !! "purchaseId"));
           ("guildId", VStr ALLOWED_GUILD_ID)] (purchases st) = Some p ->
  p !! "paidAt" = Some (VDate paidAt) ->
  (now - paidAt <= REFUND_WINDOW_MS)%Z ->
  (Shop.executeRefundInternal E p st).1 = Throw e ->
  exists c1 c2 r',
    refund_requests st = (c1 ++ r :: c2)%list /\
    refund_requests (Shop.refund_button E now i st).2 = (c1 ++ r' :: c2)%list /\
    r' !! "status" = Some (VStr "failed") /\
    r' !! "failureReason" =
      Some (VStr (String.substring 0 200
                    (if String.eqb (emessage e) ""
                     then Err_toString e else emessage e))) /\
    purchases (Shop.refund_button E now i st).2 = purchases st.
Proof.
  intros Hclick Huniq Hreq Hpending Hpur Hpaid Hin Hthrow.
  destruct (findOne_split _ _ _ Hreq) as (c1 & c2 & Hc & _ & Hm).
  assert (Hid : matches [("requestId", VStr rid)] r = true).
  { unfold matches in *. cbn [forallb] in *.
    apply andb_true_iff in Hm as [-> _]. reflexivity. }
  rewrite Hc in Huniq.
  destruct (updateOne_unique _ [("requestId", VStr rid)]
              [("status", VStr "approved"); ("approvedAt", VDate now);
               ("approvedBy", VStr REFUND_APPROVER_USER_ID)]
              c1 r c2 Huniq eq_refl eq_refl Hid) as [Hc1 Hupd].
  destruct (executeRefundInternal_run E p) as (r0 & l & Hrun).
  rewrite Hrun in Hthrow. cbn [fst] in Hthrow. subst r0.
  enter_approve Hclick Hreq Hpending.
  cbn [purchases set_effects]. rewrite Hpur.
  unfold Shop.within_window, date_field. rewrite Hpaid.
  rewrite (proj2 (Z.ltb_ge _ _) Hin). cbn [negb].
  unfold try_catch, Shop.set_request.
  rewrite bind_run, modify_run, bind_run, Hrun.
  rewrite bind_run, modify_run, emit_run.
  cbn [snd refund_requests set_refund_requests set_effects purchases effects].
  rewrite Hc, Hupd. rewrite updateOne_split; [|assumption|].
  - eexists c1, c2, _. repeat split; read_field.
  - rewrite matches_set_fields; [assumption|].
    intros k [<-|[]] Hk. cbn in Hk. intuition discriminate.
Qed.

Lemma refund_failure_recorded_witness :
  let st := Samples.store_of [Samples.purchase_paid_once]
              [Samples.request_pending] [] in
  let i := Samples.approver_click "refund_approve" "RR-1" in
  let E := Samples.world (Throw Samples.no_such) (Throw Samples.no_such)
             (Throw Samples.card_declined) in
  exists c1 c2 r',
    refund_requests st = (c1 ++ Samples.request_pending :: c2)%list /\
    refund_requests (Shop.refund_button E Samples.HOUR i st).2 =
      (c1 ++ r' :: c2)%list /\
    r' !! "status" = Some (VStr "failed") /\
    r' !! "failureReason" =
      Some (VStr "Charge ch_1 has already been refunded.") /\
    purchases (Shop.refund_button E Samples.HOUR i st).2 = purchases st.
Proof.
  intros st i E.
  apply (refund_failure_recorded E Samples.HOUR i st "RR-1"
           Samples.request_pending Samples.purchase_paid_once 0
           Samples.card_declined).
  - repeat split.
  - intros [|a] [|b] d d' k Ha Hb; try discriminate; reflexivity.
  - reflexivity.
  - reflexivity.
  - reflexivity.
  - reflexivity.
  - vm_compute. discriminate.
  - reflexivity.
Defined.

(** C3 as the specification states it counts any exception of the refund
    and subscription calls as a failed refund. The exception of the
    subscription cancel call is swallowed: with the refund itself accepted
    and the cancellation refused, the request ends [executed] and the
    purchase [refunded]. *)
Lemma refund_claim_counterexample :
  let st := Samples.store_of [Samples.purchase_paid] [Samples.request_pending] [] in
  let i := Samples.approver_click "refund_approve" "RR-1" in
  let E := Samples.world_cancel_fails (Throw Samples.no_such)
             (Ok Samples.a_subscription) (Ok "re_1") in
  let st' := (Shop.refund_button E Samples.HOUR i st).2 in
  subscriptions_cancel E "sub_1" = Throw Samples.no_such /\
  effects st' =
    [ Interaction "deferUpdate" ""; StripeSubscriptionRetrieve "sub_1";
      StripeRefundCreate "pi_1"; StripeSubscriptionCancel "sub_1";
      RoleRemove ALLOWED_GUILD_ID "42" "role-9" "Refund approved (RR-1)";
      Interaction "editReply" "refunded" ] /\
  List.map (fun d => d !! "status") (refund_requests st') =
    [Some (VStr "executed")] /\
  List.map (fun d => d !! "status") (purchases st') =
    [Some (VStr "refunded")].
Proof. vm_compute. repeat split. Qed.

(** A neighbouring case of C3: a subscription purchase whose latest
    invoice has no payment intent. No refund is created, and the purchase
    still ends [refunded], with a null refund id. *)
Example refund_without_payment_intent :
  let sub := {| sub_id := "sub_1"; sub_status := "active";
                sub_cancel_at_period_end := false;
                sub_current_period_end := None;
                sub_latest_invoice_payment_intent := None |} in
  let st := Samples.store_of [Samples.purchase_paid] [Samples.request_pending] [] in
  let i := Samples.approver_click "refund_approve" "RR-1" in
  let E := Samples.world (Throw Samples.no_such) (Ok sub) (Ok "re_1") in
  let st' := (Shop.refund_button E Samples.HOUR i st).2 in
  effects st' =
    [ Interaction "deferUpdate" ""; StripeSubscriptionRetrieve "sub_1";
      StripeSubscriptionCancel "sub_1";
      RoleRemove ALLOWED_GUILD_ID "42" "role-9" "Refund approved (RR-1)";
      Interaction "editReply" "refunded" ] /\
  List.map (fun d => (d !! "status", d !! "stripeRefundId")) (purchases st') =
    [(Some (VStr "refunded"), Some VNull)].
Proof. vm_compute. repeat split. Qed.

(** C4. When the approver clicks approve on a pending request whose
    purchase was paid more than 24 hours before the click, the request
    becomes [failed] with the reason "Refund window expired", no call to
    Stripe is made and the purchases are left as they were. *)
Theorem refund_window_rechecked (E : env) (now : Z) (i : interaction)
    (st : state) (rid : string) (r p : doc) (paidAt : Z) :
  approve_click i rid ->
  unique_index {| index_fields := ["requestId"]; index_sparse := false |}
    (refund_requests st) ->
  findOne [("requestId", VStr rid); ("guildId", VStr ALLOWED_GUILD_ID)]
    (refund_requests st) = Some r ->
  r !! "status" = Some (VStr "pending") ->
  findOne [("purchaseId", default VNull (r !! "purchaseId"));
           ("guildId", VStr ALLOWED_GUILD_ID)] (purchases st) = Some p ->
  p !! "paidAt" = Some (VDate paidAt) ->
  (REFUND_WINDOW_MS < now - paidAt)%Z ->
  exists c1 c2 r',
    refund_requests st = (c1 ++ r :: c2)%list /\
    refund_requests (Shop.refund_button E now i st).2 = (c1 ++ r' :: c2)%list /\
    r' !! "status" = Some (VStr "failed") /\
    r' !! "failureReason" = Some (VStr "Refund window expired") /\
    purchases (Shop.refund_button E now i st).2 = purchases st /\
    effects (Shop.refund_button E now i st).2 =
      (effects st ++ [Interaction "deferUpdate" "";
                      Interaction "editReply" "failed (window expired)"])%list.
Proof.
  intros Hclick Huniq Hreq Hpending Hpur Hpaid Hlate.
  destruct (findOne_split _ _ _ Hreq) as (c1 & c2 & Hc & _ & Hm).
  assert (Hid : matches [("requestId", VStr rid)] r = true).
  { unfold matches in *. cbn [forallb] in *.
    apply andb_true_iff in Hm as [-> _]. reflexivity. }
  rewrite Hc in Huniq.
  destruct (updateOne_unique _ [("requestId", VStr rid)]
              [("status", VStr "failed"); ("failedAt", VDate now);
               ("failureReason", VStr "Refund window expired")]
              c1 r c2 Huniq eq_refl eq_refl Hid) as [_ Hupd].
  enter_approve Hclick Hreq Hpending.
  cbn [purchases set_effects]. rewrite Hpur.
  unfold Shop.within_window, date_field. rewrite Hpaid.
  rewrite (proj2 (Z.ltb_lt _ _) Hlate). cbn [negb].
  rewrite bind_run. unfold Shop.set_request. rewrite modify_run, emit_run.
  cbn [snd refund_requests set_refund_requests set_effects purchases effects].
  rewrite Hc, Hupd, <- app_assoc.
  eexists c1, c2, _. repeat split; read_field.
Qed.

Lemma refund_window_rechecked_witness :
  let st := Samples.store_of [Samples.purchase_paid] [Samples.request_pending] [] in
  let i := Samples.approver_click "refund_approve" "RR-1" in
  let E := Samples.world (Throw Samples.no_such) (Throw Samples.no_such)
             (Throw Samples.no_such) in
  let now := (25 * Samples.HOUR)%Z in
  exists c1 c2 r',
    refund_requests st = (c1 ++ Samples.request_pending :: c2)%list /\
    refund_requests (Shop.refund_button E now i st).2 = (c1 ++ r' :: c2)%list /\
    r' !! "status" = Some (VStr "failed") /\
    r' !! "failureReason" = Some (VStr "Refund window expired") /\
    purchases (Shop.refund_button E now i st).2 = purchases st /\
    effects (Shop.refund_button E now i st).2 =
      (effects st ++ [Interaction "deferUpdate" "";
                      Interaction "editReply" "failed (window expired)"])%list.
Proof.
  intros st i E now.
  apply (refund_window_rechecked E now i st "RR-1" Samples.request_pending
           Samples.purchase_paid 0).
  - repeat split.
  - intros [|a] [|b] d d' k Ha Hb; try discriminate; reflexivity.
  - reflexivity.
  - reflexivity.
  - reflexivity.
  - reflexivity.
  - reflexivity.
Defined.



(** C6. A user who holds an active lifetime entitlement for a product is
    refused by [canStartCheckout] for every target plan, upgrade or not. *)
Theorem lifetime_blocks_checkout (st : state) (guildId userId : string)
    (product : Product) (planKey : string) (isUpgrade : bool) (ent : doc) :
  unique_index
    {| index_fields := ["guildId"; "userId"; "productId"]; index_sparse := false |}
    (entitlements st) ->
  In ent (entitlements st) ->
  ent !! "guildId" = Some (VStr guildId) ->
  ent !! "userId" = Some (VStr userId) ->
  ent !! "productId" = Some (VStr (product_id product)) ->
  ent !! "status" = Some (VStr "active") ->
  ent !! "planKey" = Some (VStr "lifetime") ->
  exists why,
    Ent.canStartCheckout guildId userId product planKey isUpgrade st =
      (Ok {| Ent.ok := false; Ent.reason := Some why |}, st).
Proof.
  intros Hu Hin Hg Hus Hp Hs Hl.
  unfold Ent.canStartCheckout, Ent.getEntitlement.
  rewrite !bind_run. cbn [get mret M_ret].
  rewrite (findOne_unique _
             [("guildId", VStr guildId); ("userId", VStr userId);
              ("productId", VStr (product_id product))]
             _ ent Hu eq_refl eq_refl Hin).
  - rewrite Hs, Hl. cbn. eauto.
  - unfold matches. cbn [forallb fst snd]. rewrite Hg, Hus, Hp.
    rewrite !bool_decide_eq_true_2 by reflexivity. reflexivity.
Qed.

Lemma lifetime_blocks_checkout_witness :
  exists why,
    Ent.canStartCheckout ALLOWED_GUILD_ID "42" Samples.a_product "monthly" true
      (Samples.store_of [] [] [Samples.entitlement_lifetime]) =
    (Ok {| Ent.ok := false; Ent.reason := Some why |},
     Samples.store_of [] [] [Samples.entitlement_lifetime]).
Proof.
  apply (lifetime_blocks_checkout _ _ _ _ _ _ Samples.entitlement_lifetime).
  - intros [|[|i]] [|[|j]] d d' k Hi Hj; try discriminate; reflexivity.
  - now left.
  - reflexivity.
  - reflexivity.
  - reflexivity.
  - reflexivity.
  - reflexivity.
Defined.

(** C7, as the code has it. A string that, once trimmed of surrounding
    white space, is an unsigned decimal with at most two fractional digits
    and a positive value below 2^46 pounds parses to exactly its value in
    minor units, and [minorToDisplay] shows that value with two decimals.
    A string whose trimmed form is not such a decimal, or is one of value
    zero, parses to null. *)
Theorem amount_round_trip (s : jsstring) :
  (forall W F,
     decimal2 (trim s) W F ->
     (0 < 100 * W + F)%N -> (100 * W + F < 100 * 2 ^ 46)%N ->
     amountToMinorUnits s = Some (100 * W + F)%N /\
     minorToDisplay (100 * W + F) =
       (CURRENCY_PREFIX ++ to_digits W ++ DOT :: two_digits F)%list /\
     decimal2 (to_digits W ++ DOT :: two_digits F)%list W F) /\
  ((forall W F, decimal2 (trim s) W F -> (100 * W + F = 0)%N) ->
   amountToMinorUnits s = None).
Proof.
  split.
  - intros W F Hd Hpos Hlt.
    destruct (decimal2_parse _ _ _ Hd) as (_ & _ & _ & HF).
    assert (H53 : (100 * 2 ^ 46 < 2 ^ 53)%N) by reflexivity.
    split; [|split; [|now apply display_decimal2]].
    + rewrite (amountToMinorUnits_decimal2 _ _ _ Hd).
      rewrite (round64_exact W), (round64_exact F) by lia.
      cbn [mul add]. rewrite (round64_exact (W * 100)) by lia.
      cbn [add]. rewrite (round64_exact (W * 100 + F)) by lia.
      destruct (N.eqb_spec (W * 100 + F) 0); [lia|]. f_equal. lia.
    + rewrite (minorToDisplay_exact _ Hlt). do 3 f_equal.
      * symmetry. apply (N.div_unique _ _ _ F); lia.
      * f_equal. symmetry. apply (N.mod_unique _ _ W); lia.
  - intros Hz. destruct (amount_re (trim s)) eqn:Hre.
    + destruct (amount_re_decimal2 _ Hre) as (W & F & Hd).
      rewrite (amountToMinorUnits_decimal2 _ _ _ Hd).
      specialize (Hz _ _ Hd).
      assert (W = 0 /\ F = 0)%N as [-> ->] by lia. reflexivity.
    + unfold amountToMinorUnits. now rewrite Hre.
Qed.

Lemma amount_round_trip_witness :
  (amountToMinorUnits (lit " 9.99 ") = Some 999%N /\
   minorToDisplay 999 = (CURRENCY_PREFIX ++ lit "9.99")%list).
Proof.
  refine (let H := proj1 (amount_round_trip (lit " 9.99 ")) 9%N 99%N _ _ _ in
          conj (proj1 H) (proj1 (proj2 H))).
  - exact (decimal2_frac2 (lit "9") 57 57 ltac:(discriminate)
             eq_refl eq_refl eq_refl).
  - reflexivity.
  - reflexivity.
Defined.

(** C7 as the specification states it fails three ways: a string padded
    with white space is not an unsigned decimal, yet it is accepted; from
    2^46 pounds on the display can differ from the amount entered; and a
    numeral too long for a double is rejected although its value is
    positive. *)
Lemma amount_claim_counterexample :
  (~ (exists W F, decimal2 (lit " 5") W F) /\
   amountToMinorUnits (lit " 5") = Some 500%N) /\
  (decimal2 (lit "70368744177664.01") 70368744177664 1 /\
   amountToMinorUnits (lit "70368744177664.01") = Some 7036874417766401%N /\
   minorToDisplay 7036874417766401 =
     (CURRENCY_PREFIX ++ lit "70368744177664.02")%list) /\
  (let big := (49 :: repeat 48 309)%N in
   decimal2 big (digits_value big) 0 /\ (0 < digits_value big)%N /\
   amountToMinorUnits big = None).
Proof.
  split; [|split].
  - split; [|reflexivity].
    intros (W & F & H). apply decimal2_head in H as (c & r & [= <- _] & Hc).
    discriminate.
  - split; [|split; vm_compute; reflexivity].
    exact (decimal2_frac2 (lit "70368744177664") 48 49 ltac:(discriminate)
             eq_refl eq_refl eq_refl).
  - split; [|split].
    + apply decimal2_whole; [discriminate | reflexivity].
    + vm_compute. reflexivity.
    + vm_compute. reflexivity.
Qed.

(** C8, as the code has it. When the handler acknowledges a
    customer.subscription.deleted event, every [paid] purchase that
    carries the subscription reference gets [subscriptionStatus] set to
    [canceled] and [subscriptionEndedAt] stamped, and every other purchase
    (another reference, or not [paid]) and every other field is left as it
    was. The purchase picked for the role removal is a [paid] product
    purchase with that reference that none is later than; when its guild
    and its buyer can be fetched and it records a role, the removal of
    that role from that buyer is issued. *)
Theorem subscription_deleted_reclaims (E : env) (now : Z) (req : request)
    (st st' : state) (sub : subscription) :
  constructEvent E req = Ok (CustomerSubscriptionDeleted sub) ->
  Shop.webhook E now req st = (Ok received, st') ->
  (forall i d, purchases st !! i = Some d ->
     purchases st' !! i =
       Some (if bool_decide (d !! "stripeSubscriptionId" = Some (VStr (sub_id sub))
                             /\ d !! "status" = Some (VStr "paid"))
             then <["subscriptionEndedAt" := VDate now]>
                    (<["subscriptionStatus" := VStr "canceled"]> d)
             else d)) /\
  length (purchases st') = length (purchases st) /\
  (forall p,
     findOne_desc
       [("stripeSubscriptionId", VStr (sub_id sub)); ("status", VStr "paid");
        ("type", VStr "product")] "paidAt" (purchases st) = Some p ->
     (In p (purchases st) /\
      forall d, In d (purchases st) ->
        matches [("stripeSubscriptionId", VStr (sub_id sub));
                 ("status", VStr "paid"); ("type", VStr "product")] d = true ->
        earlier (date_field "paidAt" p) (date_field "paidAt" d) = false) /\
     forall guild user role,
       p !! "guildId" = Some (VStr guild) -> p !! "userId" = Some (VStr user) ->
       p !! "roleId" = Some (VStr role) -> role <> "" ->
       guilds_fetch E guild = true -> members_fetch E guild user = true ->
       In (RoleRemove guild user role "Subscription ended") (effects st')).
Proof.
  intros Hev Hrun. unfold Shop.webhook in Hrun. rewrite Hev in Hrun.
  rewrite try_catch_run in Hrun.
  unfold Shop.customer_subscription_deleted in Hrun.
  rewrite bind_run, get_run, bind_run in Hrun.
  lazymatch type of Hrun with
  | context [match ?m st with _ => _ end] =>
      assert (Hkeep : respects keeps_purchases m) by keeps_purchases_tail;
      assert (Hgrow : respects (quiet (fun _ => True)) m)
        by (pose proof (quiet_tolerates (fun _ => True)) as T;
            repeat first
              [ respects_step
              | apply (respects_Shop_log _ _ T)
              | apply (respects_check _ _ T) ]; auto);
      specialize (Hkeep st); specialize (Hgrow st);
      destruct (m st) as [[[]|e] s1] eqn:Hmid
  end; [|discriminate].
  rewrite bind_run, modify_run in Hrun. cbn [mret M_ret] in Hrun.
  injection Hrun as <-. cbn [snd] in Hkeep, Hgrow.
  cbn [purchases effects set_purchases]. rewrite Hkeep.
  split; [|split].
  - intros i d Hd. rewrite updateMany_lookup, Hd. cbn [fmap option_fmap option_map].
    f_equal. unfold Shop.by_subscription, matches. cbn [forallb fst snd].
    rewrite andb_true_r.
    destruct (bool_decide_reflect (d !! "stripeSubscriptionId" = Some (VStr (sub_id sub))));
      destruct (bool_decide_reflect (d !! "status" = Some (VStr "paid")));
      cbn [andb];
      first [ rewrite bool_decide_eq_true_2 by tauto; reflexivity
            | rewrite bool_decide_eq_false_2 by tauto; reflexivity ].
  - unfold updateMany. apply length_map.
  - intros p Hp. split.
    { destruct (findOne_desc_latest _ _ _ _ Hp) as (H1 & _ & H3). auto. }
    intros guild user role Hg Hu Hr Hne Hgf Hmf.
    destruct Hgrow as [_ (l & Hl & _)]. rewrite Hl.
    cbn [app] in Hp, Hmid. unfold Shop.by_subscription in Hmid.
    cbn [app] in Hmid. rewrite Hp in Hmid.
    unfold str_field in Hmid. rewrite Hg, Hu, Hr in Hmid.
    rewrite (truthy_Some' role Hne) in Hmid.
    unfold from_option in Hmid. cbv beta iota in Hmid. unfold id in Hmid.
    rewrite Hgf, Hmf in Hmid.
    cbn [negb] in Hmid. unfold check in Hmid.
    rewrite bind_run, try_catch_run, call_run in Hmid.
    assert (Hin : In (RoleRemove guild user role "Subscription ended") (effects s1)).
    { lazymatch type of Hmid with
      | context [Shop.logToPurchaseLog ?E ?n ?g ?m] =>
          pose proof (respects_Shop_log (quiet (fun _ => True)) _
                        (quiet_tolerates _) E n g m
                        (fun _ => I) (fun _ => I)) as Hlog
      end.
      destruct (roles_remove E guild user role);
        cbn [mret M_ret] in Hmid;
        lazymatch type of Hmid with
        | ?f ?s0 = _ =>
            specialize (Hlog s0); rewrite Hmid in Hlog;
            destruct Hlog as [_ (l' & Hl' & _)]; cbn [snd] in Hl';
            rewrite Hl'; cbn [effects set_effects];
            apply in_app_iff; left; apply in_app_iff; right; now left
        end. }
    rewrite <- Hl. exact Hin.
Qed.

Lemma subscription_deleted_reclaims_witness :
  let E := Samples.world (Ok (CustomerSubscriptionDeleted Samples.a_subscription))
             (Ok Samples.a_subscription) (Throw Samples.no_such) in
  let st := Samples.store_of [Samples.purchase_paid; Samples.purchase_refunded] [] [] in
  let st' := (Shop.webhook E 9 Samples.a_request st).2 in
  purchases st' !! 0%nat =
    Some (<["subscriptionEndedAt" := VDate 9]>
            (<["subscriptionStatus" := VStr "canceled"]> Samples.purchase_paid)) /\
  purchases st' !! 1%nat = Some Samples.purchase_refunded /\
  In (RoleRemove ALLOWED_GUILD_ID "42" "role-9" "Subscription ended") (effects st').
Proof.
  intros E st st'.
  destruct (subscription_deleted_reclaims E 9 Samples.a_request st st'
              Samples.a_subscription eq_refl) as (Hrows & _ & Hrole).
  - vm_compute. reflexivity.
  - split; [|split].
    + exact (Hrows 0%nat Samples.purchase_paid eq_refl).
    + exact (Hrows 1%nat Samples.purchase_refunded eq_refl).
    + destruct (Hrole Samples.purchase_paid eq_refl) as [_ H].
      apply (H ALLOWED_GUILD_ID "42" "role-9"); try reflexivity. discriminate.
Defined.

(** C8 as the specification states it says all purchases that share the
    subscription reference are marked ended. A row that shares it but is
    [refunded] is passed over by the update, which selects [paid] rows
    only. *)
Lemma subscription_claim_counterexample :
  let E := Samples.world (Ok (CustomerSubscriptionDeleted Samples.a_subscription))
             (Ok Samples.a_subscription) (Throw Samples.no_such) in
  let st := Samples.store_of [Samples.purchase_paid; Samples.purchase_refunded] [] [] in
  let field (k : string) (s : state) :=
    List.map (fun d => d !! k) (purchases s) in
  field "stripeSubscriptionId" st =
    [Some (VStr "sub_1"); Some (VStr "sub_1")] /\
  field "status" st = [Some (VStr "paid"); Some (VStr "refunded")] /\
  (Shop.webhook E 9 Samples.a_request st).1 = Ok received /\
  field "subscriptionStatus" (Shop.webhook E 9 Samples.a_request st).2 =
    [Some (VStr "canceled"); Some (VStr "active")].
Proof. vm_compute. repeat split. Qed.

(** C9. [enabledPlans] lists plan keys in the canonical order one_time,
    monthly, annual, lifetime, and a plan key is listed exactly when the
    price map holds a positive minor-unit amount for it. *)
Theorem enabledPlans_canonical (pricesObj : option (gmap string PlanPrice)) :
  PLAN_KEYS = ["one_time"; "monthly"; "annual"; "lifetime"] /\
  sublist (enabledPlans pricesObj) PLAN_KEYS /\
  forall key, In key PLAN_KEYS ->
    (In key (enabledPlans pricesObj) <->
     exists prices p,
       pricesObj = Some prices /\ prices !! key = Some p /\
       (0 < amountMinor p)%N).
Proof.
  split; [reflexivity|]. rewrite enabledPlans_filter. split.
  - generalize PLAN_KEYS. intros l. induction l as [|k l IH]; cbn [List.filter].
    + constructor.
    + destruct (plan_amount_truthy pricesObj k);
        [now apply sublist_skip | now apply sublist_cons].
  - intros key Hkey. rewrite filter_In. unfold plan_amount_truthy. split.
    + intros [_ H]. destruct pricesObj as [prices|]; [|discriminate].
      destruct (prices !! key) as [p|] eqn:Ep; [|discriminate].
      exists prices, p. repeat split; [assumption|].
      apply negb_true_iff, N.eqb_neq in H. lia.
    + intros (prices & p & -> & Ep & Hpos). split; [assumption|].
      rewrite Ep. apply negb_true_iff, N.eqb_neq. lia.
Qed.

(** C10. A verified checkout.session.completed event whose metadata type
    is [donation] never leads to a role grant and never writes an
    entitlement, in either revision; and the metadata that
    [createCheckoutSessionForDonation] sends to Stripe has neither a
    [role_id] nor a [product_id]. *)
Theorem donation_grants_nothing (E : env) (now : Z) (req : request)
    (st : state) (ses : session) :
  constructEvent E req = Ok (CheckoutSessionCompleted ses) ->
  default ∅ (session_metadata ses) !! "type" = Some "donation" ->
  (entitlements (Shop.webhook E now req st).2 = entitlements st /\
   exists l, effects (Shop.webhook E now req st).2 = (effects st ++ l)%list /\
             Forall (fun e => ~ is_role_add e) l) /\
  (entitlements (Ent.webhook E now req st).2 = entitlements st /\
   exists l, effects (Ent.webhook E now req st).2 = (effects st ++ l)%list /\
             Forall (fun e => ~ is_role_add e) l) /\
  forall purchaseId guildId userId amountMinor,
    let metadata : gmap string string :=
      list_to_map (Shop.donation_metadata purchaseId guildId userId amountMinor) in
    metadata !! "type" = Some "donation" /\
    metadata !! "role_id" = None /\ metadata !! "product_id" = None.
Proof.
  intros Hev Ht.
  pose proof (quiet_tolerates (fun e => ~ is_role_add e)) as T.
  assert (Hset : forall c s, quiet (fun e => ~ is_role_add e) s (set_purchases c s))
    by (intros; now apply quiet_same).
  split; [|split].
  - change (quiet (fun e => ~ is_role_add e) st (Shop.webhook E now req st).2).
    unfold Shop.webhook. rewrite Hev.
    lazymatch goal with
    | |- quiet _ ?s (?m ?s).2 => enough (H : respects (quiet (fun e => ~ is_role_add e)) m) by apply H
    end.
    unfold Shop.checkout_session_completed. rewrite Ht.
    change (String.eqb "donation" "product") with false. cbv iota.
    repeat first
      [ respects_step
      | apply (respects_side_data _ _ T)
      | apply (respects_Shop_log _ _ T)
      | apply respects_modify; intros ?; apply Hset
      | apply respects_store; [typeclasses eauto | exact Hset] ];
      cbn; auto.
  - change (quiet (fun e => ~ is_role_add e) st (Ent.webhook E now req st).2).
    unfold Ent.webhook. rewrite Hev.
    lazymatch goal with
    | |- quiet _ ?s (?m ?s).2 => enough (H : respects (quiet (fun e => ~ is_role_add e)) m) by apply H
    end.
    unfold Ent.checkout_session_completed. rewrite Ht.
    change (String.eqb "donation" "product") with false. cbv iota.
    repeat first
      [ respects_step
      | apply (respects_side_data _ _ T)
      | apply (respects_Ent_log _ _ T)
      | apply respects_store; [typeclasses eauto | exact Hset] ];
      cbn; auto.
  - intros purchaseId guildId userId amountMinor. cbv zeta.
    unfold Shop.donation_metadata. cbn [list_to_map foldr fst snd uncurry].
    repeat split;
      repeat (rewrite lookup_insert_ne by discriminate);
      first [ apply lookup_insert_eq | apply lookup_empty ].
Qed.

Lemma donation_grants_nothing_witness :
  let ses := Samples.session_of
               [("purchase_id", "VT-1"); ("guild_id", ALLOWED_GUILD_ID);
                ("user_id", "42"); ("type", "donation");
                ("amount_minor", "500"); ("currency", "gbp")] None in
  let E := Samples.world (Ok (CheckoutSessionCompleted ses))
             (Throw Samples.no_such) (Throw Samples.no_such) in
  let st := Samples.store_of [Samples.purchase_created] []
              [Samples.entitlement_lifetime] in
  entitlements (Shop.webhook E 1 Samples.a_request st).2 = entitlements st /\
  entitlements (Ent.webhook E 1 Samples.a_request st).2 = entitlements st.
Proof.
  intros ses E st.
  destruct (donation_grants_nothing E 1 Samples.a_request st ses eq_refl eq_refl)
    as ([H1 _] & [H2 _] & _).
  split; [exact H1 | exact H2].
Defined.

(** * Further properties of the code *)

Module CatalogFacts.
Import Js Money Service Catalog MoneyFacts.
Local Open Scope string_scope.

(** Splitting at the first colon of a text whose head has none. *)
Lemma split_colon_app a b :
  split_colon a = [a] -> split_colon (a ++ ":" ++ b) = a :: split_colon b.
Proof.
  induction a as [|c a IH]; intros H.
  - reflexivity.
  - change (String c a ++ ":" ++ b) with (String c (a ++ ":" ++ b)).
    cbn [split_colon] in *.
    destruct (Ascii.eqb c ":"); [discriminate|].
    destruct (split_colon a) as [|h t] eqn:Ea.
    + injection H as H. destruct a; discriminate.
    + injection H as -> ->. now rewrite IH.
Qed.

Lemma plan_key_no_colon k : In k PLAN_KEYS -> split_colon k = [k].
Proof.
  intros [<-|[<-|[<-|[<-|[]]]]]; reflexivity.
Qed.

(** The loop that fills a row visits the plans in order. *)
Lemma fold_snoc {A B} (f : A -> B) (l : list A) (acc : list B) :
  fold_left (fun row x => (row ++ [f x])%list) l acc = (acc ++ List.map f l)%list.
Proof.
  revert acc. induction l as [|x l IH]; intros acc; cbn [fold_left List.map].
  - now rewrite app_nil_r.
  - rewrite IH, <- app_assoc. reflexivity.
Qed.

Lemma enabledPlans_length pricesObj : (length (enabledPlans pricesObj) <= 4)%nat.
Proof.
  rewrite enabledPlans_filter. unfold PLAN_KEYS. cbn [List.filter].
  repeat (destruct (plan_amount_truthy pricesObj _)); cbn [length]; lia.
Qed.

Lemma enabledPlans_In pricesObj k :
  In k (enabledPlans pricesObj) <->
  In k PLAN_KEYS /\ plan_amount_truthy pricesObj k = true.
Proof. rewrite enabledPlans_filter. apply filter_In. Qed.

End CatalogFacts.

Import Catalog Desk Vocabulary CatalogFacts.


(** X1. every action row of a ticket message holds at most five buttons,
    and every plan button names its product and one of its enabled plans. *)
Theorem ticket_buttons_parse_back (product : Product) (row : list Button)
    (b : Button) :
  split_colon (product_id product) = [product_id product] ->
  In row (planButtonsForTicket product) ->
  (length row <= 5)%nat /\
  last row = Some {| b_customId := "close_ticket"; b_style := Danger;
                     b_label := lit "Close Ticket" |} /\
  (forall k, In k (enabledPlans (product_prices product)) ->
     exists b', In b' row /\
       b_customId b' = "tp:" ++ product_id product ++ ":" ++ k) /\
  (In b row ->
     b_customId b = "close_ticket" \/
     exists k,
       String.prefix "tp:" (b_customId b) = true /\
       split_colon (b_customId b) = ["tp"; product_id product; k] /\
       In k PLAN_KEYS /\
       plan_amount_truthy (product_prices product) k = true).
Proof.
  intros Hid Hrow. unfold planButtonsForTicket in Hrow.
  destruct (Nat.eqb _ 0); [destruct Hrow|].
  destruct Hrow as [<-|[]]. rewrite fold_snoc. cbn [app].
  split; [|split; [|split]].
  - rewrite length_app, length_map. cbn [length].
    pose proof (enabledPlans_length (product_prices product)). lia.
  - apply last_snoc.
  - intros k Hk. eexists. split.
    + apply in_app_iff. left. apply in_map_iff. exists k.
      split; [reflexivity | exact Hk].
    + reflexivity.
  - intros Hb. apply in_app_iff in Hb as [Hb|[<-|[]]]; [|now left].
    right. apply in_map_iff in Hb as (k & <- & Hk).
    apply enabledPlans_In in Hk as [Hk Ht]. exists k. cbn [b_customId].
    split; [apply prefix_app|]. split; [|now split].
    change ("tp:" ++ product_id product ++ ":" ++ k)
      with ("tp" ++ ":" ++ (product_id product ++ ":" ++ k)).
    rewrite split_colon_app by reflexivity.
    rewrite split_colon_app by assumption.
    now rewrite plan_key_no_colon.
Qed.

Lemma ticket_buttons_parse_back_witness :
  exists k,
    split_colon "tp:p1:monthly" = ["tp"; "p1"; k] /\ In k PLAN_KEYS.
Proof.
  pose (b := {| b_customId := "tp:p1:monthly"; b_style := Primary;
                b_label := (plan_label "monthly" ++ SPACE
                             :: minorToDisplay 499)%list |}).
  pose (close := {| b_customId := "close_ticket"; b_style := Danger;
                    b_label := lit "Close Ticket" |}).
  destruct (ticket_buttons_parse_back Samples.a_product [b; close] b eq_refl)
    as (_ & _ & _ & H); [vm_compute; left; reflexivity|].
  destruct (H (or_introl eq_refl)) as [H0|(k & _ & Hs & Hk & _)].
  - discriminate H0.
  - exists k. split; [exact Hs | exact Hk].
Defined.

(** X2. a line item is made exactly for the plans that [enabledPlans]
    lists; it charges that plan's amount, which is positive, in pounds,
    and it recurs exactly for the monthly and the annual plan, the plans
    for which the checkout session is opened in subscription mode. *)
Theorem line_item_for_enabled_plans (product : Product) (planKey : string) :
  In planKey PLAN_KEYS ->
  (In planKey (enabledPlans (product_prices product)) ->
   exists item,
     makeLineItemForProduct product planKey = Ok item /\
     li_unit_amount item = plan_amount (product_prices product) planKey /\
     (0 < li_unit_amount item)%N /\
     li_currency item = "gbp" /\ li_quantity item = 1%N /\
     (is_Some (li_recurring item) <->
      planKey = "monthly" \/ planKey = "annual")) /\
  (~ In planKey (enabledPlans (product_prices product)) ->
   makeLineItemForProduct product planKey = Throw plan_not_available).
Proof.
  intros Hk. rewrite enabledPlans_In. unfold makeLineItemForProduct. split.
  - intros [_ Ht]. rewrite Ht. cbn [negb]. eexists. split; [reflexivity|].
    cbn [li_unit_amount li_currency li_quantity li_recurring].
    repeat split.
    + unfold plan_amount_truthy, plan_amount in *.
      destruct (product_prices product) as [prices|]; [|discriminate].
      cbn. destruct (prices !! planKey) as [p|]; [|discriminate].
      cbn. apply negb_true_iff, N.eqb_neq in Ht. lia.
    + destruct Hk as [<-|[<-|[<-|[<-|[]]]]]; cbn; intros [x Hx];
        first [ discriminate | auto ].
    + intros [->| ->]; cbn; eauto.
  - intros Hn. destruct (plan_amount_truthy _ _); [|reflexivity].
    exfalso. apply Hn. now split.
Qed.

Lemma line_item_for_enabled_plans_witness :
  exists item,
    makeLineItemForProduct Samples.a_product "monthly" = Ok item /\
    li_unit_amount item = 499%N /\
    li_recurring item = Some {| interval := "month"; interval_count := 1 |}.
Proof.
  assert (Hk : In "monthly" PLAN_KEYS) by (right; now left).
  assert (He : In "monthly" (enabledPlans (product_prices Samples.a_product)))
    by (vm_compute; now left).
  destruct (proj1 (line_item_for_enabled_plans Samples.a_product "monthly" Hk) He)
    as (item & Hi & _).
  exists item. split; [exact Hi|].
  injection Hi as <-. split; reflexivity.
Defined.

Lemma presses_after calls : forall cooldown key t0 j tj,
  (t0 <= default 0 (cooldown !! key))%Z ->
  calls !! j = Some (tj, key) ->
  presses calls cooldown !! j = Some false ->
  (t0 + EntUi.ACTION_COOLDOWN_MS <= tj)%Z.
Proof.
  induction calls as [|[t k] calls IH]; intros m key t0 j tj Hm Hj Hr;
    [destruct j; discriminate|].
  cbn [presses] in Hr. unfold EntUi.isCooling in Hr.
  destruct j as [|j].
  - cbn in Hj. injection Hj as -> ->. cbn in Hr.
    destruct (Z.ltb_spec (tj - default 0 (m !! key))%Z EntUi.ACTION_COOLDOWN_MS)
      as [H|H]; [discriminate|]. lia.
  - cbn [lookup list_lookup] in Hj, Hr.
    destruct (Z.ltb_spec (t - default 0 (m !! k))%Z EntUi.ACTION_COOLDOWN_MS)
      as [H|H]; cbn [fst snd] in Hr.
    + exact (IH _ _ _ _ _ Hm Hj Hr).
    + refine (IH _ _ _ _ _ _ Hj Hr).
      destruct (decide (k = key)) as [->|Hne].
      * rewrite lookup_insert_eq. cbn. unfold EntUi.ACTION_COOLDOWN_MS in H. lia.
      * now rewrite lookup_insert_ne.
Qed.

(** X3. two presses that [isCooling] lets through for the same key are at
    least two seconds apart, whatever the map held before and whatever
    other keys are pressed in between. *)
Theorem cooldown_spaces_actions (calls : list (Z * string))
    (cooldown : gmap string Z) (i j : nat) (ti tj : Z) (key : string) :
  (i < j)%nat ->
  calls !! i = Some (ti, key) -> calls !! j = Some (tj, key) ->
  presses calls cooldown !! i = Some false ->
  presses calls cooldown !! j = Some false ->
  (ti + 2000 <= tj)%Z.
Proof.
  revert cooldown i j.
  induction calls as [|[t k] calls IH]; intros m i j Hij Hi Hj Ri Rj;
    [destruct i; discriminate|].
  destruct j as [|j]; [lia|]. destruct i as [|i].
  - cbn in Hi. injection Hi as -> ->.
    cbn [presses lookup list_lookup] in Ri, Rj. unfold EntUi.isCooling in Ri, Rj.
    destruct (ti - default 0 (m !! key) <? EntUi.ACTION_COOLDOWN_MS)%Z;
      [discriminate|].
    cbn [fst snd] in Rj.
    apply (presses_after calls (<[key := ti]> m) key ti j tj); try assumption.
    rewrite lookup_insert_eq. cbn. lia.
  - cbn [presses lookup list_lookup] in Hi, Hj, Ri, Rj.
    apply (IH (EntUi.isCooling t k m).2 i j); try assumption. lia.
Qed.

Lemma cooldown_spaces_actions_witness : (5000 + 2000 <= 7000)%Z.
Proof.
  apply (cooldown_spaces_actions
           [(5000, "buy:42"); (5500, "buy:42"); (6000, "buy:7"); (7000, "buy:42")]%Z
           ∅ 0 3 5000 7000 "buy:42").
  - lia.
  - reflexivity.
  - reflexivity.
  - vm_compute. reflexivity.
  - vm_compute. reflexivity.
Defined.

(** X4. what [disableComponents] returns holds only disabled buttons (type
    2) and select menus (type 3) and no empty row, and it is the buttons
    and select menus of the message, row by row and in order, with
    nothing else changed. *)
Theorem disableComponents_disables {A}
    (components : option (list (option (list (EntUi.Component A))))) :
  let keep (c : EntUi.Component A) :=
    ((EntUi.comp_type c =? 2) || (EntUi.comp_type c =? 3))%N in
  EntUi.disableComponents components =
    List.filter (fun row => negb (Nat.eqb (length row) 0))
      (List.map
         (fun row => List.map (EntUi.setDisabled true)
                       (List.filter keep (default [] row)))
         (default [] components)) /\
  Forall
    (fun row =>
       row <> [] /\
       Forall (fun c => EntUi.comp_disabled c = true /\ keep c = true) row)
    (EntUi.disableComponents components).
Proof.
  intros keep.
  assert (Hrow : forall (row : list (EntUi.Component A)) acc,
            fold_left
              (fun newRow comp =>
                 if (EntUi.comp_type comp =? 2)%N
                 then (newRow ++ [EntUi.setDisabled true comp])%list
                 else if (EntUi.comp_type comp =? 3)%N
                 then (newRow ++ [EntUi.setDisabled true comp])%list
                 else newRow) row acc =
            (acc ++ List.map (EntUi.setDisabled true) (List.filter keep row))%list).
  { induction row as [|c row IH]; intros acc; cbn [fold_left List.filter List.map].
    - now rewrite app_nil_r.
    - rewrite IH. unfold keep at 2.
      destruct (EntUi.comp_type c =? 2)%N; cbn [orb List.map].
      + now rewrite <- app_assoc.
      + destruct (EntUi.comp_type c =? 3)%N; cbn [List.map];
          [now rewrite <- app_assoc | reflexivity]. }
  assert (Heq : forall rows acc,
            fold_left
              (fun out (row : option (list (EntUi.Component A))) =>
                 let newRow :=
                   fold_left
                     (fun newRow comp =>
                        if (EntUi.comp_type comp =? 2)%N
                        then (newRow ++ [EntUi.setDisabled true comp])%list
                        else if (EntUi.comp_type comp =? 3)%N
                        then (newRow ++ [EntUi.setDisabled true comp])%list
                        else newRow) (default [] row) [] in
                 if negb (Nat.eqb (length newRow) 0)
                 then (out ++ [newRow])%list else out) rows acc =
            (acc ++ List.filter (fun row => negb (Nat.eqb (length row) 0))
               (List.map
                  (fun row => List.map (EntUi.setDisabled true)
                                (List.filter keep (default [] row))) rows))%list).
  { induction rows as [|row rows IH]; intros acc;
      cbn [fold_left List.filter List.map].
    - now rewrite app_nil_r.
    - rewrite IH, Hrow. cbn [app].
      destruct (negb (Nat.eqb (length _) 0)); [now rewrite <- app_assoc | reflexivity]. }
  assert (Hmain : EntUi.disableComponents components =
    List.filter (fun row => negb (Nat.eqb (length row) 0))
      (List.map
         (fun row => List.map (EntUi.setDisabled true)
                       (List.filter keep (default [] row)))
         (default [] components))).
  { unfold EntUi.disableComponents. now rewrite Heq. }
  split; [exact Hmain|]. rewrite Hmain.
  apply List.Forall_forall. intros row Hin.
  apply filter_In in Hin as [Hin Hne]. split.
  - intros ->. discriminate.
  - apply in_map_iff in Hin as (r & <- & _).
    apply List.Forall_forall. intros c Hc.
    apply in_map_iff in Hc as (c0 & <- & Hc0).
    apply filter_In in Hc0 as [_ Hk]. split; [reflexivity | exact Hk].
Qed.

Module CodecFacts.
Import Js Money MoneyFacts.
Local Open Scope list_scope.

Lemma digit_not_white c : is_digit c = true -> is_white c = false.
Proof.
  unfold is_digit, is_white. intros H.
  apply andb_true_iff in H as [H1 H2].
  apply N.leb_le in H1. apply N.leb_le in H2.
  repeat (rewrite (proj2 (N.eqb_neq c _)) by lia).
  rewrite (proj2 (N.leb_gt 8192 c)) by lia. reflexivity.
Qed.

(** [trim] leaves alone a text that starts and ends with a digit. *)
Lemma trim_digits_ends c r d :
  is_digit c = true -> is_digit d = true ->
  trim (c :: r ++ [d]) = c :: r ++ [d].
Proof.
  intros Hc Hd. unfold trim, trimEnd.
  cbn [trimStart]. rewrite (digit_not_white _ Hc).
  change (c :: r ++ [d]) with ((c :: r) ++ [d]).
  rewrite rev_app_distr. cbn [rev app trimStart].
  rewrite (digit_not_white _ Hd).
  change (d :: rev r ++ [c]) with ([d] ++ rev (c :: r)).
  rewrite rev_app_distr, rev_involutive. reflexivity.
Qed.

(** A text of code units below 256 survives the passage through a
    string of bytes. *)
Lemma lit_of_bytes l :
  Forall (fun c => c < 256) l ->
  lit (string_of_list_ascii (List.map ascii_of_N l)) = l.
Proof.
  intros H. unfold lit. rewrite list_ascii_of_string_of_list_ascii.
  rewrite List.map_map. induction H as [|c l Hc _ IH]; [reflexivity|].
  cbn [List.map]. rewrite IH. f_equal. now apply N_ascii_embedding.
Qed.

Lemma digits_below_256 l :
  forallb is_digit l = true -> Forall (fun c => c < 256) l.
Proof.
  intros H. apply List.Forall_forall. intros c Hc.
  rewrite forallb_forall in H. specialize (H c Hc).
  unfold is_digit in H. apply andb_true_iff in H as [_ H].
  apply N.leb_le in H. lia.
Qed.

(** [Number(String(n))] is [n] for a count of minor units below [2^53]. *)
Lemma amount_text_reads_back n :
  n < 2 ^ 53 ->
  Service.amount_of_metadata
    (Some (string_of_list_ascii (List.map ascii_of_N (Number_toString n)))) = n.
Proof.
  intros Hn. rewrite Number_toString_exact by assumption.
  unfold Service.amount_of_metadata.
  destruct (to_digits_value n) as [Hv Hd].
  rewrite lit_of_bytes by now apply digits_below_256.
  now rewrite Hd, Hv, round64_exact.
Qed.

End CodecFacts.

Import CodecFacts.

(** X5. what [minorToDisplay] shows after the currency sign parses back,
    with [amountToMinorUnits], to the amount it was made from. *)
Theorem display_parses_back (n : N) :
  (0 < n)%N -> (n < 100 * 2 ^ 46)%N ->
  exists shown,
    Money.minorToDisplay n = (CURRENCY_PREFIX ++ shown)%list /\
    amountToMinorUnits shown = Some n.
Proof.
  intros Hpos Hlt.
  exists (to_digits (n / 100) ++ DOT :: two_digits (n mod 100))%list.
  split; [now apply minorToDisplay_exact|].
  assert (HF : (n mod 100 < 100)%N) by (apply N.mod_lt; discriminate).
  pose proof (display_decimal2 (n / 100) _ HF) as Hd.
  assert (Htrim : trim (to_digits (n / 100) ++ DOT :: two_digits (n mod 100))%list
                  = (to_digits (n / 100) ++ DOT :: two_digits (n mod 100))%list).
  { destruct (to_digits_value (n / 100)) as [_ Hall].
    pose proof (to_digits_length (n / 100)) as Hlen.
    destruct (to_digits (n / 100)) as [|c r]; [cbn in Hlen; lia|].
    cbn [forallb] in Hall. apply andb_true_iff in Hall as [Hc _].
    unfold two_digits.
    change ((c :: r) ++ DOT :: [48 + n mod 100 / 10; 48 + n mod 100 mod 10])%list
      with (c :: (r ++ [DOT; 48 + n mod 100 / 10]) ++ [48 + n mod 100 mod 10])%list
      || (rewrite <- app_comm_cons;
          replace (r ++ DOT :: [48 + n mod 100 / 10; 48 + n mod 100 mod 10])%list
            with ((r ++ [DOT; 48 + n mod 100 / 10]) ++ [48 + n mod 100 mod 10])%list
            by (rewrite <- app_assoc; reflexivity)).
    apply trim_digits_ends; [exact Hc|].
    unfold is_digit.
    assert ((n mod 100) mod 10 < 10)%N by (apply N.mod_lt; discriminate).
    apply andb_true_iff. split; apply N.leb_le.
    - apply N.le_add_r.
    - clear -H. lia. }
  rewrite <- Htrim in Hd.
  rewrite (amountToMinorUnits_decimal2 _ _ _ Hd).
  assert (H53 : (100 * 2 ^ 46 < 2 ^ 53)%N) by reflexivity.
  pose proof (N.div_mod n 100 ltac:(discriminate)) as Hdm.
  assert (HW : (n / 100 < 2 ^ 46)%N)
    by (apply N.Div0.div_lt_upper_bound; lia).
  rewrite (round64_exact (n / 100)), (round64_exact (n mod 100)) by lia.
  cbn [mul add]. rewrite (round64_exact (n / 100 * 100)) by lia.
  cbn [add]. rewrite (round64_exact (n / 100 * 100 + n mod 100)) by lia.
  destruct (N.eqb_spec (n / 100 * 100 + n mod 100) 0); [lia|]. f_equal. lia.
Qed.

Lemma display_parses_back_witness :
  exists shown,
    Money.minorToDisplay 999 = (CURRENCY_PREFIX ++ shown)%list /\
    amountToMinorUnits shown = Some 999%N.
Proof.
  apply (display_parses_back 999); reflexivity.
Defined.

(** X6. the amount that the checkout functions write into the session
    metadata is the amount the webhook reads from it, for both kinds of
    checkout and every amount below [2^53] minor units. *)
Theorem metadata_amount_round_trip (purchaseId guildId userId planKey : string)
    (product : Product) (amountMinor : N) :
  (amountMinor < 2 ^ 53)%N ->
  (plan_amount (product_prices product) planKey < 2 ^ 53)%N ->
  amount_of_metadata
    ((list_to_map (Shop.donation_metadata purchaseId guildId userId amountMinor)
        : gmap string string) !! "amount_minor") = amountMinor /\
  amount_of_metadata
    ((list_to_map (product_metadata purchaseId guildId userId product planKey)
        : gmap string string) !! "amount_minor") =
    plan_amount (product_prices product) planKey.
Proof.
  intros H1 H2. unfold Shop.donation_metadata, product_metadata.
  cbn [list_to_map foldr fst snd uncurry].
  repeat (rewrite lookup_insert_ne by discriminate).
  rewrite !lookup_insert_eq.
  split; now apply amount_text_reads_back.
Qed.

Lemma metadata_amount_round_trip_witness :
  amount_of_metadata
    ((list_to_map (Shop.donation_metadata "VT-1" ALLOWED_GUILD_ID "42" 500)
        : gmap string string) !! "amount_minor") = 500%N.
Proof.
  apply (metadata_amount_round_trip "VT-1" ALLOWED_GUILD_ID "42" "monthly"
           Samples.a_product 500); reflexivity.
Defined.

Module UpsertFacts.
Import Mongo Service MongoFacts ServiceFacts.
Local Open Scope string_scope.

(** The last binding of a key in a [$set] is the one that is read. *)
Lemma set_fields_lookup_in u d k v :
  NoDup (List.map fst u) -> In (k, v) u -> set_fields u d !! k = Some v.
Proof.
  unfold set_fields. revert d.
  induction u as [|[k' v'] u IH]; intros d Hnd Hin; [destruct Hin|].
  cbn [List.map fst] in Hnd. apply NoDup_cons in Hnd as [Hk' Hnd].
  cbn [fold_left fst snd]. destruct Hin as [[= -> ->]|Hin].
  - change (fold_left (fun acc kv => <[kv.1:=kv.2]> acc) u (<[k:=v]> d))
      with (set_fields u (<[k:=v]> d)).
    rewrite set_fields_lookup_other; [apply lookup_insert_eq|].
    rewrite <- list_elem_of_In. exact Hk'.
  - now apply IH.
Qed.

Lemma set_fields_app u1 u2 d :
  set_fields (u1 ++ u2) d = set_fields u2 (set_fields u1 d).
Proof. unfold set_fields. apply fold_left_app. Qed.

(** A document with the key of a non-sparse index, none of it null,
    matches the query on that key. *)
Lemma matches_index_key ix q d :
  index_sparse ix = false -> List.map fst q = index_fields ix ->
  Forall (fun kv => kv.2 <> VNull) q ->
  index_key ix d = Some (List.map snd q) -> matches q d = true.
Proof.
  intros Hs Hf Hnn. unfold index_key. rewrite Hs, <- Hf. cbn [andb].
  intros [= H]. clear Hf Hs. unfold matches.
  induction Hnn as [|[k v] q Hv _ IH]; [reflexivity|].
  cbn [List.map fst snd forallb] in *. injection H as Hk H.
  rewrite IH by assumption. rewrite andb_true_r.
  apply bool_decide_eq_true. destruct (d !! k) as [x|]; cbn in Hk; congruence.
Qed.

(** Inserting a document that matches [q], when nothing on record does,
    cannot collide on the index that [q] spells out. *)
Lemma fresh_key_no_duplicate ix q d c :
  index_sparse ix = false -> List.map fst q = index_fields ix ->
  Forall (fun kv => kv.2 <> VNull) q ->
  matches q d = true -> existsb (matches q) c = false ->
  duplicate_key ix d c = false.
Proof.
  intros Hs Hf Hnn Hm Hex. unfold duplicate_key.
  rewrite (index_key_matches ix q d Hs Hf Hm).
  apply not_true_iff_false. intros H. apply existsb_exists in H as (d' & Hin & Hd').
  apply bool_decide_eq_true in Hd'.
  apply (matches_index_key ix q d' Hs Hf Hnn) in Hd'.
  assert (existsb (matches q) c = true) by (apply existsb_exists; eauto).
  congruence.
Qed.

Lemma findOne_app_fresh q c d :
  existsb (matches q) c = false -> matches q d = true ->
  findOne q (c ++ [d]) = Some d.
Proof.
  unfold findOne. induction c as [|a c IH]; cbn [existsb app List.find]; intros H Hd.
  - now rewrite Hd.
  - apply orb_false_iff in H as [-> H]. now apply IH.
Qed.

Lemma findOne_app_other q c d :
  matches q d = false -> findOne q (c ++ [d]) = findOne q c.
Proof.
  unfold findOne. intros Hd.
  induction c as [|a c IH]; cbn [app List.find]; [now rewrite Hd|].
  destruct (matches q a); [reflexivity | exact IH].
Qed.

(** An update under [q] is not seen by a query [q'] that shares no
    document with [q], before or after the update. *)
Lemma findOne_updateOne_other q q' u c :
  (forall d, matches q d = true ->
     matches q' d = false /\ matches q' (set_fields u d) = false) ->
  findOne q' (updateOne q u c) = findOne q' c.
Proof.
  intros H. unfold findOne.
  induction c as [|a c IH]; [reflexivity|]. cbn [updateOne].
  destruct (matches q a) eqn:Ea; cbn [List.find].
  - destruct (H a Ea) as [-> ->]. reflexivity.
  - destruct (matches q' a); [reflexivity | exact IH].
Qed.

(** After an update under [q] that keeps the match, [q] finds the
    updated document. *)
Lemma findOne_updateOne_same q u c d :
  findOne q c = Some d -> matches q (set_fields u d) = true ->
  findOne q (updateOne q u c) = Some (set_fields u d).
Proof.
  intros Hf Hm. destruct (findOne_split _ _ _ Hf) as (c1 & c2 & -> & H1 & H2).
  rewrite updateOne_split by assumption.
  unfold findOne. clear Hf. induction c1 as [|a c1 IH]; cbn [app List.find].
  - now rewrite Hm.
  - cbn [forallb] in H1. apply andb_true_iff in H1 as [Ha H1].
    apply negb_true_iff in Ha. rewrite Ha. now apply IH.
Qed.

Lemma existsb_findOne_None q c :
  existsb (matches q) c = false <-> findOne q c = None.
Proof.
  unfold findOne. induction c as [|a c IH]; cbn [existsb List.find]; [tauto|].
  destruct (matches q a); cbn [orb]; [split; discriminate | exact IH].
Qed.

(** The configuration upsert: it cannot fail, and it leaves the patched
    document where the guild's document was, or at the end. *)
Lemma config_upsert g u c :
  ~ In "guildId" (List.map fst u) ->
  let q := [("guildId", VStr g)] in
  let d0 := default (<["guildId" := VStr g]> ∅) (findOne q c) in
  exists c',
    upsertOne config_indexes q [] u c = Some c' /\
    findOne q c' = Some (set_fields u d0) /\
    forall g', g' <> g ->
      findOne [("guildId", VStr g')] c' = findOne [("guildId", VStr g')] c.
Proof.
  intros Hu q d0.
  assert (Hkeep : forall d, matches q (set_fields u d) = matches q d).
  { intros d. apply matches_set_fields. intros k [<-|[]]. exact Hu. }
  assert (Hother : forall g' d, g' <> g -> matches q d = true ->
            matches [("guildId", VStr g')] d = false).
  { intros g' d Hne Hm. unfold q, matches in *. cbn [forallb fst snd] in *.
    rewrite andb_true_r in *. apply bool_decide_eq_true in Hm.
    apply bool_decide_eq_false. rewrite Hm. congruence. }
  unfold upsertOne. destruct (existsb (matches q) c) eqn:Ex.
  - destruct (findOne q c) as [d|] eqn:Ef.
    2:{ apply existsb_findOne_None in Ef. congruence. }
    eexists. split; [reflexivity|]. split.
    + apply findOne_updateOne_same; [exact Ef|].
      rewrite Hkeep. now destruct (findOne_Some _ _ _ Ef).
    + intros g' Hne. apply findOne_updateOne_other. intros x Hd. split.
      * now apply Hother.
      * apply Hother; [assumption|]. now rewrite Hkeep.
  - assert (Ef : findOne q c = None) by now apply existsb_findOne_None.
    subst d0. rewrite Ef. cbn [default from_option].
    assert (Hnew : matches q (set_fields u (set_fields [] (set_fields q ∅))) = true).
    { rewrite Hkeep. unfold q, matches, set_fields. cbn [forallb fold_left fst snd].
      rewrite lookup_insert_eq. now rewrite bool_decide_eq_true_2. }
    unfold insertOne, config_indexes. cbn [existsb].
    rewrite (fresh_key_no_duplicate
               {| index_fields := ["guildId"]; index_sparse := false |}
               q _ c eq_refl eq_refl); try assumption.
    2:{ repeat constructor. discriminate. }
    cbn [orb]. eexists. split; [reflexivity|]. split.
    + now apply findOne_app_fresh.
    + intros g' Hne. apply findOne_app_other. now apply Hother.
Qed.

End UpsertFacts.

Import UpsertFacts.

(** X7. writing the configuration of a guild never fails, and reading it
    back gives the guild's document with the patch and the time of the
    write laid over it; the documents of other guilds read as before, and
    nothing but the configuration collection changes. *)
Theorem config_round_trip (now : Z) (g : string) (patch : fields) (st : state) :
  ~ In "guildId" (List.map fst patch) ->
  exists st' d,
    Shop.upsertConfig now g patch st = (Ok tt, st') /\
    Shop.getConfig g st' = (Ok (Some d), st') /\
    d = set_fields (patch ++ [("updatedAt", VDate now)])
          (default (<["guildId" := VStr g]> ∅)
             (findOne [("guildId", VStr g)] (shop_config st))) /\
    d !! "guildId" = Some (VStr g) /\
    (forall k v, NoDup (List.map fst patch) -> In (k, v) patch ->
       k <> "updatedAt" -> d !! k = Some v) /\
    (forall g', g' <> g -> (Shop.getConfig g' st').1 = (Shop.getConfig g' st).1) /\
    st' = set_shop_config (shop_config st') st.
Proof.
  intros Hp.
  assert (Hu : ~ In "guildId" (List.map fst (patch ++ [("updatedAt", VDate now)])%list)).
  { rewrite List.map_app, in_app_iff. intros [H|[H|[]]]; [auto | discriminate]. }
  destruct (config_upsert g _ (shop_config st) Hu) as (c' & Hup & Hfind & Hoth).
  exists (set_shop_config c' st). eexists.
  unfold Shop.upsertConfig, Shop.getConfig.
  rewrite bind_run, get_run, Hup. cbn [store].
  split; [reflexivity|]. rewrite bind_run, get_run. cbn [shop_config set_shop_config].
  rewrite Hfind. split; [reflexivity|]. split; [reflexivity|].
  assert (Hd0 : default (<["guildId" := VStr g]> ∅)
                  (findOne [("guildId", VStr g)] (shop_config st)) !! "guildId"
                = Some (VStr g)).
  { destruct (findOne [("guildId", VStr g)] (shop_config st)) as [d1|] eqn:Ef;
      cbn [default from_option].
    - destruct (findOne_Some _ _ _ Ef) as [_ Hm].
      exact (matches_lookup _ _ _ _ Hm (or_introl eq_refl)).
    - apply lookup_insert_eq. }
  split; [|split; [|split]].
  - rewrite set_fields_lookup_other; assumption.
  - intros k v Hnd Hin Hk. rewrite set_fields_app.
    rewrite set_fields_lookup_other
      by (cbn [List.map fst]; intros [H|[]]; apply Hk; symmetry; exact H).
    now apply set_fields_lookup_in.
  - intros g' Hne. rewrite !bind_run, !get_run. cbn [fst shop_config mret M_ret].
    now rewrite Hoth.
  - reflexivity.
Qed.

Lemma config_round_trip_witness :
  exists st' d,
    Shop.upsertConfig 7 ALLOWED_GUILD_ID [("thanksChannelId", VStr "c1")]
      (Samples.store_of [] [] []) = (Ok tt, st') /\
    Shop.getConfig ALLOWED_GUILD_ID st' = (Ok (Some d), st') /\
    d !! "thanksChannelId" = Some (VStr "c1").
Proof.
  assert (Hp : ~ In "guildId" (List.map fst [("thanksChannelId", VStr "c1")])).
  { intros [H|[]]. discriminate H. }
  destruct (config_round_trip 7 ALLOWED_GUILD_ID [("thanksChannelId", VStr "c1")]
              (Samples.store_of [] [] []) Hp)
    as (st' & d & H1 & H2 & _ & _ & H5 & _).
  exists st', d. split; [exact H1|]. split; [exact H2|].
  apply H5; [apply NoDup_singleton | now left | discriminate].
Defined.

(** X8. in the entitlement revision, as long as the configuration is
    written through [upsertConfig] only, the cached [getConfig] answers
    what the collection holds: a cache in step with the collection stays
    so under both functions, [getConfig] returns the stored document, and
    [upsertConfig] drops the entry of the guild it writes. *)
Theorem cached_config_is_current (now : Z) (g : string) (patch : fields)
    (st : state) :
  cache_current st ->
  (exists st',
     Ent.getConfig now g st =
       (Ok (findOne [("guildId", VStr g)] (shop_config st)), st') /\
     shop_config st' = shop_config st /\ cache_current st') /\
  (~ In "guildId" (List.map fst patch) ->
   exists st',
     Ent.upsertConfig now g patch st = (Ok tt, st') /\
     configCache st' !! g = None /\ cache_current st' /\
     (Ent.getConfig now g st').1 =
       Ok (Some (set_fields (patch ++ [("updatedAt", VDate now)])
                   (default (<["guildId" := VStr g]> ∅)
                      (findOne [("guildId", VStr g)] (shop_config st)))))).
Proof.
  intros Hc. split.
  - unfold Ent.getConfig. rewrite bind_run, get_run.
    assert (Hreload :
      exists st',
        (modify (set_configCache
                   (<[g := (findOne [("guildId", VStr g)] (shop_config st),
                            (now + CONFIG_CACHE_TTL_MS)%Z)]> (configCache st)));;
         mret (findOne [("guildId", VStr g)] (shop_config st))) st =
        (Ok (findOne [("guildId", VStr g)] (shop_config st)), st') /\
        shop_config st' = shop_config st /\ cache_current st').
    { eexists. rewrite bind_run, modify_run. split; [reflexivity|].
      split; [reflexivity|]. intros g' d t. cbn [configCache set_configCache shop_config].
      destruct (decide (g = g')) as [<-|Hne].
      - rewrite lookup_insert_eq. now intros [= <- _].
      - rewrite lookup_insert_ne by assumption. apply Hc. }
    destruct (configCache st !! g) as [[d t]|] eqn:Eg; [|exact Hreload].
    cbn [fst snd]. destruct (now <? t)%Z; [|exact Hreload].
    exists st. rewrite (Hc _ _ _ Eg). auto.
  - intros Hp.
    assert (Hu : ~ In "guildId"
                   (List.map fst (patch ++ [("updatedAt", VDate now)])%list)).
    { rewrite List.map_app, in_app_iff. intros [H|[H|[]]]; [auto | discriminate]. }
    destruct (config_upsert g _ (shop_config st) Hu) as (c' & Hup & Hfind & Hoth).
    eexists. unfold Ent.upsertConfig.
    rewrite bind_run, get_run, bind_run, Hup. cbn [store]. rewrite modify_run, modify_run.
    split; [reflexivity|].
    cbn [configCache set_configCache set_shop_config shop_config].
    split; [apply lookup_delete_eq|]. split.
    + intros g' d t. cbn [configCache set_configCache set_shop_config shop_config].
      destruct (decide (g = g')) as [<-|Hne].
      * now rewrite lookup_delete_eq.
      * rewrite lookup_delete_ne by assumption. intros H.
        rewrite Hoth by congruence. exact (Hc _ _ _ H).
    + unfold Ent.getConfig. rewrite bind_run, get_run.
      cbn [configCache set_configCache set_shop_config shop_config].
      rewrite lookup_delete_eq, bind_run, modify_run.
      cbn [fst mret M_ret shop_config set_configCache set_shop_config].
      now rewrite Hfind.
Qed.

Lemma cached_config_is_current_witness :
  exists st',
    Ent.upsertConfig 7 ALLOWED_GUILD_ID [("supportRoleId", VStr "r1")]
      (Samples.store_of [] [] []) = (Ok tt, st') /\
    configCache st' !! ALLOWED_GUILD_ID = None.
Proof.
  assert (Hc : cache_current (Samples.store_of [] [] [])).
  { intros g d t H. cbn in H. now rewrite lookup_empty in H. }
  assert (Hp : ~ In "guildId" (List.map fst [("supportRoleId", VStr "r1")])).
  { intros [H|[]]. discriminate H. }
  destruct (proj2 (cached_config_is_current 7 ALLOWED_GUILD_ID
                     [("supportRoleId", VStr "r1")] _ Hc) Hp)
    as (st' & H1 & H2 & _).
  exists st'. split; [exact H1 | exact H2].
Defined.

(** X9. when [ensurePurchaseLogChannel] returns a channel, that channel is
    the one on record for the guild, at most one channel was created on
    the way, and a later call that can still fetch the channel returns it
    again without creating or writing anything. *)
Theorem log_channel_settles (E : env) (now : Z) (g ch : string)
    (st st' : state) :
  Shop.ensurePurchaseLogChannel E now g st = (Ok ch, st') ->
  findOne [("guildId", VStr g)] (shop_config st')
    ≫= str_field "purchaseLogChannelId" = Some ch /\
  (effects st' = effects st \/
   effects st' = (effects st ++ [ChannelCreate g "purchase-log"])%list) /\
  (forall E' now',
     ch <> "" -> channels_fetch E' g ch = Some true ->
     Shop.ensurePurchaseLogChannel E' now' g st' = (Ok ch, st')).
Proof.
  intros Hrun.
  assert (Hagain : forall E' now',
    findOne [("guildId", VStr g)] (shop_config st')
      ≫= str_field "purchaseLogChannelId" = Some ch ->
    ch <> "" -> channels_fetch E' g ch = Some true ->
    Shop.ensurePurchaseLogChannel E' now' g st' = (Ok ch, st')).
  { intros E' now' Hf Hne Hfetch. unfold Shop.ensurePurchaseLogChannel, Shop.getConfig.
    rewrite bind_run, bind_run, get_run. cbn [mret M_ret].
    rewrite Hf, (truthy_Some' _ Hne). cbn [mbind option_bind].
    now rewrite Hfetch. }
  assert (Hwrite : forall s,
    exists s',
      Shop.upsertConfig now g [("purchaseLogChannelId", VStr ch)] s = (Ok tt, s') /\
      effects s' = effects s /\
      findOne [("guildId", VStr g)] (shop_config s')
        ≫= str_field "purchaseLogChannelId" = Some ch).
  { intros s.
    assert (Hp : ~ In "guildId" (List.map fst
              ([("purchaseLogChannelId", VStr ch)] ++ [("updatedAt", VDate now)])%list)).
    { cbn. intros [H|[H|[]]]; discriminate. }
    destruct (config_upsert g _ (shop_config s) Hp) as (c' & Hup & Hfind & _).
    eexists. unfold Shop.upsertConfig. rewrite bind_run, get_run.
    cbn [app] in Hup. cbn [app]. rewrite Hup. cbn [store]. rewrite modify_run.
    split; [reflexivity|]. split; [reflexivity|].
    cbn [shop_config set_shop_config]. cbn [app] in Hfind. rewrite Hfind.
    cbn [mbind option_bind]. unfold str_field, set_fields.
    cbn [fold_left fst snd].
    rewrite lookup_insert_ne by discriminate. now rewrite lookup_insert_eq. }
  unfold Shop.ensurePurchaseLogChannel, Shop.getConfig in Hrun.
  rewrite bind_run, bind_run, get_run in Hrun. cbn [mret M_ret] in Hrun.
  destruct (or_null (findOne [("guildId", VStr g)] (shop_config st)
                       ≫= str_field "purchaseLogChannelId")) as [id|] eqn:Eid.
  - cbn [mbind option_bind] in Hrun.
    destruct (channels_fetch E g id) as [[|]|] eqn:Ef.
    + injection Hrun as <- <-.
      assert (Hf : findOne [("guildId", VStr g)] (shop_config st)
                     ≫= str_field "purchaseLogChannelId" = Some id).
      { unfold or_null in Eid. now destruct (truthy _). }
      split; [exact Hf|]. split; [now left|]. intros E' now'. now apply Hagain.
    + destruct (channels_cache_find E g "purchase-log") as [existing|].
      * rewrite bind_run in Hrun.
        destruct (Hwrite st) as (s' & Hw & He & Hf).
        destruct (decide (existing = ch)) as [->|Hne].
        -- rewrite Hw in Hrun. injection Hrun as <-.
           split; [exact Hf|]. split; [now left|]. intros E' now'. now apply Hagain.
        -- exfalso. unfold Shop.upsertConfig in Hrun.
           rewrite bind_run, get_run in Hrun.
           destruct (upsertOne _ _ _ _ _); cbn [store] in Hrun;
             [rewrite modify_run in Hrun | unfold throw in Hrun];
             injection Hrun as H1 H2; congruence.
      * rewrite bind_run, call_run in Hrun.
        destruct (channels_create E g "purchase-log") as [created|e];
          [|discriminate].
        rewrite bind_run in Hrun.
        destruct (Hwrite (set_effects (effects st ++ [ChannelCreate g "purchase-log"])%list st))
          as (s' & Hw & He & Hf).
        destruct (decide (created = ch)) as [->|Hne].
        -- rewrite Hw in Hrun. injection Hrun as <-.
           split; [exact Hf|]. split; [right; exact He|].
           intros E' now'. now apply Hagain.
        -- exfalso. unfold Shop.upsertConfig in Hrun.
           rewrite bind_run, get_run in Hrun.
           destruct (upsertOne _ _ _ _ _); cbn [store] in Hrun;
             [rewrite modify_run in Hrun | unfold throw in Hrun];
             injection Hrun as H1 H2; congruence.
    + destruct (channels_cache_find E g "purchase-log") as [existing|].
      * rewrite bind_run in Hrun.
        destruct (Hwrite st) as (s' & Hw & He & Hf).
        destruct (decide (existing = ch)) as [->|Hne].
        -- rewrite Hw in Hrun. injection Hrun as <-.
           split; [exact Hf|]. split; [now left|]. intros E' now'. now apply Hagain.
        -- exfalso. unfold Shop.upsertConfig in Hrun.
           rewrite bind_run, get_run in Hrun.
           destruct (upsertOne _ _ _ _ _); cbn [store] in Hrun;
             [rewrite modify_run in Hrun | unfold throw in Hrun];
             injection Hrun as H1 H2; congruence.
      * rewrite bind_run, call_run in Hrun.
        destruct (channels_create E g "purchase-log") as [created|e];
          [|discriminate].
        rewrite bind_run in Hrun.
        destruct (Hwrite (set_effects (effects st ++ [ChannelCreate g "purchase-log"])%list st))
          as (s' & Hw & He & Hf).
        destruct (decide (created = ch)) as [->|Hne].
        -- rewrite Hw in Hrun. injection Hrun as <-.
           split; [exact Hf|]. split; [right; exact He|].
           intros E' now'. now apply Hagain.
        -- exfalso. unfold Shop.upsertConfig in Hrun.
           rewrite bind_run, get_run in Hrun.
           destruct (upsertOne _ _ _ _ _); cbn [store] in Hrun;
             [rewrite modify_run in Hrun | unfold throw in Hrun];
             injection Hrun as H1 H2; congruence.
  - cbn [mbind option_bind] in Hrun.
    destruct (channels_cache_find E g "purchase-log") as [existing|].
    + rewrite bind_run in Hrun.
      destruct (Hwrite st) as (s' & Hw & He & Hf).
      destruct (decide (existing = ch)) as [->|Hne].
      * rewrite Hw in Hrun. injection Hrun as <-.
        split; [exact Hf|]. split; [now left|]. intros E' now'. now apply Hagain.
      * exfalso. unfold Shop.upsertConfig in Hrun.
        rewrite bind_run, get_run in Hrun.
        destruct (upsertOne _ _ _ _ _); cbn [store] in Hrun;
          [rewrite modify_run in Hrun | unfold throw in Hrun];
          injection Hrun as H1 H2; congruence.
    + rewrite bind_run, call_run in Hrun.
      destruct (channels_create E g "purchase-log") as [created|e];
        [|discriminate].
      rewrite bind_run in Hrun.
      destruct (Hwrite (set_effects (effects st ++ [ChannelCreate g "purchase-log"])%list st))
        as (s' & Hw & He & Hf).
      destruct (decide (created = ch)) as [->|Hne].
      * rewrite Hw in Hrun. injection Hrun as <-.
        split; [exact Hf|]. split; [right; exact He|].
        intros E' now'. now apply Hagain.
      * exfalso. unfold Shop.upsertConfig in Hrun.
        rewrite bind_run, get_run in Hrun.
        destruct (upsertOne _ _ _ _ _); cbn [store] in Hrun;
          [rewrite modify_run in Hrun | unfold throw in Hrun];
          injection Hrun as H1 H2; congruence.
Qed.

Lemma log_channel_settles_witness :
  let E := Samples.world (Throw Samples.no_such) (Throw Samples.no_such)
             (Throw Samples.no_such) in
  let st := Samples.store_of [] [] [] in
  let st' := (Shop.ensurePurchaseLogChannel E 5 ALLOWED_GUILD_ID st).2 in
  Shop.ensurePurchaseLogChannel E 6 ALLOWED_GUILD_ID st' = (Ok "log-channel", st').
Proof.
  intros E st st'.
  pose (r := Shop.ensurePurchaseLogChannel E 5 ALLOWED_GUILD_ID st).
  assert (H1 : r.1 = Ok "log-channel") by (vm_compute; reflexivity).
  assert (Hrun : Shop.ensurePurchaseLogChannel E 5 ALLOWED_GUILD_ID st
                 = (Ok "log-channel", st')).
  { subst st'. fold r. destruct r as [x s]. cbn [fst snd] in *. now rewrite H1. }
  destruct (log_channel_settles E 5 ALLOWED_GUILD_ID "log-channel" st st' Hrun)
    as (_ & _ & H).
  apply H; [discriminate | reflexivity].
Defined.

Module WebhookFacts.
Import Mongo Service MongoFacts ServiceFacts.
Local Open Scope string_scope.

(** A handler body that answers [{ received: true }] whenever it returns. *)
Definition acknowledges (m : M response) : Prop :=
  forall s, (m s).1 = Ok received \/ exists e, (m s).1 = Throw e.

Lemma acknowledges_ret : acknowledges (mret received).
Proof. intros s. now left. Qed.

Lemma acknowledges_bind {A} (m : M A) (f : A -> M response) :
  (forall a, acknowledges (f a)) -> acknowledges (m ≫= f).
Proof.
  intros H s. rewrite bind_run. destruct (m s) as [[a|e] s']; [apply H|].
  right. now exists e.
Qed.

Ltac acknowledges_step :=
  lazymatch goal with
  | |- acknowledges (mret received) => apply acknowledges_ret
  | |- acknowledges (mbind _ _) => apply acknowledges_bind; intros ?
  | |- acknowledges (match ?x with _ => _ end) => destruct x
  end.

Lemma acknowledges_Shop E now :
  forall ev,
    acknowledges
      (match ev with
       | CheckoutSessionCompleted session =>
           Shop.checkout_session_completed E now session
       | CustomerSubscriptionUpdated sub => Shop.customer_subscription_updated now sub
       | CustomerSubscriptionDeleted sub =>
           Shop.customer_subscription_deleted E now sub
       | OtherEvent _ => mret received
       end).
Proof.
  intros [ses|sub|sub|ty].
  - unfold Shop.checkout_session_completed. repeat acknowledges_step.
  - unfold Shop.customer_subscription_updated. repeat acknowledges_step.
  - unfold Shop.customer_subscription_deleted. repeat acknowledges_step.
  - apply acknowledges_ret.
Qed.

Lemma acknowledges_Ent E now ses :
  acknowledges (Ent.checkout_session_completed E now ses).
Proof. unfold Ent.checkout_session_completed. repeat acknowledges_step. Qed.

(** The relation "the log has grown by effects that satisfy [P]". *)
Definition logs (P : effect -> Prop) : relation state :=
  fun s s' => exists l, effects s' = (effects s ++ l)%list /\ Forall P l.

#[global] Instance logs_preorder P : PreOrder (logs P).
Proof.
  split.
  - intros s. exists []. now rewrite app_nil_r.
  - intros a b c (l1 & H1 & F1) (l2 & H2 & F2).
    exists (l1 ++ l2)%list. rewrite H2, H1, app_assoc. split; [reflexivity|].
    now apply Forall_app.
Qed.

Lemma logs_same P s s' : effects s' = effects s -> logs P s s'.
Proof. intros H. exists []. now rewrite app_nil_r. Qed.

Lemma logs_tolerates P : tolerates (logs P) P.
Proof.
  split; intros; try (now apply logs_same).
  exists [e]. split; [reflexivity|]. now constructor.
Qed.

(** The key of an index, read off a document that matches a query on
    the indexed fields; the index may be sparse. *)
Lemma index_key_of_match ix q d :
  List.map fst q = index_fields ix -> q <> [] ->
  matches q d = true -> index_key ix d = Some (List.map snd q).
Proof.
  intros Hf Hne Hm. unfold index_key. rewrite <- Hf.
  assert (Hall : forallb (fun k => bool_decide (d !! k = None)) (List.map fst q) = false).
  { destruct q as [|[k v] q]; [congruence|]. cbn [List.map fst forallb].
    unfold matches in Hm. cbn [forallb fst snd] in Hm.
    apply andb_true_iff in Hm as [Hk _]. apply bool_decide_eq_true in Hk.
    rewrite bool_decide_eq_false_2; [reflexivity | congruence]. }
  rewrite Hall, andb_false_r. f_equal. clear Hf Hne Hall.
  induction q as [|[k v] q IH]; [reflexivity|].
  cbn [List.map fst snd]. unfold matches in Hm. cbn [forallb fst snd] in Hm.
  apply andb_true_iff in Hm as [Hk Hm]. apply bool_decide_eq_true in Hk.
  rewrite Hk. cbn [default from_option]. f_equal. now apply IH.
Qed.

Lemma match_of_index_key ix q d :
  List.map fst q = index_fields ix ->
  Forall (fun kv => kv.2 <> VNull) q ->
  index_key ix d = Some (List.map snd q) -> matches q d = true.
Proof.
  intros Hf Hnn. unfold index_key. rewrite <- Hf.
  destruct (index_sparse ix && _); [discriminate|].
  intros [= H]. clear Hf. unfold matches.
  induction Hnn as [|[k v] q Hv _ IH]; [reflexivity|].
  cbn [List.map fst snd forallb] in *. injection H as Hk H.
  rewrite IH by assumption. rewrite andb_true_r.
  apply bool_decide_eq_true. destruct (d !! k) as [x|]; cbn in Hk; congruence.
Qed.

Lemma fresh_key_no_duplicate' ix q d c :
  List.map fst q = index_fields ix -> q <> [] ->
  Forall (fun kv => kv.2 <> VNull) q ->
  matches q d = true -> existsb (matches q) c = false ->
  duplicate_key ix d c = false.
Proof.
  intros Hf Hne Hnn Hm Hex. unfold duplicate_key.
  rewrite (index_key_of_match ix q d Hf Hne Hm).
  apply not_true_iff_false. intros H. apply existsb_exists in H as (d' & Hin & Hd').
  apply bool_decide_eq_true in Hd'.
  apply (match_of_index_key ix q d' Hf Hnn) in Hd'.
  assert (existsb (matches q) c = true) by (apply existsb_exists; eauto).
  congruence.
Qed.

End WebhookFacts.

Import WebhookFacts.

(** X10. the webhook never lets an exception out. A request whose
    signature fails is answered 400; a verified event is answered
    [{ received: true }] or, when its handling threw, 500; and an event
    of a type the revision does not handle is acknowledged with nothing
    written and nothing called: any type but the three handled ones in
    [src/index.js], and the subscription events too in the entitlement
    revision. *)
Theorem webhook_always_answers (E : env) (now : Z) (req : request)
    (st : state) :
  let failed := {| status := 500; content := Text "Webhook handler failed" |} in
  (exists r st',
     Shop.webhook E now req st = (Ok r, st') /\
     match constructEvent E req with
     | Throw err =>
         r = {| status := 400;
                content := Text ("Webhook Error: " ++ emessage err) |}
     | Ok (OtherEvent _) => r = received /\ st' = st
     | Ok _ => r = received \/ r = failed
     end) /\
  (exists r st',
     Ent.webhook E now req st = (Ok r, st') /\
     match constructEvent E req with
     | Throw err =>
         r = {| status := 400;
                content := Text ("Webhook Error: " ++ emessage err) |}
     | Ok (CheckoutSessionCompleted _) => r = received \/ r = failed
     | Ok _ => r = received /\ st' = st
     end).
Proof.
  intros failed. split.
  - unfold Shop.webhook. destruct (constructEvent E req) as [ev|err].
    2:{ eexists _, _. split; reflexivity. }
    rewrite try_catch_run. pose proof (acknowledges_Shop E now ev st) as H.
    destruct ev as [ses|sub|sub|ty].
    4:{ eexists _, _. split; [reflexivity|]. now split. }
    all: lazymatch goal with
         | |- context [match ?m ?s with _ => _ end] =>
             destruct (m s) as [[r|e] s1]; cbn [fst] in H;
             [ destruct H as [[= ->]|[e H]]; [|discriminate];
               eexists _, _; split; [reflexivity | now left]
             | eexists _, _; split; [reflexivity | now right] ]
         end.
  - unfold Ent.webhook. destruct (constructEvent E req) as [ev|err].
    2:{ eexists _, _. split; reflexivity. }
    rewrite try_catch_run.
    destruct ev as [ses|sub|sub|ty];
      try (eexists _, _; split; [reflexivity | now split]).
    pose proof (acknowledges_Ent E now ses st) as H.
    destruct (Ent.checkout_session_completed E now ses st) as [[r|e] s1];
      cbn [fst] in H.
    + destruct H as [[= ->]|[e H]]; [|discriminate].
      eexists _, _. split; [reflexivity | now left].
    + eexists _, _. split; [reflexivity | now right].
Qed.

(** X11. a completed checkout session that does not get past the
    correlation checks (a purchase id, guild id, user id or type missing
    or empty in its metadata, or a guild other than the allowed one) is
    acknowledged by both revisions with nothing written and nothing
    called. *)
Theorem webhook_ignores_foreign_sessions (E : env) (now : Z) (req : request)
    (st : state) (ses : session) :
  constructEvent E req = Ok (CheckoutSessionCompleted ses) ->
  (forall purchaseId type, ~ passes_gate ses purchaseId type) ->
  Shop.webhook E now req st = (Ok received, st) /\
  Ent.webhook E now req st = (Ok received, st).
Proof.
  intros Hev Hno.
  assert (Hgate :
    match default ∅ (session_metadata ses) !! "purchase_id",
          default ∅ (session_metadata ses) !! "guild_id",
          default ∅ (session_metadata ses) !! "user_id",
          default ∅ (session_metadata ses) !! "type" with
    | Some purchaseId, Some guildId, Some userId, Some type =>
        negb (truthy (Some purchaseId) && truthy (Some guildId)
              && truthy (Some userId) && truthy (Some type)) = true \/
        negb (String.eqb guildId ALLOWED_GUILD_ID) = true
    | _, _, _, _ => True
    end).
  { destruct (_ !! "purchase_id") as [p|] eqn:Ep; [|exact I].
    destruct (_ !! "guild_id") as [g|] eqn:Eg; [|exact I].
    destruct (_ !! "user_id") as [u|] eqn:Eu; [|exact I].
    destruct (_ !! "type") as [t|] eqn:Et; [|exact I].
    destruct (negb (truthy (Some p) && _ && _ && _)) eqn:Etr; [now left|].
    right. apply negb_true_iff. apply not_true_iff_false. intros Hg.
    apply String.eqb_eq in Hg. subst g.
    apply negb_false_iff in Etr.
    apply andb_true_iff in Etr as [Etr Ht].
    apply andb_true_iff in Etr as [Etr Hu].
    apply andb_true_iff in Etr as [Hp _].
    apply (Hno p t). exists u. cbn zeta.
    repeat split; try assumption; intros ->; discriminate. }
  split.
  - unfold Shop.webhook. rewrite Hev, try_catch_run.
    unfold Shop.checkout_session_completed.
    destruct (_ !! "purchase_id") as [p|]; [|reflexivity].
    destruct (_ !! "guild_id") as [g|]; [|reflexivity].
    destruct (_ !! "user_id") as [u|]; [|reflexivity].
    destruct (_ !! "type") as [t|]; [|reflexivity].
    destruct Hgate as [-> | H]; [reflexivity|].
    destruct (negb (truthy _ && _ && _ && _)); [reflexivity|].
    now rewrite H.
  - unfold Ent.webhook. rewrite Hev, try_catch_run.
    unfold Ent.checkout_session_completed.
    destruct (_ !! "purchase_id") as [p|]; [|reflexivity].
    destruct (_ !! "guild_id") as [g|]; [|reflexivity].
    destruct (_ !! "user_id") as [u|]; [|reflexivity].
    destruct (_ !! "type") as [t|]; [|reflexivity].
    destruct Hgate as [-> | H]; [reflexivity|].
    destruct (negb (truthy _ && _ && _ && _)); [reflexivity|].
    now rewrite H.
Qed.

Lemma webhook_ignores_foreign_sessions_witness :
  let ses := Samples.session_of
               [("purchase_id", "VT-1"); ("guild_id", "999");
                ("user_id", "42"); ("type", "product"); ("role_id", "role-9")]
               None in
  let E := Samples.world (Ok (CheckoutSessionCompleted ses))
             (Throw Samples.no_such) (Throw Samples.no_such) in
  let st := Samples.store_of [Samples.purchase_created] [] [] in
  Shop.webhook E 1 Samples.a_request st = (Ok received, st) /\
  Ent.webhook E 1 Samples.a_request st = (Ok received, st).
Proof.
  intros ses E st.
  apply (webhook_ignores_foreign_sessions E 1 Samples.a_request st ses eq_refl).
  intros pid ty (u & _ & Hg & _). vm_compute in Hg. discriminate Hg.
Defined.

(** X12. a customer.subscription.updated event is always acknowledged; it
    copies the status, the cancel-at-period-end flag and the period end of
    the subscription onto every [paid] purchase that carries the
    subscription reference and stamps the time, and it leaves every other
    purchase, every other collection and the outside world alone. *)
Theorem subscription_updated_syncs (E : env) (now : Z) (req : request)
    (st : state) (sub : subscription) :
  constructEvent E req = Ok (CustomerSubscriptionUpdated sub) ->
  exists st',
    Shop.webhook E now req st = (Ok received, st') /\
    st' = set_purchases (purchases st') st /\
    length (purchases st') = length (purchases st) /\
    forall i d, purchases st !! i = Some d ->
      purchases st' !! i =
        Some (if bool_decide (d !! "stripeSubscriptionId" = Some (VStr (sub_id sub))
                              /\ d !! "status" = Some (VStr "paid"))
              then <["subscriptionUpdatedAt" := VDate now]>
                     (<["currentPeriodEnd" := Shop.period_end sub]>
                        (<["cancelAtPeriodEnd" := VBool (sub_cancel_at_period_end sub)]>
                           (<["subscriptionStatus" := VStr (sub_status sub)]> d)))
              else d).
Proof.
  intros Hev. eexists. unfold Shop.webhook. rewrite Hev, try_catch_run.
  unfold Shop.customer_subscription_updated. rewrite bind_run, modify_run.
  cbn [mret M_ret]. split; [reflexivity|].
  cbn [purchases set_purchases]. split; [now destruct st|].
  split; [unfold updateMany; apply length_map|].
  intros i d Hd. rewrite updateMany_lookup, Hd. cbn [fmap option_fmap option_map].
  f_equal. unfold Shop.by_subscription, matches. cbn [forallb fst snd].
  rewrite andb_true_r.
  destruct (bool_decide_reflect (d !! "stripeSubscriptionId" = Some (VStr (sub_id sub))));
    destruct (bool_decide_reflect (d !! "status" = Some (VStr "paid")));
    cbn [andb];
    first [ rewrite bool_decide_eq_true_2 by tauto; reflexivity
          | rewrite bool_decide_eq_false_2 by tauto; reflexivity ].
Qed.

Lemma subscription_updated_syncs_witness :
  let sub := {| sub_id := "sub_1"; sub_status := "past_due";
                sub_cancel_at_period_end := true;
                sub_current_period_end := Some 1700000000%Z;
                sub_latest_invoice_payment_intent := None |} in
  let E := Samples.world (Ok (CustomerSubscriptionUpdated sub))
             (Throw Samples.no_such) (Throw Samples.no_such) in
  let st := Samples.store_of [Samples.purchase_paid; Samples.purchase_refunded] [] [] in
  exists st',
    Shop.webhook E 9 Samples.a_request st = (Ok received, st') /\
    purchases st' !! 1%nat = Some Samples.purchase_refunded.
Proof.
  intros sub E st.
  destruct (subscription_updated_syncs E 9 Samples.a_request st sub eq_refl)
    as (st' & H1 & _ & _ & H4).
  exists st'. split; [exact H1|].
  exact (H4 1%nat Samples.purchase_refunded eq_refl).
Defined.

(** X13. whatever a completed checkout session holds, the webhook of either
    revision grants no role but the one its metadata name, to the user
    they name, in the allowed guild and for a product; and it removes no
    role, refunds nothing and cancels nothing. *)
Theorem webhook_grants_named_role_only (E : env) (now : Z) (req : request)
    (st : state) (ses : session) :
  constructEvent E req = Ok (CheckoutSessionCompleted ses) ->
  (exists l, effects (Shop.webhook E now req st).2 = (effects st ++ l)%list /\
             Forall (paid_effect ses) l) /\
  (exists l, effects (Ent.webhook E now req st).2 = (effects st ++ l)%list /\
             Forall (paid_effect ses) l).
Proof.
  intros Hev.
  pose proof (logs_tolerates (paid_effect ses)) as T.
  assert (Hp : forall c s, logs (paid_effect ses) s (set_purchases c s))
    by (intros; now apply logs_same).
  assert (He : forall c s, logs (paid_effect ses) s (set_entitlements c s))
    by (intros; now apply logs_same).
  split.
  - change (logs (paid_effect ses) st (Shop.webhook E now req st).2).
    unfold Shop.webhook. rewrite Hev.
    lazymatch goal with
    | |- logs _ ?s (?m ?s).2 =>
        enough (H : respects (logs (paid_effect ses)) m) by apply H
    end.
    apply respects_try; [typeclasses eauto | | intros ?; apply respects_ret; typeclasses eauto].
    unfold Shop.checkout_session_completed.
    destruct (_ !! "purchase_id") as [p|] eqn:Ep; [|apply respects_ret; typeclasses eauto].
    destruct (_ !! "guild_id") as [g|] eqn:Eg; [|apply respects_ret; typeclasses eauto].
    destruct (_ !! "user_id") as [u|] eqn:Eu; [|apply respects_ret; typeclasses eauto].
    destruct (_ !! "type") as [t|] eqn:Et; [|apply respects_ret; typeclasses eauto].
    destruct (negb (truthy _ && _ && _ && _)); [apply respects_ret; typeclasses eauto|].
    destruct (String.eqb g ALLOWED_GUILD_ID) eqn:Eall;
      cbn [negb]; [|apply respects_ret; typeclasses eauto].
    apply String.eqb_eq in Eall. subst g.
    apply respects_bind; [typeclasses eauto | now apply (respects_side_data _ _ T) |].
    intros [[a b] c].
    apply respects_bind; [typeclasses eauto | apply respects_get; typeclasses eauto |].
    intros s0.
    apply respects_bind; [typeclasses eauto | |].
    { destruct (existsb _ _);
        [ apply respects_modify; intros ?; apply Hp
        | apply respects_store; [typeclasses eauto | exact Hp] ]. }
    intros _. destruct (negb (guilds_fetch E ALLOWED_GUILD_ID));
      [apply respects_ret; typeclasses eauto|].
    apply respects_bind; [typeclasses eauto | |].
    { destruct (or_null (_ !! "role_id")) as [role|] eqn:Er;
        [|apply respects_ret; typeclasses eauto].
      destruct (String.eqb t "product") eqn:Etp;
        [|apply respects_ret; typeclasses eauto].
      apply String.eqb_eq in Etp. subst t.
      apply (respects_grant_role _ _ T). intros why. cbn.
      repeat split; try assumption.
      unfold or_null in Er. destruct (truthy _); [exact Er | discriminate]. }
    intros _.
    apply respects_bind; [typeclasses eauto | |].
    { apply (respects_Shop_log _ _ T); intros; exact I. }
    intros _.
    apply respects_bind; [typeclasses eauto | |].
    { destruct (String.eqb t "product"); [|apply respects_ret; typeclasses eauto].
      apply (respects_Shop_thanks _ _ T). intros; exact I. }
    intros _. apply respects_ret; typeclasses eauto.
  - change (logs (paid_effect ses) st (Ent.webhook E now req st).2).
    unfold Ent.webhook. rewrite Hev.
    lazymatch goal with
    | |- logs _ ?s (?m ?s).2 =>
        enough (H : respects (logs (paid_effect ses)) m) by apply H
    end.
    apply respects_try; [typeclasses eauto | | intros ?; apply respects_ret; typeclasses eauto].
    unfold Ent.checkout_session_completed.
    destruct (_ !! "purchase_id") as [p|] eqn:Ep; [|apply respects_ret; typeclasses eauto].
    destruct (_ !! "guild_id") as [g|] eqn:Eg; [|apply respects_ret; typeclasses eauto].
    destruct (_ !! "user_id") as [u|] eqn:Eu; [|apply respects_ret; typeclasses eauto].
    destruct (_ !! "type") as [t|] eqn:Et; [|apply respects_ret; typeclasses eauto].
    destruct (negb (truthy _ && _ && _ && _)); [apply respects_ret; typeclasses eauto|].
    destruct (String.eqb g ALLOWED_GUILD_ID) eqn:Eall;
      cbn [negb]; [|apply respects_ret; typeclasses eauto].
    apply String.eqb_eq in Eall. subst g.
    apply respects_bind; [typeclasses eauto | now apply (respects_side_data _ _ T) |].
    intros [[a b] c].
    apply respects_bind; [typeclasses eauto | apply respects_get; typeclasses eauto |].
    intros s0.
    apply respects_bind; [typeclasses eauto | |].
    { apply respects_store; [typeclasses eauto | exact Hp]. }
    intros _. destruct (negb (guilds_fetch E ALLOWED_GUILD_ID));
      [apply respects_ret; typeclasses eauto|].
    apply respects_bind; [typeclasses eauto | |].
    { destruct (or_null (_ !! "role_id")) as [role|] eqn:Er;
        [|apply respects_ret; typeclasses eauto].
      destruct (String.eqb t "product") eqn:Etp;
        [|apply respects_ret; typeclasses eauto].
      apply String.eqb_eq in Etp. subst t.
      apply (respects_grant_role _ _ T). intros why. cbn.
      repeat split; try assumption.
      unfold or_null in Er. destruct (truthy _); [exact Er | discriminate]. }
    intros _.
    apply respects_bind; [typeclasses eauto | |].
    { destruct (or_null (_ !! "product_id")) as [prod|];
        [|apply respects_ret; typeclasses eauto].
      destruct (String.eqb t "product"); [|apply respects_ret; typeclasses eauto].
      apply respects_bind; [typeclasses eauto | apply respects_get; typeclasses eauto |].
      intros s1.
      apply respects_bind; [typeclasses eauto | |].
      { apply respects_store; [typeclasses eauto | exact He]. }
      intros _. apply respects_try; [typeclasses eauto | |].
      - apply (respects_upgrade_hint _ _ T). intros; exact I.
      - intros ?. apply respects_ret; typeclasses eauto. }
    intros _.
    apply respects_bind; [typeclasses eauto | |].
    { apply (respects_Ent_log _ _ T); intros; exact I. }
    intros _. apply respects_ret; typeclasses eauto.
Qed.

Lemma webhook_grants_named_role_only_witness :
  let ses := Samples.session_of
               [("purchase_id", "VT-1"); ("guild_id", ALLOWED_GUILD_ID);
                ("user_id", "42"); ("type", "product"); ("role_id", "role-9")]
               None in
  let E := Samples.world (Ok (CheckoutSessionCompleted ses))
             (Throw Samples.no_such) (Throw Samples.no_such) in
  let st := Samples.store_of [Samples.purchase_created] [] [] in
  exists l, effects (Shop.webhook E 1 Samples.a_request st).2 = (effects st ++ l)%list /\
            Forall (paid_effect ses) l.
Proof.
  intros ses E st.
  exact (proj1 (webhook_grants_named_role_only E 1 Samples.a_request st ses eq_refl)).
Defined.

(** X14. In the entitlement revision a paid session that no purchase on
    record answers to is not lost. When the event gets past the
    correlation checks, its subscription lookup, if there is one,
    succeeds, and no purchase carries its purchase id or its session id,
    the upsert of the webhook appends one purchase, [paid], built from the
    session metadata, and touches no other purchase. The amount on the
    new row is the one the checkout wrote into the metadata, for every
    amount below [2^53] minor units, and 0 when the metadata name none. *)
Theorem unknown_session_recorded (E : env) (now : Z) (req : request)
    (st : state) (ses : session) (pid ty : string) :
  constructEvent E req = Ok (CheckoutSessionCompleted ses) ->
  passes_gate ses pid ty -> lookup_ok E ses ->
  existsb (matches [("purchaseId", VStr pid)]) (purchases st) = false ->
  existsb (matches [("stripeSessionId", VStr (session_id ses))]) (purchases st)
    = false ->
  let meta := default ∅ (session_metadata ses) in
  exists row,
    purchases (Ent.webhook E now req st).2 = (purchases st ++ [row])%list /\
    row !! "purchaseId" = Some (VStr pid) /\
    row !! "stripeSessionId" = Some (VStr (session_id ses)) /\
    row !! "status" = Some (VStr "paid") /\
    row !! "paidAt" = Some (VDate now) /\
    row !! "type" = Some (VStr ty) /\
    row !! "guildId" = Some (VStr ALLOWED_GUILD_ID) /\
    (forall n, (n < 2 ^ 53)%N ->
       meta !! "amount_minor" =
         Some (string_of_list_ascii (List.map ascii_of_N (Number_toString n))) ->
       row !! "amountMinor" = Some (VNum n)) /\
    (meta !! "amount_minor" = None -> row !! "amountMinor" = Some (VNum 0)).
Proof.
  intros Hev (uid & Hp & Hg & Hu & Ht & Np & Nu & Nt) Hok Hnp Hns meta.
  unfold Ent.webhook. rewrite Hev, try_catch_const_state.
  unfold Ent.checkout_session_completed.
  cbn zeta in Hp, Hg, Hu, Ht. rewrite Hp, Hg, Hu, Ht.
  rewrite !truthy_Some by (assumption || discriminate).
  rewrite String.eqb_refl. cbn [negb andb].
  destruct (side_data_run E ses st Hok) as ([[a b] c] & l & Hrun).
  rewrite bind_run, Hrun, bind_run, get_run.
  cbn [purchases set_effects].
  assert (Hboth : existsb (matches [("purchaseId", VStr pid);
                                    ("stripeSessionId", VStr (session_id ses))])
                    (purchases st) = false).
  { apply not_true_iff_false. intros H. apply existsb_exists in H as (d & Hin & Hd).
    assert (existsb (matches [("purchaseId", VStr pid)]) (purchases st) = true).
    { apply existsb_exists. exists d. split; [assumption|].
      unfold matches in *. cbn [forallb fst snd] in *.
      apply andb_true_iff in Hd as [-> _]. reflexivity. }
    congruence. }
  unfold upsertOne. rewrite Hboth.
  lazymatch goal with
  | |- context [insertOne purchase_indexes ?d (purchases st)] => set (row := d)
  end.
  assert (Hrow : forall k v,
            set_fields
              [ ("purchaseId", VStr pid); ("guildId", VStr ALLOWED_GUILD_ID);
                ("userId", VStr uid); ("type", VStr ty);
                ("amountMinor",
                  VNum (amount_of_metadata (meta !! "amount_minor")));
                ("currency",
                  VStr (default CURRENCY (or_null (meta !! "currency"))));
                ("referenceCode", vstr (Ent.reference_code meta));
                ("stripeSessionId", VStr (session_id ses));
                ("createdAt", VDate now) ]
              (set_fields [("purchaseId", VStr pid);
                           ("stripeSessionId", VStr (session_id ses))] ∅) !! k
              = Some v ->
            ~ In k (List.map fst
                      (Shop.paid_fields now
                         (or_null (session_payment_intent ses))
                         (or_null (session_subscription ses)) a b c
                       ++ [ ("planKey", vstr (or_null (meta !! "plan_key")));
                            ("productId", vstr (or_null (meta !! "product_id"))) ])) ->
            row !! k = Some v).
  { intros k v Hk Hnot. subst row. rewrite set_fields_lookup_other; assumption. }
  assert (Hpid : row !! "purchaseId" = Some (VStr pid)).
  { apply Hrow; [read_field|]. cbn. intuition discriminate. }
  assert (Hsid : row !! "stripeSessionId" = Some (VStr (session_id ses))).
  { apply Hrow; [read_field|]. cbn. intuition discriminate. }
  assert (Hamt : row !! "amountMinor" =
                 Some (VNum (amount_of_metadata (meta !! "amount_minor")))).
  { apply Hrow; [read_field|]. cbn. intuition discriminate. }
  assert (Hins : insertOne purchase_indexes row (purchases st)
                 = Some (purchases st ++ [row])%list).
  { unfold insertOne, purchase_indexes. cbn [existsb].
    rewrite (fresh_key_no_duplicate'
               {| index_fields := ["purchaseId"]; index_sparse := false |}
               [("purchaseId", VStr pid)] row (purchases st) eq_refl);
      [| discriminate | repeat constructor; discriminate
       | unfold matches; cbn [forallb fst snd]; rewrite Hpid;
         now rewrite bool_decide_eq_true_2
       | assumption ].
    rewrite (fresh_key_no_duplicate'
               {| index_fields := ["stripeSessionId"]; index_sparse := true |}
               [("stripeSessionId", VStr (session_id ses))] row (purchases st) eq_refl);
      [| discriminate | repeat constructor; discriminate
       | unfold matches; cbn [forallb fst snd]; rewrite Hsid;
         now rewrite bool_decide_eq_true_2
       | assumption ].
    reflexivity. }
  rewrite Hins. cbn [store]. rewrite bind_run, modify_run.
  exists row.
  lazymatch goal with
  | |- purchases (?m ?s).2 = _ /\ _ =>
      assert (Hk : respects keeps_purchases m) by keeps_purchases_tail;
      rewrite (Hk s)
  end.
  split; [reflexivity|]. split; [exact Hpid|]. split; [exact Hsid|].
  split; [subst row; cbn [app]; read_field|].
  split; [subst row; cbn [app]; read_field|].
  split; [apply Hrow; [read_field|]; cbn; intuition discriminate|].
  split; [apply Hrow; [read_field|]; cbn; intuition discriminate|].
  split.
  - intros n Hn Hm. rewrite Hamt, Hm. now rewrite amount_text_reads_back.
  - intros Hm. rewrite Hamt, Hm. reflexivity.
Qed.

Lemma unknown_session_recorded_witness :
  let ses := Samples.session_of
               [("purchase_id", "VT-9"); ("guild_id", ALLOWED_GUILD_ID);
                ("user_id", "42"); ("type", "donation");
                ("amount_minor", "500"); ("currency", "gbp")] None in
  let E := Samples.world (Ok (CheckoutSessionCompleted ses))
             (Throw Samples.no_such) (Throw Samples.no_such) in
  let st := Samples.store_of [] [] [] in
  exists row,
    purchases (Ent.webhook E 3 Samples.a_request st).2 = [row] /\
    row !! "status" = Some (VStr "paid") /\
    row !! "amountMinor" = Some (VNum 500).
Proof.
  intros ses E st.
  assert (Hgate : passes_gate ses "VT-9" "donation").
  { exists "42". cbn zeta. repeat split; try discriminate; vm_compute; reflexivity. }
  assert (Hok : lookup_ok E ses) by (intros id H; discriminate H).
  destruct (unknown_session_recorded E 3 Samples.a_request st ses "VT-9" "donation"
              eq_refl Hgate Hok eq_refl eq_refl)
    as (row & H1 & _ & _ & H4 & _ & _ & _ & H9 & _).
  exists row. split; [exact H1|]. split; [exact H4|].
  apply (H9 500%N); [reflexivity | vm_compute; reflexivity].
Defined.

(** X15. [executeRefundInternal] writes nothing: it only calls Stripe. It
    creates at most one refund. For a purchase with a payment intent on
    record that refund is its only call, so a subscription reference on
    the same purchase is neither read nor cancelled; for a purchase with a
    subscription reference only, it returns only after the cancellation
    of that subscription has been asked for. *)
Theorem refund_execution_calls (E : env) (p : doc) (st : state) :
  exists r l,
    Shop.executeRefundInternal E p st = (r, set_effects (effects st ++ l)%list st) /\
    (length (List.filter is_stripe_refund l) <= 1)%nat /\
    Forall (fun e => match e with
                     | StripeRefundCreate _ | StripeSubscriptionRetrieve _
                     | StripeSubscriptionCancel _ => True
                     | _ => False
                     end) l /\
    (forall pi, or_null (str_field "stripePaymentIntentId" p) = Some pi ->
       l = [StripeRefundCreate pi] /\ r = (Some <$> refunds_create E pi)) /\
    (forall id x,
       or_null (str_field "stripePaymentIntentId" p) = None ->
       or_null (str_field "stripeSubscriptionId" p) = Some id ->
       r = Ok x ->
       last l = Some (StripeSubscriptionCancel id)).
Proof.
  unfold Shop.executeRefundInternal.
  destruct (or_null (str_field "stripePaymentIntentId" p)) as [pi|].
  { exists (Some <$> refunds_create E pi), [StripeRefundCreate pi].
    rewrite bind_run, call_run.
    split; [now destruct (refunds_create E pi)|].
    split; [cbn; lia|]. split; [repeat constructor|].
    split; [now intros ? [= <-] | discriminate]. }
  destruct (or_null (str_field "stripeSubscriptionId" p)) as [id|].
  2:{ eexists _, []. unfold throw. rewrite set_effects_nil.
      split; [reflexivity|]. split; [cbn; lia|]. split; [constructor|].
      split; discriminate. }
  destruct (subscriptions_retrieve E id) as [sub|e] eqn:Es.
  2:{ exists (Throw e), [StripeSubscriptionRetrieve id].
      rewrite bind_run, call_run.
      split; [reflexivity|]. split; [cbn; lia|]. split; [repeat constructor|].
      split; [discriminate|]. intros ? ? _ _ [=]. }
  destruct (or_null (sub_latest_invoice_payment_intent sub)) as [pi|] eqn:Ep.
  - destruct (refunds_create E pi) as [rf|e] eqn:Er.
    + exists (Ok (Some rf)),
        [StripeSubscriptionRetrieve id; StripeRefundCreate pi;
         StripeSubscriptionCancel id].
      rewrite bind_run, call_run, bind_run, Ep, !bind_run, call_run, Er.
      cbn [mret M_ret]. rewrite bind_run. unfold try_catch. rewrite call_run.
      split; [destruct (subscriptions_cancel E id); cbn; now rewrite <- !app_assoc|].
      split; [cbn; lia|]. split; [repeat constructor|].
      split; [discriminate|]. now intros ? ? _ [= <-] _.
    + exists (Throw e), [StripeSubscriptionRetrieve id; StripeRefundCreate pi].
      rewrite bind_run, call_run, bind_run, Ep, !bind_run, call_run, Er.
      split; [cbn; now rewrite <- !app_assoc|].
      split; [cbn; lia|]. split; [repeat constructor|].
      split; [discriminate|]. intros ? ? _ _ [=].
  - exists (Ok None),
      [StripeSubscriptionRetrieve id; StripeSubscriptionCancel id].
    rewrite bind_run, call_run, bind_run, Ep.
    cbn [mret M_ret]. rewrite bind_run. unfold try_catch. rewrite call_run.
    split; [destruct (subscriptions_cancel E id); cbn; now rewrite <- !app_assoc|].
    split; [cbn; lia|]. split; [repeat constructor|].
    split; [discriminate|]. now intros ? ? _ [= <-] _.
Qed.

Lemma reject_click_parts i rid :
  reject_click i rid ->
  String.prefix "refund_approve:" (i_customId i)
    || String.prefix "refund_reject:" (i_customId i) = true /\
  split_colon (i_customId i) = ["refund_reject"; rid].
Proof.
  intros (_ & _ & Hc & Hs). rewrite Hc. split.
  - rewrite (prefix_app "refund_reject:" rid). apply orb_true_r.
  - change ("refund_reject:" ++ rid) with ("refund_reject" ++ ":" ++ rid).
    rewrite split_colon_app by reflexivity. now rewrite Hs.
Qed.

(** X16. the refund buttons obey the approver only. In [src/index.js] a
    click by anyone else, an administrator included, or from another
    guild, is answered and changes nothing; in the entitlement revision
    the same holds for anyone who is neither the approver nor an
    administrator. *)
Theorem refund_buttons_restricted (E : env) (now : Z) (i : interaction)
    (st : state) :
  (i_guild i <> Some ALLOWED_GUILD_ID \/ i_user i <> REFUND_APPROVER_USER_ID ->
   exists ui,
     Shop.refund_button E now i st = (Ok tt, set_effects (effects st ++ ui) st)
     /\ Forall is_interaction ui /\ (length ui <= 1)%nat) /\
  (i_guild i <> Some ALLOWED_GUILD_ID \/
   (i_user i <> REFUND_APPROVER_USER_ID /\ i_admin i = false) ->
   exists ui,
     Ent.refund_button E now i st = (Ok tt, set_effects (effects st ++ ui) st)
     /\ Forall is_interaction ui /\ (length ui <= 1)%nat).
Proof.
  assert (Hnil : exists ui, (Ok tt, st) = (Ok tt, set_effects (effects st ++ ui) st)
                   /\ Forall is_interaction ui /\ (length ui <= 1)%nat).
  { exists []. split; [now rewrite set_effects_nil|]. split; [constructor | cbn; lia]. }
  split.
  - intros H. unfold Shop.refund_button.
    destruct (bool_decide_reflect (i_guild i = Some ALLOWED_GUILD_ID)) as [Hg|Hg];
      cbn [negb].
    2:{ eexists [_]. split; [reflexivity|]. split; [repeat constructor | cbn; lia]. }
    destruct (negb (_ || _)); [exact Hnil|].
    destruct H as [H|H]; [contradiction|].
    apply String.eqb_neq in H. rewrite H. cbn [negb].
    eexists [_]. split; [reflexivity|]. split; [repeat constructor | cbn; lia].
  - intros H. unfold Ent.refund_button.
    destruct (bool_decide_reflect (i_guild i = Some ALLOWED_GUILD_ID)) as [Hg|Hg];
      cbn [negb].
    2:{ eexists [_]. split; [reflexivity|]. split; [repeat constructor | cbn; lia]. }
    destruct (negb (_ || _)); [exact Hnil|].
    destruct H as [H|[H Ha]]; [contradiction|].
    apply String.eqb_neq in H. rewrite H, Ha. cbn [negb orb].
    eexists [_]. split; [reflexivity|]. split; [repeat constructor | cbn; lia].
Qed.

Lemma refund_buttons_restricted_witness :
  let i := {| i_guild := Some ALLOWED_GUILD_ID; i_user := "7"; i_admin := true;
              i_customId := "refund_approve:RR-1" |} in
  let st := Samples.store_of [Samples.purchase_paid] [Samples.request_pending] [] in
  let E := Samples.world (Throw Samples.no_such) (Throw Samples.no_such)
             (Ok "re_1") in
  exists ui,
    Shop.refund_button E 1 i st = (Ok tt, set_effects (effects st ++ ui) st)
    /\ Forall is_interaction ui /\ (length ui <= 1)%nat.
Proof.
  intros i st E.
  apply (proj1 (refund_buttons_restricted E 1 i st)).
  right. discriminate.
Defined.

Lemma refund_execution_calls_witness :
  let E := Samples.world (Throw Samples.no_such) (Ok Samples.a_subscription)
             (Ok "re_1") in
  exists r l,
    Shop.executeRefundInternal E Samples.purchase_paid_once
      (Samples.store_of [] [] []) =
      (r, set_effects (effects (Samples.store_of [] [] []) ++ l)%list
            (Samples.store_of [] [] [])) /\
    l = [StripeRefundCreate "pi_1"].
Proof.
  intros E.
  destruct (refund_execution_calls E Samples.purchase_paid_once
              (Samples.store_of [] [] [])) as (r & l & H1 & _ & _ & H4 & _).
  exists r, l. split; [exact H1|].
  exact (proj1 (H4 "pi_1" eq_refl)).
Defined.

(** Entering the reject path of [src/index.js]. *)
Local Ltac enter_reject Hclick Hreq Hpending :=
  let Hpre := fresh "Hpre" in
  let Hparts := fresh "Hparts" in
  destruct (reject_click_parts _ _ Hclick) as [Hpre Hparts];
  destruct Hclick as (Hg & Hu & _ & _);
  unfold Shop.refund_button;
  rewrite Hg, Hu, Hpre, Hparts;
  rewrite (bool_decide_eq_true_2 _ eq_refl), String.eqb_refl;
  cbn [negb nth];
  rewrite bind_run, get_run, Hreq;
  rewrite (bool_decide_eq_true_2 _ Hpending);
  rewrite String.eqb_refl;
  cbn [negb].

(** X17. when the approver rejects a pending request, the request becomes
    [rejected] with the approver on record, and nothing else happens: no
    purchase changes, Stripe is not called and no role is touched. *)
Theorem refund_rejected (E : env) (now : Z) (i : interaction)
    (st : state) (rid : string) (r : doc) :
  reject_click i rid ->
  unique_index {| index_fields := ["requestId"]; index_sparse := false |}
    (refund_requests st) ->
  findOne [("requestId", VStr rid); ("guildId", VStr ALLOWED_GUILD_ID)]
    (refund_requests st) = Some r ->
  r !! "status" = Some (VStr "pending") ->
  exists c1 c2 r' st',
    Shop.refund_button E now i st = (Ok tt, st') /\
    refund_requests st = (c1 ++ r :: c2)%list /\
    refund_requests st' = (c1 ++ r' :: c2)%list /\
    r' !! "status" = Some (VStr "rejected") /\
    r' !! "rejectedBy" = Some (VStr REFUND_APPROVER_USER_ID) /\
    r' !! "purchaseId" = r !! "purchaseId" /\
    purchases st' = purchases st /\
    effects st' = (effects st ++ [Interaction "update" "rejected"])%list.
Proof.
  intros Hclick Huniq Hreq Hpending.
  destruct (findOne_split _ _ _ Hreq) as (c1 & c2 & Hc & _ & Hm).
  assert (Hid : matches [("requestId", VStr rid)] r = true).
  { unfold matches in *. cbn [forallb] in *.
    apply andb_true_iff in Hm as [-> _]. reflexivity. }
  rewrite Hc in Huniq.
  destruct (updateOne_unique _ [("requestId", VStr rid)]
              [("status", VStr "rejected"); ("rejectedAt", VDate now);
               ("rejectedBy", VStr REFUND_APPROVER_USER_ID)]
              c1 r c2 Huniq eq_refl eq_refl Hid) as [_ Hupd].
  enter_reject Hclick Hreq Hpending.
  rewrite bind_run. unfold Shop.set_request. rewrite modify_run, emit_run.
  cbn [refund_requests set_refund_requests set_effects purchases effects].
  rewrite Hc, Hupd.
  eexists c1, c2, _, _. split; [reflexivity|].
  cbn [refund_requests set_refund_requests set_effects purchases effects].
  repeat split; read_field.
Qed.

Lemma refund_rejected_witness :
  let st := Samples.store_of [Samples.purchase_paid] [Samples.request_pending] [] in
  let i := Samples.approver_click "refund_reject" "RR-1" in
  let E := Samples.world (Throw Samples.no_such) (Throw Samples.no_such)
             (Ok "re_1") in
  exists c1 c2 r' st',
    Shop.refund_button E 1 i st = (Ok tt, st') /\
    refund_requests st = (c1 ++ Samples.request_pending :: c2)%list /\
    refund_requests st' = (c1 ++ r' :: c2)%list /\
    r' !! "status" = Some (VStr "rejected") /\
    purchases st' = purchases st.
Proof.
  intros st i E.
  destruct (refund_rejected E 1 i st "RR-1" Samples.request_pending)
    as (c1 & c2 & r' & st' & H1 & H2 & H3 & H4 & _ & _ & H7 & _).
  - repeat split.
  - intros [|a] [|b] d d' k Ha Hb; try discriminate; reflexivity.
  - reflexivity.
  - reflexivity.
  - exists c1, c2, r', st'. auto.
Defined.


(** X18. when the approver approves a pending request inside the window and
    [executeRefundInternal] returns, the request ends [executed], the
    purchase it names ends [refunded] with the refund id and the time on
    record, no other request or purchase is touched, and for a product
    purchase with a role whose buyer can be fetched the removal of that
    role from the buyer is issued. *)
Theorem refund_approved (E : env) (now : Z) (i : interaction)
    (st : state) (rid : string) (r p : doc) (paidAt : Z)
    (refundId : option string) :
  approve_click i rid ->
  unique_index {| index_fields := ["requestId"]; index_sparse := false |}
    (refund_requests st) ->
  unique_index {| index_fields := ["purchaseId"]; index_sparse := false |}
    (purchases st) ->
  findOne [("requestId", VStr rid); ("guildId", VStr ALLOWED_GUILD_ID)]
    (refund_requests st) = Some r ->
  r !! "status" = Some (VStr "pending") ->
  findOne [("purchaseId", default VNull (r !! "purchaseId"));
           ("guildId", VStr ALLOWED_GUILD_ID)] (purchases st) = Some p ->
  p !! "paidAt" = Some (VDate paidAt) ->
  (now - paidAt <= REFUND_WINDOW_MS)%Z ->
  (Shop.executeRefundInternal E p st).1 = Ok refundId ->
  exists c1 c2 r' d1 d2 p' st',
    Shop.refund_button E now i st = (Ok tt, st') /\
    refund_requests st = (c1 ++ r :: c2)%list /\
    refund_requests st' = (c1 ++ r' :: c2)%list /\
    r' !! "status" = Some (VStr "executed") /\
    r' !! "approvedBy" = Some (VStr REFUND_APPROVER_USER_ID) /\
    purchases st = (d1 ++ p :: d2)%list /\
    purchases st' = (d1 ++ p' :: d2)%list /\
    p' !! "status" = Some (VStr "refunded") /\
    p' !! "refundedAt" = Some (VDate now) /\
    p' !! "stripeRefundId" = Some (vstr refundId) /\
    (forall role user,
       p !! "type" = Some (VStr "product") ->
       p !! "roleId" = Some (VStr role) -> role <> "" ->
       p !! "userId" = Some (VStr user) ->
       members_fetch E ALLOWED_GUILD_ID user = true ->
       In (RoleRemove ALLOWED_GUILD_ID user role ("Refund approved (" ++ rid ++ ")"))
          (effects st')).
Proof.
  intros Hclick Huniq Hupur Hreq Hpending Hpur Hpaid Hin Hok.
  destruct (findOne_split _ _ _ Hreq) as (c1 & c2 & Hc & _ & Hm).
  assert (Hid : matches [("requestId", VStr rid)] r = true).
  { unfold matches in *. cbn [forallb] in *.
    apply andb_true_iff in Hm as [-> _]. reflexivity. }
  rewrite Hc in Huniq.
  destruct (updateOne_unique _ [("requestId", VStr rid)]
              [("status", VStr "approved"); ("approvedAt", VDate now);
               ("approvedBy", VStr REFUND_APPROVER_USER_ID)]
              c1 r c2 Huniq eq_refl eq_refl Hid) as [Hc1 Hupd].
  destruct (findOne_split _ _ _ Hpur) as (d1 & d2 & Hd & _ & Hpm).
  assert (Hpid : matches [("purchaseId", default VNull (p !! "purchaseId"))] p = true).
  { unfold matches in *. cbn [forallb fst snd] in *.
    apply andb_true_iff in Hpm as [Hk _]. apply bool_decide_eq_true in Hk.
    rewrite Hk. cbn [default from_option].
    now rewrite bool_decide_eq_true_2. }
  rewrite Hd in Hupur.
  destruct (updateOne_unique _ [("purchaseId", default VNull (p !! "purchaseId"))]
              [("status", VStr "refunded"); ("refundedAt", VDate now);
               ("stripeRefundId", vstr refundId)]
              d1 p d2 Hupur eq_refl eq_refl Hpid) as [_ Hupp].
  destruct (executeRefundInternal_run E p) as (r0 & l & Hrun).
  rewrite Hrun in Hok. cbn [fst] in Hok. subst r0.
  assert (Hrole : exists l2,
    (forall s,
       (match str_field "roleId" p with
        | Some role =>
            match str_field "userId" p with
            | Some user =>
                if bool_decide (p !! "type" = Some (VStr "product"))
                   && truthy (Some role) && members_fetch E ALLOWED_GUILD_ID user
                then emit (RoleRemove ALLOWED_GUILD_ID user role
                             ("Refund approved (" ++ rid ++ ")"))
                else mret tt
            | None => mret tt
            end
        | None => mret tt
        end) s = (Ok tt, set_effects (effects s ++ l2)%list s)) /\
    (forall role user,
       p !! "type" = Some (VStr "product") ->
       p !! "roleId" = Some (VStr role) -> role <> "" ->
       p !! "userId" = Some (VStr user) ->
       members_fetch E ALLOWED_GUILD_ID user = true ->
       l2 = [RoleRemove ALLOWED_GUILD_ID user role ("Refund approved (" ++ rid ++ ")")])).
  { unfold str_field.
    destruct (p !! "roleId") as [[role| | | |]|] eqn:Er;
      try (exists []; split;
           [intros s; now rewrite set_effects_nil | intros; discriminate]).
    destruct (p !! "userId") as [[user| | | |]|] eqn:Eu;
      try (exists []; split;
           [intros s; now rewrite set_effects_nil | intros; discriminate]).
    destruct (bool_decide (p !! "type" = Some (VStr "product"))
              && truthy (Some role) && members_fetch E ALLOWED_GUILD_ID user) eqn:Ec.
    - eexists [_]. split; [intros s; reflexivity|].
      now intros role' user' _ [= <-] _ [= <-] _.
    - exists []. split; [intros s; now rewrite set_effects_nil|].
      intros role' user' Ht [= <-] Hne [= <-] Hmf. exfalso.
      rewrite (bool_decide_eq_true_2 _ Ht), (truthy_Some _ Hne), Hmf in Ec.
      discriminate. }
  destruct Hrole as (l2 & Hrole & Hl2).
  enter_approve Hclick Hreq Hpending.
  cbn [purchases set_effects]. rewrite Hpur.
  unfold Shop.within_window, date_field. rewrite Hpaid.
  rewrite (proj2 (Z.ltb_ge _ _) Hin). cbn [negb].
  unfold try_catch, Shop.set_request.
  rewrite bind_run, modify_run, bind_run, Hrun.
  rewrite bind_run, Hrole, bind_run, modify_run, bind_run, modify_run, emit_run.
  cbn [refund_requests set_refund_requests set_effects purchases set_purchases effects].
  rewrite Hc, Hupd, Hd, Hupp.
  rewrite updateOne_split; [|assumption|].
  2:{ rewrite matches_set_fields; [assumption|].
      intros k [<-|[]] Hk. cbn in Hk. intuition discriminate. }
  eexists c1, c2, _, d1, d2, _, _. split; [reflexivity|].
  cbn [refund_requests set_refund_requests set_effects purchases set_purchases effects].
  split; [reflexivity|]. split; [reflexivity|].
  split; [read_field|]. split; [read_field|].
  split; [reflexivity|]. split; [reflexivity|].
  split; [read_field|]. split; [read_field|]. split; [read_field|].
  intros role user Ht Hr Hne Hus Hmf.
  rewrite (Hl2 role user Ht Hr Hne Hus Hmf).
  apply in_app_iff. left. apply in_app_iff. right. now left.
Qed.

Lemma refund_approved_witness :
  let st := Samples.store_of [Samples.purchase_paid_once]
              [Samples.request_pending] [] in
  let i := Samples.approver_click "refund_approve" "RR-1" in
  let E := Samples.world (Throw Samples.no_such) (Throw Samples.no_such)
             (Ok "re_1") in
  exists r' p' st',
    Shop.refund_button E Samples.HOUR i st = (Ok tt, st') /\
    refund_requests st' = [r'] /\ r' !! "status" = Some (VStr "executed") /\
    purchases st' = [p'] /\ p' !! "status" = Some (VStr "refunded") /\
    In (RoleRemove ALLOWED_GUILD_ID "42" "role-9" "Refund approved (RR-1)")
       (effects st').
Proof.
  intros st i E.
  destruct (refund_approved E Samples.HOUR i st "RR-1"
              Samples.request_pending Samples.purchase_paid_once 0 (Some "re_1"))
    as (c1 & c2 & r' & d1 & d2 & p' & st' & H1 & H2 & H3 & H4 & _ & H6 & H7
        & H8 & _ & _ & H11).
  - repeat split.
  - intros [|a] [|b] d d' k Ha Hb; try discriminate; reflexivity.
  - intros [|a] [|b] d d' k Ha Hb; try discriminate; reflexivity.
  - reflexivity.
  - reflexivity.
  - reflexivity.
  - reflexivity.
  - vm_compute. discriminate.
  - vm_compute. reflexivity.
  - exists r', p', st'.
    change (refund_requests st) with [Samples.request_pending] in H2.
    change (purchases st) with [Samples.purchase_paid_once] in H6.
    destruct c1 as [|x c1]; [|destruct c1; discriminate H2].
    injection H2 as <-.
    destruct d1 as [|y d1]; [|destruct d1; discriminate H6].
    injection H6 as <-.
    split; [exact H1|]. split; [exact H3|]. split; [exact H4|].
    split; [exact H7|]. split; [exact H8|].
    apply H11; try reflexivity. discriminate.
Defined.

(** X19. approving a pending request whose purchase is not on record calls
    nothing at Stripe and changes no purchase and no entitlement. In
    [src/index.js] the request ends [failed] with the reason "Purchase not
    found"; in the entitlement revision it ends [rejected] with the reason
    "Purchase missing". *)
Theorem refund_without_purchase (E : env) (now : Z) (i : interaction)
    (st : state) (rid : string) (r : doc) :
  approve_click i rid ->
  unique_index {| index_fields := ["requestId"]; index_sparse := false |}
    (refund_requests st) ->
  findOne [("requestId", VStr rid); ("guildId", VStr ALLOWED_GUILD_ID)]
    (refund_requests st) = Some r ->
  r !! "status" = Some (VStr "pending") ->
  findOne [("purchaseId", default VNull (r !! "purchaseId"));
           ("guildId", VStr ALLOWED_GUILD_ID)] (purchases st) = None ->
  exists c1 c2,
    refund_requests st = (c1 ++ r :: c2)%list /\
    (exists r' st',
       Shop.refund_button E now i st = (Ok tt, st') /\
       refund_requests st' = (c1 ++ r' :: c2)%list /\
       r' !! "status" = Some (VStr "failed") /\
       r' !! "failureReason" = Some (VStr "Purchase not found") /\
       purchases st' = purchases st /\
       effects st' =
         (effects st ++ [Interaction "deferUpdate" "";
                         Interaction "editReply" "failed (missing purchase)"])%list) /\
    (exists r' st',
       Ent.refund_button E now i st = (Ok tt, st') /\
       refund_requests st' = (c1 ++ r' :: c2)%list /\
       r' !! "status" = Some (VStr "rejected") /\
       r' !! "reason" = Some (VStr "Purchase missing") /\
       purchases st' = purchases st /\ entitlements st' = entitlements st /\
       effects st' =
         (effects st ++ [Interaction "deferReply" "";
                         Interaction "editReply"
                           "Purchase missing. Request rejected."])%list).
Proof.
  intros Hclick Huniq Hreq Hpending Hpur.
  destruct (findOne_split _ _ _ Hreq) as (c1 & c2 & Hc & _ & Hm).
  assert (Hid : matches [("requestId", VStr rid)] r = true).
  { unfold matches in *. cbn [forallb] in *.
    apply andb_true_iff in Hm as [-> _]. reflexivity. }
  rewrite Hc in Huniq.
  exists c1, c2. split; [exact Hc|]. split.
  - destruct (updateOne_unique _ [("requestId", VStr rid)]
                [("status", VStr "failed"); ("failedAt", VDate now);
                 ("failureReason", VStr "Purchase not found")]
                c1 r c2 Huniq eq_refl eq_refl Hid) as [_ Hupd].
    enter_approve Hclick Hreq Hpending.
    cbn [purchases set_effects]. rewrite Hpur.
    rewrite bind_run. unfold Shop.set_request. rewrite modify_run, emit_run.
    cbn [refund_requests set_refund_requests set_effects purchases effects].
    rewrite Hc, Hupd, <- app_assoc.
    eexists _, _. split; [reflexivity|].
    cbn [refund_requests set_refund_requests set_effects purchases effects].
    repeat split; read_field.
  - destruct (updateOne_unique _ [("requestId", VStr rid)]
                [("status", VStr "rejected"); ("rejectedAt", VDate now);
                 ("rejectedBy", VStr REFUND_APPROVER_USER_ID);
                 ("reason", VStr "Purchase missing")]
                c1 r c2 Huniq eq_refl eq_refl Hid) as [_ Hupd].
    destruct (approve_click_parts _ _ Hclick) as [Hpre Hparts].
    destruct Hclick as (Hg & Hu & _ & _).
    unfold Ent.refund_button.
    rewrite Hg, Hu, Hpre, Hparts.
    rewrite (bool_decide_eq_true_2 _ eq_refl), String.eqb_refl.
    cbn [negb orb nth].
    rewrite bind_run, emit_run, bind_run, get_run.
    cbn [refund_requests purchases set_effects].
    rewrite Hreq, (bool_decide_eq_true_2 _ Hpending). cbn [negb].
    rewrite Hpur. unfold Ent.set_request, Ent.editReply.
    rewrite bind_run, modify_run, emit_run.
    cbn [refund_requests set_refund_requests set_effects purchases effects].
    rewrite Hc, Hupd, <- app_assoc.
    eexists _, _. split; [reflexivity|].
    cbn [refund_requests set_refund_requests set_effects purchases effects
         entitlements].
    repeat split; read_field.
Qed.

Lemma refund_without_purchase_witness :
  let st := Samples.store_of [] [Samples.request_pending] [] in
  let i := Samples.approver_click "refund_approve" "RR-1" in
  let E := Samples.world (Throw Samples.no_such) (Throw Samples.no_such)
             (Ok "re_1") in
  exists r' st',
    Shop.refund_button E 1 i st = (Ok tt, st') /\
    refund_requests st' = [r'] /\
    r' !! "failureReason" = Some (VStr "Purchase not found").
Proof.
  intros st i E.
  destruct (refund_without_purchase E 1 i st "RR-1" Samples.request_pending)
    as (c1 & c2 & H0 & (r' & st' & H1 & H2 & _ & H4 & _) & _).
  - repeat split.
  - intros [|a] [|b] d d' k Ha Hb; try discriminate; reflexivity.
  - reflexivity.
  - reflexivity.
  - reflexivity.
  - exists r', st'.
    change (refund_requests st) with [Samples.request_pending] in H0.
    destruct c1 as [|x c1]; [|destruct c1; discriminate H0].
    injection H0 as <-.
    split; [exact H1|]. split; [exact H2 | exact H4].
Defined.

Module EntFacts.
Import Mongo Service MongoFacts ServiceFacts UpsertFacts WebhookFacts.
Local Open Scope string_scope.

(** An upsert keyed by the fields of a unique index, whose [$set] writes
    those fields again: it cannot fail, and the key then finds the
    written document. *)
Lemma upsert_by_key ix q soi u c :
  List.map fst q = index_fields ix -> q <> [] ->
  Forall (fun kv => kv.2 <> VNull) q ->
  (forall d, matches q (set_fields u d) = true) ->
  exists c',
    upsertOne [ix] q soi u c = Some c' /\
    findOne q c' =
      Some (set_fields u
              (default (set_fields soi (set_fields q ∅)) (findOne q c))).
Proof.
  intros Hf Hne Hnn Hm. unfold upsertOne.
  destruct (existsb (matches q) c) eqn:Ex.
  - destruct (findOne q c) as [d|] eqn:Ef.
    2:{ apply existsb_findOne_None in Ef. congruence. }
    eexists. split; [reflexivity|]. cbn [default from_option].
    now apply findOne_updateOne_same.
  - assert (Ef : findOne q c = None) by now apply existsb_findOne_None.
    rewrite Ef. cbn [default from_option].
    unfold insertOne. cbn [existsb].
    rewrite (fresh_key_no_duplicate' ix q _ c Hf Hne Hnn (Hm _) Ex).
    cbn [orb]. eexists. split; [reflexivity|].
    now apply findOne_app_fresh.
Qed.

Lemma upsertOne_existing ixs q soi u c :
  existsb (matches q) c = true -> upsertOne ixs q soi u c = Some (updateOne q u c).
Proof. intros H. unfold upsertOne. now rewrite H. Qed.

(** A step whose exceptions are swallowed returns. *)
Lemma try_catch_unit (m : M unit) s :
  (try_catch m (fun _ => mret tt) s).1 = Ok tt.
Proof. unfold try_catch. now destruct (m s) as [[[]|e] s']. Qed.

(** The relation "the entitlements are the same". *)
Definition keeps_entitlements : relation state :=
  fun s s' => entitlements s' = entitlements s.

#[global] Instance keeps_entitlements_preorder : PreOrder keeps_entitlements.
Proof.
  split; [intros s; reflexivity|].
  intros a b c H1 H2. unfold keeps_entitlements in *. congruence.
Qed.

Lemma keeps_entitlements_tolerates : tolerates keeps_entitlements (fun _ => True).
Proof. split; intros; reflexivity. Qed.

End EntFacts.

Import EntFacts.

(** X20. In the entitlement revision, take a verified completed session of
    type [product] that gets past the correlation checks, names a product
    by a non-empty id, answers to a purchase on record, has its
    subscription lookup, if there is one, answered, and finds the guild
    fetchable. Once the webhook has handled it, the buyer holds an active
    entitlement for that product that names the purchase, and
    [canStartCheckout] refuses them any further purchase of it that is not
    an upgrade, whatever the plan. *)
Theorem paid_product_blocks_second_checkout (E : env) (now : Z) (req : request)
    (st : state) (ses : session) (pid uid : string) (product : Product)
    (planKey : string) :
  constructEvent E req = Ok (CheckoutSessionCompleted ses) ->
  passes_gate ses pid "product" -> lookup_ok E ses ->
  default ∅ (session_metadata ses) !! "user_id" = Some uid ->
  default ∅ (session_metadata ses) !! "product_id" = Some (product_id product) ->
  product_id product <> "" ->
  existsb (matches (by_both pid ses)) (purchases st) = true ->
  guilds_fetch E ALLOWED_GUILD_ID = true ->
  let st' := (Ent.webhook E now req st).2 in
  exists ent why,
    findOne [("guildId", VStr ALLOWED_GUILD_ID); ("userId", VStr uid);
             ("productId", VStr (product_id product))] (entitlements st')
      = Some ent /\
    ent !! "status" = Some (VStr "active") /\
    ent !! "lastPurchaseId" = Some (VStr pid) /\
    Ent.canStartCheckout ALLOWED_GUILD_ID uid product planKey false st' =
      (Ok {| Ent.ok := false; Ent.reason := Some why |}, st').
Proof.
  intros Hev (uid' & Hp & Hg & Hu & Ht & Np & Nu & Nt) Hok Huid Hprod Nprod Hex Hgf st'.
  cbn zeta in Hp, Hg, Hu, Ht. rewrite Huid in Hu. injection Hu as <-.
  subst st'. unfold Ent.webhook. rewrite Hev, try_catch_const_state.
  unfold Ent.checkout_session_completed.
  rewrite Hp, Hg, Huid, Ht, Hprod.
  rewrite !truthy_Some by (assumption || discriminate).
  rewrite !(truthy_Some' _ Nprod).
  rewrite !String.eqb_refl. cbn [negb andb].
  destruct (side_data_run E ses st Hok) as ([[a b] c] & l & Hrun).
  rewrite bind_run, Hrun, bind_run, get_run.
  cbn [purchases set_effects]. unfold by_both in Hex.
  rewrite (upsertOne_existing _ _ _ _ _ Hex). cbn [store].
  rewrite bind_run, modify_run. rewrite Hgf. cbn [negb].
  lazymatch goal with
  | |- context [set_purchases ?c ?s] => set (s1 := set_purchases c s)
  end.
  set (q := [("guildId", VStr ALLOWED_GUILD_ID); ("userId", VStr uid);
             ("productId", VStr (product_id product))]).
  lazymatch goal with
  | |- context [upsertOne entitlement_indexes q ?soi ?u _] =>
      destruct (upsert_by_key
                  {| index_fields := ["guildId"; "userId"; "productId"];
                     index_sparse := false |}
                  q soi u (entitlements st) eq_refl ltac:(discriminate))
        as (c' & Hup & Hfind);
      [ repeat constructor; discriminate
      | intros d; unfold matches, q; cbn [forallb fst snd];
        rewrite !bool_decide_eq_true_2; [reflexivity | read_field ..]
      | ];
      set (written := u) in *
  end.
  lazymatch goal with
  | |- context [(?m s1).2] =>
      set (fin := (m s1).2);
      assert (Hfin : entitlements fin = c')
  end.
  { subst fin. rewrite bind_run.
    lazymatch goal with
    | |- context [match ?rs s1 with _ => _ end] =>
        assert (Hr1 : (rs s1).1 = Ok tt)
          by (destruct (or_null (_ !! "role_id"));
              [apply try_catch_unit | reflexivity]);
        assert (Hk1 : respects keeps_entitlements rs)
          by (destruct (or_null (_ !! "role_id"));
              [ apply (respects_grant_role _ _ keeps_entitlements_tolerates); auto
              | apply respects_ret; typeclasses eauto ]);
        specialize (Hk1 s1);
        destruct (rs s1) as [[[]|e] s2]; cbn [fst snd] in Hr1, Hk1;
        [|discriminate]
    end.
    rewrite !bind_run, get_run.
    unfold keeps_entitlements in Hk1. rewrite Hk1.
    change (entitlements s1) with (entitlements st).
    change (upsertOne entitlement_indexes) with
      (upsertOne [ {| index_fields := ["guildId"; "userId"; "productId"];
                      index_sparse := false |} ]).
    rewrite Hup. cbn [store]. rewrite bind_run, modify_run.
    lazymatch goal with
    | |- context [try_catch ?h ?k ?s] =>
        pose proof (try_catch_unit h s) as Hr2;
        assert (Hk2 : respects keeps_entitlements (try_catch h k))
          by (apply respects_try; [typeclasses eauto | | intros ?;
                apply respects_ret; typeclasses eauto];
              apply (respects_upgrade_hint _ _ keeps_entitlements_tolerates); auto);
        specialize (Hk2 s);
        destruct (try_catch h k s) as [[[]|e] s3]; cbn [fst snd] in Hr2, Hk2;
        [|discriminate]
    end.
    lazymatch goal with
    | |- entitlements (?tail s3).2 = _ =>
        assert (Hk3 : respects keeps_entitlements tail)
          by (apply respects_bind; [typeclasses eauto | | intros ?;
                apply respects_ret; typeclasses eauto];
              apply (respects_Ent_log _ _ keeps_entitlements_tolerates); auto);
        rewrite (Hk3 s3)
    end.
    exact Hk2. }
  clearbody fin. clear s1.
  assert (Hst : set_fields written
                  (default (set_fields [("createdAt", VDate now)] (set_fields q ∅))
                     (findOne q (entitlements st))) !! "status"
                = Some (VStr "active")) by (subst written; read_field).
  assert (Hcan : exists why,
            Ent.canStartCheckout ALLOWED_GUILD_ID uid product planKey false fin =
              (Ok {| Ent.ok := false; Ent.reason := Some why |}, fin)).
  { unfold Ent.canStartCheckout, Ent.getEntitlement.
    rewrite !bind_run, get_run. cbn [mret M_ret].
    rewrite Hfin. fold q. rewrite Hfind, Hst.
    rewrite (bool_decide_eq_true_2 _ eq_refl). cbn [negb].
    destruct (bool_decide _); eexists; reflexivity. }
  destruct Hcan as [why Hcan].
  eexists _, why. rewrite Hfin. split; [exact Hfind|].
  split; [exact Hst|]. split; [subst written; read_field | exact Hcan].
Qed.

Lemma paid_product_blocks_second_checkout_witness :
  let ses := Samples.session_of
               [("purchase_id", "VT-1"); ("guild_id", ALLOWED_GUILD_ID);
                ("user_id", "42"); ("type", "product"); ("product_id", "p1");
                ("plan_key", "monthly"); ("role_id", "role-9")]
               (Some "sub_1") in
  let E := Samples.world (Ok (CheckoutSessionCompleted ses))
             (Ok Samples.a_subscription) (Throw Samples.no_such) in
  let st := Samples.store_of [Samples.purchase_created] [] [] in
  let st' := (Ent.webhook E 5 Samples.a_request st).2 in
  exists why,
    Ent.canStartCheckout ALLOWED_GUILD_ID "42" Samples.a_product "annual" false st' =
      (Ok {| Ent.ok := false; Ent.reason := Some why |}, st').
Proof.
  intros ses E st st'.
  assert (Hgate : passes_gate ses "VT-1" "product").
  { exists "42". cbn zeta. repeat split; try discriminate; vm_compute; reflexivity. }
  assert (Hok : lookup_ok E ses) by (intros id H; now exists Samples.a_subscription).
  destruct (paid_product_blocks_second_checkout E 5 Samples.a_request st ses
              "VT-1" "42" Samples.a_product "annual" eq_refl Hgate Hok)
    as (ent & why & _ & _ & _ & H).
  - vm_compute. reflexivity.
  - vm_compute. reflexivity.
  - discriminate.
  - vm_compute. reflexivity.
  - reflexivity.
  - exists why. exact H.
Defined.

(** X21. what [canStartCheckout] decides. It reads the entitlement of the
    user for the product and changes nothing. Without an entitlement, or
    with one that is not [active], the checkout may start. With an active
    one it may start only as an upgrade from the one-time plan to the
    monthly or the annual plan with no subscription on record. A refusal
    always carries its reason, an approval never does. *)
Theorem canStartCheckout_decides (st : state) (guildId userId : string)
    (product : Product) (planKey : string) (isUpgrade : bool) :
  let ent := findOne [("guildId", VStr guildId); ("userId", VStr userId);
                      ("productId", VStr (product_id product))]
               (entitlements st) in
  exists g,
    Ent.canStartCheckout guildId userId product planKey isUpgrade st = (Ok g, st) /\
    (Ent.ok g = true <->
     match ent with
     | None => True
     | Some e =>
         e !! "status" <> Some (VStr "active") \/
         (isUpgrade = true /\
          e !! "planKey" = Some (VStr "one_time") /\
          (planKey = "monthly" \/ planKey = "annual") /\
          truthy (str_field "stripeSubscriptionId" e) = false)
     end) /\
    (Ent.ok g = false <-> is_Some (Ent.reason g)).
Proof.
  intros ent. unfold Ent.canStartCheckout, Ent.getEntitlement.
  rewrite !bind_run, get_run. cbn [mret M_ret]. fold ent.
  destruct ent as [e|].
  2:{ eexists. split; [reflexivity|]. cbn. split; [tauto|].
      split; [discriminate | intros [x H]; discriminate]. }
  destruct (bool_decide_reflect (e !! "status" = Some (VStr "active"))) as [Hs|Hs];
    cbn [negb].
  2:{ eexists. split; [reflexivity|]. cbn. split; [tauto|].
      split; [discriminate | intros [x H]; discriminate]. }
  destruct (bool_decide_reflect (e !! "planKey" = Some (VStr "lifetime"))) as [Hl|Hl].
  { eexists. split; [reflexivity|]. cbn. split.
    - split; [discriminate|]. intros [H|(_ & H & _)]; congruence.
    - split; eauto. }
  destruct isUpgrade.
  2:{ eexists. split; [reflexivity|]. cbn. split.
      - split; [discriminate|]. intros [H|(H & _)]; [contradiction | discriminate].
      - split; eauto. }
  destruct (bool_decide_reflect (e !! "planKey" = Some (VStr "one_time"))) as [Ho|Ho];
    cbn [negb].
  2:{ eexists. split; [reflexivity|]. cbn. split.
      - split; [discriminate|]. intros [H|(_ & H & _)]; contradiction.
      - split; eauto. }
  destruct (String.eqb planKey "monthly" || String.eqb planKey "annual") eqn:Ep;
    cbn [negb].
  2:{ eexists. split; [reflexivity|]. cbn. split.
      - split; [discriminate|]. intros [H|(_ & _ & H & _)]; [contradiction|].
        apply orb_false_iff in Ep as [E1 E2].
        apply String.eqb_neq in E1, E2. tauto.
      - split; eauto. }
  apply orb_true_iff in Ep.
  assert (Hp : planKey = "monthly" \/ planKey = "annual")
    by (destruct Ep as [H|H]; apply String.eqb_eq in H; auto).
  destruct (truthy (str_field "stripeSubscriptionId" e)) eqn:Et.
  - eexists. split; [reflexivity|]. cbn. split.
    + split; [discriminate|]. intros [H|(_ & _ & _ & H)]; [contradiction | discriminate].
    + split; eauto.
  - eexists. split; [reflexivity|]. cbn. split; [tauto|].
    split; [discriminate | intros [x H]; discriminate].
Qed.

(** X22. in the entitlement revision a refund gives the product back to the
    shop. When the approver approves a pending request inside the window
    and [executeRefundInternal] returns, the entitlement of the buyer for
    the purchased product, if there is one, ends [revoked] with the
    approver on record, and [canStartCheckout] lets the buyer start a
    checkout for that product again, upgrade or not. *)
Theorem refund_reopens_checkout (E : env) (now : Z) (i : interaction)
    (st : state) (rid uid : string) (r p : doc) (paidAt : Z)
    (refundId : option string) (product : Product) (planKey : string)
    (isUpgrade : bool) :
  approve_click i rid ->
  findOne [("requestId", VStr rid); ("guildId", VStr ALLOWED_GUILD_ID)]
    (refund_requests st) = Some r ->
  r !! "status" = Some (VStr "pending") ->
  findOne [("purchaseId", default VNull (r !! "purchaseId"));
           ("guildId", VStr ALLOWED_GUILD_ID)] (purchases st) = Some p ->
  p !! "paidAt" = Some (VDate paidAt) ->
  (now - paidAt <= REFUND_WINDOW_MS)%Z ->
  (Shop.executeRefundInternal E p st).1 = Ok refundId ->
  p !! "productId" = Some (VStr (product_id product)) ->
  product_id product <> "" ->
  p !! "userId" = Some (VStr uid) ->
  let q := [("guildId", VStr ALLOWED_GUILD_ID); ("userId", VStr uid);
            ("productId", VStr (product_id product))] in
  exists st',
    Ent.refund_button E now i st = (Ok tt, st') /\
    (forall e, findOne q (entitlements st) = Some e ->
       exists e', findOne q (entitlements st') = Some e' /\
         e' !! "status" = Some (VStr "revoked") /\
         e' !! "revokedBy" = Some (VStr REFUND_APPROVER_USER_ID)) /\
    (findOne q (entitlements st) = None -> entitlements st' = entitlements st) /\
    Ent.canStartCheckout ALLOWED_GUILD_ID uid product planKey isUpgrade st' =
      (Ok {| Ent.ok := true; Ent.reason := None |}, st').
Proof.
  intros Hclick Hreq Hpending Hpur Hpaid Hin Hok Hprod Nprod Huid q.
  destruct (findOne_Some _ _ _ Hpur) as [_ Hpm].
  assert (Hpg : p !! "guildId" = Some (VStr ALLOWED_GUILD_ID))
    by (apply (matches_lookup _ _ _ _ Hpm); right; now left).
  destruct (executeRefundInternal_run E p) as (r0 & l & Hrun).
  rewrite Hrun in Hok. cbn [fst] in Hok. subst r0.
  destruct (approve_click_parts _ _ Hclick) as [Hpre Hparts].
  destruct Hclick as (Hg & Hu & _ & _).
  unfold Ent.refund_button.
  rewrite Hg, Hu, Hpre, Hparts.
  rewrite (bool_decide_eq_true_2 _ eq_refl), String.eqb_refl.
  cbn [negb orb nth].
  rewrite bind_run, emit_run, bind_run, get_run.
  cbn [refund_requests purchases set_effects].
  rewrite Hreq, (bool_decide_eq_true_2 _ Hpending). cbn [negb].
  rewrite Hpur.
  change (String.eqb "refund_approve" "refund_reject") with false. cbv iota.
  unfold date_field. rewrite Hpaid.
  rewrite (proj2 (Z.ltb_ge _ _) Hin).
  unfold try_catch, Ent.set_request, Ent.editReply, Ent.executeRefundInternal.
  rewrite bind_run, Hrun, bind_run, modify_run, bind_run, modify_run.
  unfold str_field at 1. rewrite Hprod. rewrite (truthy_Some' _ Nprod).
  rewrite bind_run, modify_run, emit_run.
  rewrite Hpg, Huid. cbn [default from_option].
  eexists. split; [reflexivity|].
  cbn [entitlements set_entitlements set_effects set_purchases set_refund_requests].
  fold q.
  assert (Hkeep : forall d,
            matches q (set_fields [("status", VStr "revoked"); ("revokedAt", VDate now);
                                   ("revokedBy", VStr REFUND_APPROVER_USER_ID)] d)
            = matches q d).
  { intros d. apply matches_set_fields. intros k Hk Hk'. cbn in Hk, Hk'.
    intuition congruence. }
  split; [|split].
  - intros e He. eexists. split.
    + apply findOne_updateOne_same; [exact He|].
      rewrite Hkeep. now destruct (findOne_Some _ _ _ He).
    + split; read_field.
  - intros Hnone. apply updateOne_none. now apply existsb_findOne_None.
  - unfold Ent.canStartCheckout, Ent.getEntitlement.
    rewrite !bind_run, get_run. cbn [mret M_ret].
    cbn [entitlements set_entitlements set_effects set_purchases set_refund_requests].
    fold q.
    destruct (findOne q (entitlements st)) as [e|] eqn:He.
    + rewrite (findOne_updateOne_same q _ _ e He)
        by (rewrite Hkeep; now destruct (findOne_Some _ _ _ He)).
      rewrite bool_decide_eq_false_2; [reflexivity|].
      unfold set_fields. cbn [fold_left fst snd].
      repeat (rewrite lookup_insert_ne by discriminate).
      rewrite lookup_insert_eq. discriminate.
    + rewrite updateOne_none by now apply existsb_findOne_None.
      now rewrite He.
Qed.

Lemma refund_reopens_checkout_witness :
  let st := Samples.store_of [Samples.purchase_paid_once]
              [Samples.request_pending]
              [set_fields [("planKey", VStr "one_time")] Samples.entitlement_lifetime] in
  let i := Samples.approver_click "refund_approve" "RR-1" in
  let E := Samples.world (Throw Samples.no_such) (Throw Samples.no_such)
             (Ok "re_1") in
  exists st',
    Ent.refund_button E Samples.HOUR i st = (Ok tt, st') /\
    Ent.canStartCheckout ALLOWED_GUILD_ID "42" Samples.a_product "monthly" false st' =
      (Ok {| Ent.ok := true; Ent.reason := None |}, st').
Proof.
  intros st i E.
  destruct (refund_reopens_checkout E Samples.HOUR i st "RR-1" "42"
              Samples.request_pending Samples.purchase_paid_once 0 (Some "re_1")
              Samples.a_product "monthly" false)
    as (st' & H1 & _ & _ & H4).
  - repeat split.
  - reflexivity.
  - reflexivity.
  - reflexivity.
  - reflexivity.
  - vm_compute. discriminate.
  - vm_compute. reflexivity.
  - reflexivity.
  - discriminate.
  - reflexivity.
  - exists st'. split; [exact H1 | exact H4].
Defined.

Module FlowFacts.
Import Mongo Service MongoFacts ServiceFacts UpsertFacts WebhookFacts.
Local Open Scope string_scope.

(** An insert that went through: no document on record matches a query
    on the fields of a checked index that the new document matches. *)
Lemma inserted_is_fresh ixs ix q d c c' :
  insertOne ixs d c = Some c' -> In ix ixs ->
  List.map fst q = index_fields ix -> q <> [] -> matches q d = true ->
  c' = (c ++ [d])%list /\ existsb (matches q) c = false.
Proof.
  unfold insertOne. intros H Hix Hf Hne Hm.
  destruct (existsb (fun ix => duplicate_key ix d c) ixs) eqn:Ex; [discriminate|].
  injection H as <-. split; [reflexivity|].
  assert (Hd : duplicate_key ix d c = false).
  { destruct (duplicate_key ix d c) eqn:Ed; [|reflexivity].
    rewrite <- Ex. symmetry. apply existsb_exists. eauto. }
  unfold duplicate_key in Hd. rewrite (index_key_of_match ix q d Hf Hne Hm) in Hd.
  apply not_true_iff_false. intros H. apply existsb_exists in H as (d' & Hin & Hd').
  assert (existsb (fun x => bool_decide (index_key ix x = Some (List.map snd q))) c
          = true).
  { apply existsb_exists. exists d'. split; [assumption|].
    apply bool_decide_eq_true. now apply index_key_of_match. }
  congruence.
Qed.

Lemma updateOne_app_fresh q u c d :
  existsb (matches q) c = false -> matches q d = true ->
  updateOne q u (c ++ [d]) = (c ++ [set_fields u d])%list.
Proof.
  intros H Hd. induction c as [|a c IH]; cbn [app updateOne existsb] in *.
  - now rewrite Hd.
  - apply orb_false_iff in H as [-> H]. f_equal. now apply IH.
Qed.

Lemma existsb_matches_weaken q q' c :
  existsb (matches q) c = false -> existsb (matches (q ++ q')) c = false.
Proof.
  intros H. apply not_true_iff_false. intros H'.
  apply existsb_exists in H' as (d & Hin & Hd).
  rewrite matches_app in Hd. apply andb_true_iff in Hd as [Hd _].
  assert (existsb (matches q) c = true) by (apply existsb_exists; eauto).
  congruence.
Qed.

Lemma existsb_app_last (f : doc -> bool) c d :
  f d = true -> existsb f (c ++ [d]) = true.
Proof. intros H. rewrite existsb_app. cbn. rewrite H. now rewrite orb_true_r. Qed.

End FlowFacts.

Import FlowFacts.

(** X23. A product checkout followed by the webhook of its session. When
    [createCheckoutSessionForProduct] succeeds for a purchase id, a user
    and a role that are not empty, and Stripe later delivers the completed
    session it created (same session id, the metadata that was sent) at a
    time when the subscription lookup of the session, if there is one, is
    answered and the guild and the member can be fetched, the webhook
    adds no row: the one row the checkout inserted becomes [paid], keeps
    the buyer, plan, role and price written at checkout, and the buyer is
    given the product's role. *)
Theorem product_purchase_flow (E1 E2 : env) (now1 now2 : Z) (req : request)
    (st st1 : state) (uid pid planKey url : string) (product : Product)
    (ses : session) :
  createCheckoutSessionForProduct E1 now1 ALLOWED_GUILD_ID uid product planKey pid st
    = (Ok url, st1) ->
  checkout_sessions_create E1
    (if String.eqb planKey "monthly" || String.eqb planKey "annual"
     then "subscription" else "payment")
    (product_metadata pid ALLOWED_GUILD_ID uid product planKey)
    = Ok (session_id ses, url) ->
  session_metadata ses =
    Some (list_to_map (product_metadata pid ALLOWED_GUILD_ID uid product planKey)) ->
  constructEvent E2 req = Ok (CheckoutSessionCompleted ses) ->
  lookup_ok E2 ses ->
  pid <> "" -> uid <> "" -> product_roleId product <> "" ->
  guilds_fetch E2 ALLOWED_GUILD_ID = true ->
  members_fetch E2 ALLOWED_GUILD_ID uid = true ->
  let st2 := (Shop.webhook E2 now2 req st1).2 in
  exists row,
    purchases st2 = (purchases st ++ [row])%list /\
    row !! "purchaseId" = Some (VStr pid) /\
    row !! "status" = Some (VStr "paid") /\
    row !! "paidAt" = Some (VDate now2) /\
    row !! "userId" = Some (VStr uid) /\
    row !! "planKey" = Some (VStr planKey) /\
    row !! "roleId" = Some (VStr (product_roleId product)) /\
    row !! "amountMinor" =
      Some (VNum (plan_amount (product_prices product) planKey)) /\
    In (RoleAdd ALLOWED_GUILD_ID uid (product_roleId product)
          ("Stripe paid: " ++ pid)) (effects st2).
Proof.
  intros Hcreate Hsid Hmeta Hev Hok Np Nu Nr Hgf Hmf st2.
  unfold createCheckoutSessionForProduct in Hcreate.
  destruct (makeLineItemForProduct product planKey) as [item|e] eqn:Eitem;
    [|discriminate].
  rewrite bind_run, call_run, Hsid, bind_run, get_run in Hcreate.
  cbn [purchases set_effects fst snd] in Hcreate.
  lazymatch type of Hcreate with
  | context [insertOne purchase_indexes ?d (purchases st)] => set (row0 := d) in *
  end.
  destruct (insertOne purchase_indexes row0 (purchases st)) as [c1|] eqn:Eins;
    cbn [store] in Hcreate; [|discriminate].
  rewrite bind_run, modify_run in Hcreate. cbn [mret M_ret] in Hcreate.
  injection Hcreate as <-.
  assert (Hr0p : row0 !! "purchaseId" = Some (VStr pid)) by (subst row0; read_field).
  assert (Hr0s : row0 !! "stripeSessionId" = Some (VStr (session_id ses)))
    by (subst row0; read_field).
  destruct (inserted_is_fresh purchase_indexes
              {| index_fields := ["purchaseId"]; index_sparse := false |}
              [("purchaseId", VStr pid)] row0 (purchases st) c1 Eins
              ltac:(now left) eq_refl ltac:(discriminate)) as [-> Hfresh].
  { unfold matches. cbn [forallb fst snd]. rewrite Hr0p.
    now rewrite bool_decide_eq_true_2. }
  assert (Hboth : matches [("purchaseId", VStr pid);
                           ("stripeSessionId", VStr (session_id ses))] row0 = true).
  { unfold matches. cbn [forallb fst snd]. rewrite Hr0p, Hr0s.
    now rewrite !bool_decide_eq_true_2. }
  assert (Hm : forall k v,
            In (k, v) (product_metadata pid ALLOWED_GUILD_ID uid product planKey) ->
            default ∅ (session_metadata ses) !! k = Some v).
  { rewrite Hmeta. unfold from_option, id. unfold product_metadata.
    intros k v Hin. cbn [list_to_map foldr fst snd uncurry].
    cbn [In] in Hin.
    repeat (destruct Hin as [[= <- <-]|Hin];
            [repeat (rewrite lookup_insert_ne by discriminate);
             apply lookup_insert_eq|]).
    destruct Hin. }
  set (s1 := set_purchases (purchases st ++ [row0])%list _) in *.
  destruct (side_data_run E2 ses s1 Hok) as ([[a b] c] & l & Hrun).
  exists (set_fields
            (Shop.paid_fields now2 (or_null (session_payment_intent ses))
               (or_null (session_subscription ses)) a b c) row0).
  assert (Hfin :
    purchases st2 =
      (purchases st ++
       [set_fields
          (Shop.paid_fields now2 (or_null (session_payment_intent ses))
             (or_null (session_subscription ses)) a b c) row0])%list /\
    In (RoleAdd ALLOWED_GUILD_ID uid (product_roleId product)
          ("Stripe paid: " ++ pid)) (effects st2)).
  { subst st2. unfold Shop.webhook. rewrite Hev, try_catch_const_state.
    unfold Shop.checkout_session_completed.
    rewrite (Hm "purchase_id" pid), (Hm "guild_id" ALLOWED_GUILD_ID),
      (Hm "user_id" uid), (Hm "type" "product"),
      (Hm "role_id" (product_roleId product))
      by (unfold product_metadata; cbn [In]; tauto).
    rewrite !truthy_Some by (assumption || discriminate).
    rewrite (truthy_Some' _ Nr).
    rewrite !String.eqb_refl. cbn [negb andb].
    rewrite bind_run, Hrun, bind_run, get_run.
    cbn [purchases set_effects set_purchases].
    change (purchases s1) with (purchases st ++ [row0])%list.
    rewrite (existsb_app_last _ _ _ Hboth).
    rewrite bind_run, modify_run. rewrite Hgf. cbn [negb].
    rewrite updateOne_app_fresh;
      [| exact (existsb_matches_weaken [("purchaseId", VStr pid)] _ _ Hfresh)
       | exact Hboth ].
    unfold Shop.grant_role. rewrite Hmf.
    rewrite bind_run, try_catch_run. unfold check. rewrite call_run.
    assert (Htail : forall (tail : M response) s0,
              respects keeps_purchases tail ->
              respects (logs (fun _ => True)) tail ->
              In (RoleAdd ALLOWED_GUILD_ID uid (product_roleId product)
                    ("Stripe paid: " ++ pid)) (effects s0) ->
              purchases (tail s0).2 = purchases s0 /\
              In (RoleAdd ALLOWED_GUILD_ID uid (product_roleId product)
                    ("Stripe paid: " ++ pid)) (effects (tail s0).2)).
    { intros tail s0 Hk Hl Hin0. split; [apply Hk|].
      destruct (Hl s0) as (l' & -> & _). apply in_app_iff. now left. }
    lazymatch goal with
    | |- context [match (if roles_add ?E ?g ?u ?r then _ else _) with _ => _ end] =>
        destruct (roles_add E g u r)
    end;
      cbn [mret M_ret];
      lazymatch goal with
      | |- purchases (?tail ?s0).2 = _ /\ _ =>
          destruct (Htail tail s0) as [Hpk Hink];
          [ keeps_purchases_tail
          | pose proof (logs_tolerates (fun _ => True)) as T;
            repeat first
              [ respects_step
              | apply (respects_Shop_log _ _ T)
              | apply (respects_Shop_thanks _ _ T) ]; auto
          | cbn [effects set_effects set_purchases];
            apply in_app_iff; right; now left
          | rewrite Hpk; cbn [purchases set_purchases set_effects];
            split; [reflexivity | exact Hink] ]
      end. }
  destruct Hfin as [Hpur Hin]. split; [exact Hpur|].
  repeat (split; [subst row0; read_field|]). exact Hin.
Qed.

Lemma product_purchase_flow_witness :
  let ses := {| session_id := "cs_test_1";
                session_metadata :=
                  Some (list_to_map
                          (product_metadata "VT-1" ALLOWED_GUILD_ID "42"
                             Samples.a_product "monthly"));
                session_payment_intent := None;
                session_subscription := Some "sub_1" |} in
  let E := Samples.world (Ok (CheckoutSessionCompleted ses))
             (Ok Samples.a_subscription) (Throw Samples.no_such) in
  let st := Samples.store_of [] [] [] in
  let st1 := (createCheckoutSessionForProduct E 1 ALLOWED_GUILD_ID "42"
                Samples.a_product "monthly" "VT-1" st).2 in
  exists row,
    purchases (Shop.webhook E 2 Samples.a_request st1).2 = [row] /\
    row !! "status" = Some (VStr "paid") /\
    row !! "roleId" = Some (VStr "role-9").
Proof.
  intros ses E st st1.
  pose (r := createCheckoutSessionForProduct E 1 ALLOWED_GUILD_ID "42"
               Samples.a_product "monthly" "VT-1" st).
  assert (H1 : r.1 = Ok "https://checkout.test/1") by (vm_compute; reflexivity).
  assert (Hc : r = (Ok "https://checkout.test/1", st1)).
  { subst st1. fold r. rewrite <- H1. now destruct r. }
  assert (Hok : lookup_ok E ses).
  { intros id H. exists Samples.a_subscription. reflexivity. }
  destruct (product_purchase_flow E E 1 2 Samples.a_request st st1 "42" "VT-1"
              "monthly" "https://checkout.test/1" Samples.a_product ses
              Hc eq_refl eq_refl eq_refl Hok
              ltac:(discriminate) ltac:(discriminate) ltac:(discriminate)
              eq_refl eq_refl)
    as (row & Hp & _ & Hs & _ & _ & _ & Hr & _).
  exists row. split; [exact Hp|]. split; [exact Hs|exact Hr].
Defined.

(** X24. [/donate] asks Stripe for a checkout only in the allowed guild
    and only when the amount option parses to at least 100 minor units; in
    that case it asks exactly for a one-off payment of the parsed amount,
    with the donation metadata. The only row it can add to the purchases is
    a [created] donation of that amount, under the purchase id of the run
    and the id of the session that Stripe returned; when Stripe refuses
    the checkout, no row is added. *)
Theorem donate_minimum (E : env) (now : Z) (c : command) (amountRaw : jsstring)
    (pid : string) (st : state) :
  let r := donate_command E now c amountRaw pid st in
  let metadata amt :=
    Shop.donation_metadata pid ALLOWED_GUILD_ID (c_user c) amt in
  let wanted amt := StripeCheckoutCreate "payment" (metadata amt) amt in
  exists l,
    effects r.2 = (effects st ++ l)%list /\
    (forall mode meta amt, In (StripeCheckoutCreate mode meta amt) l ->
       c_guild c = Some ALLOWED_GUILD_ID /\
       amountToMinorUnits amountRaw = Some amt /\ (100 <= amt)%N /\
       StripeCheckoutCreate mode meta amt = wanted amt) /\
    (forall amt, c_guild c = Some ALLOWED_GUILD_ID ->
       amountToMinorUnits amountRaw = Some amt -> (100 <= amt)%N ->
       In (wanted amt) l) /\
    (purchases r.2 = purchases st \/
     exists row amt sid url,
       purchases r.2 = (purchases st ++ [row])%list /\
       amountToMinorUnits amountRaw = Some amt /\ (100 <= amt)%N /\
       checkout_sessions_create E "payment" (metadata amt) = Ok (sid, url) /\
       row !! "purchaseId" = Some (VStr pid) /\
       row !! "stripeSessionId" = Some (VStr sid) /\
       row !! "userId" = Some (VStr (c_user c)) /\
       row !! "type" = Some (VStr "donation") /\
       row !! "amountMinor" = Some (VNum amt) /\
       row !! "status" = Some (VStr "created")).
Proof.
  intros r metadata wanted. subst r.
  unfold donate_command, guarded, ensureAllowedGuild.
  rewrite try_catch_run, bind_run.
  destruct (bool_decide (c_guild c = Some ALLOWED_GUILD_ID)) eqn:Eg; cbn [negb].
  2:{ apply bool_decide_eq_false in Eg.
      eexists [_]. rewrite bind_run. unfold reply. rewrite emit_run.
      cbn [mret M_ret negb fst snd effects set_effects purchases].
      split; [reflexivity|].
      split; [intros mode meta amt [H|[]]; discriminate H|].
      split; [intros amt H; contradiction | now left]. }
  apply bool_decide_eq_true in Eg. cbn [mret M_ret negb].
  destruct (amountToMinorUnits amountRaw) as [minor|] eqn:Ea.
  2:{ eexists [_]. unfold reply. rewrite emit_run.
      cbn [fst snd effects set_effects purchases].
      split; [reflexivity|].
      split; [intros mode meta amt [H|[]]; discriminate H|].
      split; [intros amt _ H; discriminate H | now left]. }
  destruct (minor =? 0)%N eqn:E0.
  { eexists [_]. unfold reply. rewrite emit_run.
    cbn [fst snd effects set_effects purchases]. apply N.eqb_eq in E0.
    split; [reflexivity|].
    split; [intros mode meta amt [H|[]]; discriminate H|].
    split; [intros amt _ [= <-] H; lia | now left]. }
  destruct (minor <? 100)%N eqn:Elt.
  { eexists [_]. unfold reply. rewrite emit_run.
    cbn [fst snd effects set_effects purchases]. apply N.ltb_lt in Elt.
    split; [reflexivity|].
    split; [intros mode meta amt [H|[]]; discriminate H|].
    split; [intros amt _ [= <-] H; lia | now left]. }
  apply N.ltb_ge in Elt.
  unfold Shop.createCheckoutSessionForDonation.
  rewrite !bind_run, call_run.
  destruct (checkout_sessions_create E "payment" _) as [[sid url]|e] eqn:Ec.
  2:{ eexists [_; _]. unfold reply. rewrite emit_run.
      cbn [fst snd effects set_effects purchases]. rewrite <- app_assoc.
      split; [reflexivity|].
      split.
      { intros mode meta amt [H|[H|[]]]; [|discriminate H].
        injection H as <- <- <-. now repeat split. }
      split; [intros amt _ [= <-] _; now left | now left]. }
  rewrite bind_run, get_run. cbn [purchases set_effects].
  lazymatch goal with
  | |- context [insertOne purchase_indexes ?d (purchases st)] => set (row := d)
  end.
  destruct (insertOne purchase_indexes row (purchases st)) as [c1|] eqn:Eins;
    cbn [store].
  2:{ rewrite bind_run. unfold throw. eexists [_; _]. unfold reply.
      rewrite emit_run.
      cbn [fst snd effects set_effects purchases]. rewrite <- app_assoc.
      split; [reflexivity|].
      split.
      { intros mode meta amt [H|[H|[]]]; [|discriminate H].
        injection H as <- <- <-. now repeat split. }
      split; [intros amt _ [= <-] _; now left | now left]. }
  rewrite bind_run, modify_run. cbn [mret M_ret]. unfold reply.
  rewrite emit_run. eexists [_; _].
  cbn [fst snd effects set_effects set_purchases purchases]. rewrite <- app_assoc.
  split; [reflexivity|].
  split.
  { intros mode meta amt [H|[H|[]]]; [|discriminate H].
    injection H as <- <- <-. now repeat split. }
  split; [intros amt _ [= <-] _; now left |].
  right. exists row, minor, sid, url.
  unfold insertOne in Eins.
  destruct (existsb _ purchase_indexes); [discriminate|]. injection Eins as <-.
  split; [reflexivity|]. split; [reflexivity|]. split; [exact Elt|].
  split; [exact Ec|].
  repeat (split; [subst row; read_field|]). subst row; read_field.
Qed.

(** X25. the two settings commands need an administrator of the allowed
    guild. For anyone else they answer with one refusal and change
    nothing: the configuration and every other collection stay as they
    were. *)
Theorem settings_need_admin (now : Z) (c : command)
    (ch : string * bool) (role : string) (st : state) :
  c_guild c <> Some ALLOWED_GUILD_ID \/ c_admin c = false ->
  exists msg,
    setthankschannel_command now c ch st =
      (Ok tt, set_effects (effects st ++ [Interaction "reply" msg]) st) /\
    setsupportrole_command now c role st =
      (Ok tt, set_effects (effects st ++ [Interaction "reply" msg]) st).
Proof.
  intros H.
  unfold setthankschannel_command, setsupportrole_command, guarded,
    ensureAllowedGuild, requireAdmin.
  rewrite !try_catch_run, !bind_run.
  destruct (bool_decide (c_guild c = Some ALLOWED_GUILD_ID)) eqn:Eg; cbn [negb].
  - apply bool_decide_eq_true in Eg. destruct H as [H|H]; [contradiction|].
    rewrite H. cbn [negb mret M_ret]. rewrite !bind_run. unfold reply.
    rewrite emit_run. cbn [negb mret M_ret]. eexists. split; reflexivity.
  - rewrite bind_run. unfold reply. rewrite emit_run. cbn [negb mret M_ret].
    eexists. split; reflexivity.
Qed.

Lemma settings_need_admin_witness :
  let c := {| c_guild := Some ALLOWED_GUILD_ID; c_user := "42"; c_admin := false |} in
  let st := Samples.store_of [] [] [] in
  exists msg,
    setthankschannel_command 1 c ("ch-1", true) st =
      (Ok tt, set_effects (effects st ++ [Interaction "reply" msg]) st) /\
    setsupportrole_command 1 c "role-1" st =
      (Ok tt, set_effects (effects st ++ [Interaction "reply" msg]) st).
Proof.
  intros c st.
  apply (settings_need_admin 1 c ("ch-1", true) "role-1" st).
  right. reflexivity.
Defined.

(** X26. once an administrator of the allowed guild has run
    [/setthankschannel] with a text channel, a purchase is thanked in
    that channel: as long as the channel can still be fetched as a text
    channel, [sendThanksIfConfigured] sends its message there and does
    nothing else. *)
Theorem thanks_channel_takes_effect (E : env) (now : Z) (c : command)
    (ch : string * bool) (u p : string) (st : state) :
  c_guild c = Some ALLOWED_GUILD_ID -> c_admin c = true ->
  ch.2 = true -> ch.1 <> "" ->
  channels_fetch E ALLOWED_GUILD_ID ch.1 = Some true ->
  let st1 := (setthankschannel_command now c ch st).2 in
  Shop.sendThanksIfConfigured E ALLOWED_GUILD_ID u p st1 =
    (Ok tt, set_effects (effects st1 ++ [ChannelSend ch.1 (ThankYou u p)]) st1).
Proof.
  intros Hg Ha Ht Hne Hf st1.
  assert (Hcfg : exists d, findOne [("guildId", VStr ALLOWED_GUILD_ID)]
                             (shop_config st1) = Some d /\
                           d !! "thanksChannelId" = Some (VStr ch.1)).
  { subst st1.
    unfold setthankschannel_command, guarded, ensureAllowedGuild, requireAdmin.
    rewrite try_catch_run, bind_run.
    rewrite (bool_decide_eq_true_2 _ Hg), Ha, Ht. cbn [negb mret M_ret].
    rewrite !bind_run. cbn [negb mret M_ret].
    destruct (config_upsert ALLOWED_GUILD_ID
                ([("thanksChannelId", VStr ch.1)] ++ [("updatedAt", VDate now)])%list
                (shop_config st)) as (c' & Hup & Hfind & _).
    { cbn [app List.map fst]. intros [H|[H|[]]]; discriminate H. }
    unfold Shop.upsertConfig.
    rewrite !bind_run, get_run, Hup. cbn [store]. rewrite modify_run.
    unfold reply. rewrite emit_run. cbn [snd shop_config set_effects set_shop_config].
    eexists. split; [exact Hfind|].
    apply set_fields_lookup_in; [|now left].
    cbn [app List.map fst]. apply NoDup_cons. split; [|apply NoDup_singleton].
    rewrite list_elem_of_In. intros [H|[]]. discriminate H. }
  destruct Hcfg as (d & Hfind & Hd).
  unfold Shop.sendThanksIfConfigured, Shop.getConfig.
  rewrite !bind_run, get_run. cbn [mret M_ret]. rewrite Hfind.
  cbn [mbind option_bind]. unfold str_field at 1. rewrite Hd.
  rewrite (truthy_Some' _ Hne), Hf. apply emit_run.
Qed.

Lemma thanks_channel_takes_effect_witness :
  let c := {| c_guild := Some ALLOWED_GUILD_ID; c_user := "7"; c_admin := true |} in
  let E := Samples.world (Throw Samples.no_such) (Throw Samples.no_such)
             (Throw Samples.no_such) in
  let st1 := (setthankschannel_command 1 c ("ch-1", true)
                (Samples.store_of [] [] [])).2 in
  Shop.sendThanksIfConfigured E ALLOWED_GUILD_ID "42" "VT-1" st1 =
    (Ok tt, set_effects (effects st1 ++ [ChannelSend "ch-1" (ThankYou "42" "VT-1")]) st1).
Proof.
  intros c E st1.
  apply (thanks_channel_takes_effect E 1 c ("ch-1", true) "42" "VT-1"
           (Samples.store_of [] [] []));
    [reflexivity | reflexivity | reflexivity | discriminate | reflexivity].
Defined.

Module TicketFacts.
Import Mongo Service MongoFacts ServiceFacts UpsertFacts.
Local Open Scope string_scope.

Lemma filter_no_match (f : doc -> bool) c :
  forallb (fun x => negb (f x)) c = true -> List.filter f c = [].
Proof.
  induction c as [|a c IH]; [reflexivity|]. cbn [forallb List.filter].
  intros H. apply andb_true_iff in H as [Ha H]. apply negb_true_iff in Ha.
  rewrite Ha. now apply IH.
Qed.

Lemma filter_findOne_None q c :
  findOne q c = None -> List.filter (matches q) c = [].
Proof.
  unfold findOne. induction c as [|a c IH]; [reflexivity|].
  cbn [List.find List.filter]. destruct (matches q a); [discriminate | exact IH].
Qed.

(** With at most one match, the match that [findOne] returns is the only
    one, and [updateOne] rewrites it. *)
Lemma filter_single q c d :
  findOne q c = Some d -> (length (List.filter (matches q) c) <= 1)%nat ->
  exists c1 c2, c = (c1 ++ d :: c2)%list /\ matches q d = true /\
    List.filter (matches q) c1 = [] /\ List.filter (matches q) c2 = [] /\
    forall u, updateOne q u c = (c1 ++ set_fields u d :: c2)%list.
Proof.
  intros Hf Hlen. destruct (findOne_split _ _ _ Hf) as (c1 & c2 & -> & H1 & Hd).
  exists c1, c2. split; [reflexivity|]. split; [exact Hd|].
  pose proof (filter_no_match _ _ H1) as Hc1. split; [exact Hc1|].
  rewrite List.filter_app, Hc1 in Hlen. cbn [app List.filter] in Hlen.
  rewrite Hd in Hlen. cbn [length] in Hlen.
  split; [|intros u; now apply updateOne_split].
  destruct (List.filter (matches q) c2); [reflexivity | cbn in Hlen; lia].
Qed.

Lemma filter_updateOne_other q q' u c :
  (forall d, matches q d = true ->
     matches q' d = false /\ matches q' (set_fields u d) = false) ->
  List.filter (matches q') (updateOne q u c) = List.filter (matches q') c.
Proof.
  intros H. induction c as [|a c IH]; [reflexivity|]. cbn [updateOne].
  destruct (matches q a) eqn:Ea; cbn [List.filter].
  - destruct (H a Ea) as [-> ->]. reflexivity.
  - now rewrite IH.
Qed.

Lemma insertOne_Some ixs d c c' :
  insertOne ixs d c = Some c' -> c' = (c ++ [d])%list.
Proof.
  unfold insertOne. destruct (existsb _ ixs); [discriminate|]. now intros [= <-].
Qed.

End TicketFacts.

Import TicketFacts.

(** X27. a user has one open ticket. If the tickets hold at most one open
    ticket of the user in the guild, and it names its channel, then after
    [createOrGetTicketChannel] has returned a channel the user has exactly
    one open ticket, it names the returned channel, and the open tickets
    of every other user or guild are the ones from before. *)
Theorem ticket_single_open (E : env) (now : Z) (g u ch : string) (st st' : state) :
  (length (List.filter (matches (open_ticket g u)) (tickets st)) <= 1)%nat ->
  (forall d, In d (tickets st) -> matches (open_ticket g u) d = true ->
     truthy (str_field "channelId" d) = true) ->
  createOrGetTicketChannel E now g u st = (Ok ch, st') ->
  (exists d,
     List.filter (matches (open_ticket g u)) (tickets st') = [d] /\
     d !! "channelId" = Some (VStr ch)) /\
  (forall g' u', (g', u') <> (g, u) ->
     List.filter (matches (open_ticket g' u')) (tickets st') =
     List.filter (matches (open_ticket g' u')) (tickets st)).
Proof.
  intros Hlen Hnamed Hrun.
  assert (Hother : forall g' u' d, (g', u') <> (g, u) ->
            d !! "guildId" = Some (VStr g) -> d !! "userId" = Some (VStr u) ->
            matches (open_ticket g' u') d = false).
  { intros g' u' d Hne Hg Hu. unfold matches, open_ticket. cbn [forallb fst snd].
    rewrite Hg, Hu. destruct (decide (g' = g)) as [->|Ng].
    - destruct (decide (u' = u)) as [->|Nu]; [congruence|].
      rewrite (bool_decide_eq_false_2 (Some (VStr u) = Some (VStr u')))
        by congruence.
      now rewrite andb_false_r.
    - rewrite (bool_decide_eq_false_2 (Some (VStr g) = Some (VStr g')))
        by congruence.
      reflexivity. }
  assert (Hfields : forall d, matches (open_ticket g u) d = true ->
            d !! "guildId" = Some (VStr g) /\ d !! "userId" = Some (VStr u)).
  { intros d Hm. unfold matches, open_ticket in Hm. cbn [forallb fst snd] in Hm.
    apply andb_true_iff in Hm as [Hg Hm]. apply andb_true_iff in Hm as [Hu _].
    apply bool_decide_eq_true in Hg, Hu. now split. }
  (* what creating a fresh ticket does, from a state without open ticket *)
  assert (Hnew : forall s,
            List.filter (matches (open_ticket g u)) (tickets s) = [] ->
            (let fresh :=
               cfg ← Shop.getConfig g;
               category ← ensureTicketsCategory E g;
               ch ← call (ChannelCreate g ("ticket-" ++ u))
                      (channels_create E g ("ticket-" ++ u));
               s ← get;
               store (insertOne ticket_indexes
                        (set_fields
                           [ ("guildId", VStr g); ("channelId", VStr ch);
                             ("userId", VStr u); ("status", VStr "open");
                             ("createdAt", VDate now) ] ∅)
                        (tickets s))
                     set_tickets;;
               mret ch in
             fresh s = (Ok ch, st')) ->
            (exists d,
               List.filter (matches (open_ticket g u)) (tickets st') = [d] /\
               d !! "channelId" = Some (VStr ch)) /\
            (forall g' u', (g', u') <> (g, u) ->
               List.filter (matches (open_ticket g' u')) (tickets st') =
               List.filter (matches (open_ticket g' u')) (tickets s))).
  { intros s Hnone Hfresh. cbn zeta in Hfresh.
    unfold Shop.getConfig, ensureTicketsCategory in Hfresh.
    rewrite !bind_run, get_run in Hfresh. cbn [mret M_ret] in Hfresh.
    rewrite !bind_run in Hfresh.
    destruct (match channels_cache_find E g "vivid-tickets" with
              | Some existing => mret existing
              | None => call (ChannelCreate g "vivid-tickets")
                          (channels_create E g "vivid-tickets")
              end s) as [[cat|e] s1] eqn:Ecat; [|discriminate].
    assert (Hs1 : tickets s1 = tickets s).
    { destruct (channels_cache_find E g "vivid-tickets").
      - now injection Ecat as _ <-.
      - rewrite call_run in Ecat. now injection Ecat as _ <-. }
    rewrite bind_run, call_run in Hfresh.
    destruct (channels_create E g ("ticket-" ++ u)) as [ch'|e]; [|discriminate].
    rewrite bind_run, get_run in Hfresh. cbn [tickets set_effects] in Hfresh.
    lazymatch type of Hfresh with
    | context [insertOne ticket_indexes ?d (tickets s1)] => set (row := d) in *
    end.
    destruct (insertOne ticket_indexes row (tickets s1)) as [c1|] eqn:Eins;
      cbn [store] in Hfresh; [|discriminate].
    rewrite bind_run, modify_run in Hfresh. cbn [mret M_ret] in Hfresh.
    injection Hfresh as <- <-. cbn [tickets set_tickets].
    apply insertOne_Some in Eins as ->. rewrite Hs1.
    assert (Hrow : matches (open_ticket g u) row = true).
    { unfold matches, open_ticket. cbn [forallb fst snd].
      rewrite !bool_decide_eq_true_2; [reflexivity | subst row; read_field ..]. }
    split.
    - exists row. rewrite List.filter_app, Hnone. cbn [app List.filter].
      rewrite Hrow. split; [reflexivity | subst row; read_field].
    - intros g' u' Hne. rewrite List.filter_app. cbn [List.filter].
      rewrite (Hother g' u' row Hne) by (subst row; read_field).
      apply app_nil_r. }
  unfold createOrGetTicketChannel in Hrun.
  rewrite bind_run, get_run, bind_run in Hrun.
  destruct (findOne (open_ticket g u) (tickets st)) as [d|] eqn:Ef.
  2:{ cbn [mbind option_bind or_null truthy mret M_ret] in Hrun.
      apply (Hnew st); [now apply filter_findOne_None | exact Hrun]. }
  destruct (filter_single _ _ _ Ef Hlen) as (c1 & c2 & Hc & Hd & Hc1 & Hc2 & Hupd).
  assert (Hin : In d (tickets st)).
  { rewrite Hc. apply in_app_iff. right. now left. }
  specialize (Hnamed d Hin Hd). cbn [mbind option_bind] in Hrun.
  unfold or_null in Hrun. rewrite Hnamed in Hrun.
  destruct (str_field "channelId" d) as [cid|] eqn:Ecid; [|discriminate].
  assert (Hcid : d !! "channelId" = Some (VStr cid)).
  { unfold str_field in Ecid. destruct (d !! "channelId") as [[]|]; congruence. }
  assert (Hstale : matches (open_ticket g u)
                     (set_fields [("status", VStr "stale"); ("staleAt", VDate now)] d)
                   = false).
  { unfold matches, open_ticket. cbn [forallb fst snd].
    rewrite (bool_decide_eq_false_2
               (set_fields [("status", VStr "stale"); ("staleAt", VDate now)] d
                  !! "status" = Some (VStr "open"))).
    - now rewrite !andb_false_r.
    - replace (set_fields [("status", VStr "stale"); ("staleAt", VDate now)] d
                 !! "status") with (Some (VStr "stale")); [discriminate|].
      symmetry. read_field. }
  destruct (channels_fetch E g cid) as [[|]|] eqn:Efetch.
  1:{ cbn [mret M_ret] in Hrun. injection Hrun as <- <-.
      split; [|reflexivity]. exists d. split; [|exact Hcid].
      rewrite Hc, List.filter_app, Hc1. cbn [app List.filter].
      now rewrite Hd, Hc2. }
  all: rewrite bind_run, modify_run in Hrun; cbn [mret M_ret] in Hrun;
    apply Hnew in Hrun;
    [ destruct Hrun as [H1 H2]; split; [exact H1|];
      intros g' u' Hne; rewrite (H2 g' u' Hne); cbn [tickets set_tickets];
      apply filter_updateOne_other; intros d' Hd';
      destruct (Hfields d' Hd') as [Hg' Hu']; split; apply Hother; try assumption;
      rewrite set_fields_lookup_other; try assumption;
      cbn [List.map fst In]; intros [H|[H|[]]]; discriminate H
    | cbn [tickets set_tickets]; rewrite Hupd, List.filter_app, Hc1;
      cbn [app List.filter]; rewrite Hstale, Hc2; reflexivity ].
Qed.

Lemma ticket_single_open_witness :
  let E := Samples.world (Throw Samples.no_such) (Throw Samples.no_such)
             (Throw Samples.no_such) in
  let t := set_fields [("guildId", VStr ALLOWED_GUILD_ID); ("channelId", VStr "chan-5");
                       ("userId", VStr "42"); ("status", VStr "open");
                       ("createdAt", VDate 0)] ∅ in
  let st := set_tickets [t] (Samples.store_of [] [] []) in
  let st' := (createOrGetTicketChannel E 1 ALLOWED_GUILD_ID "42" st).2 in
  exists d,
    List.filter (matches (open_ticket ALLOWED_GUILD_ID "42")) (tickets st') = [d] /\
    d !! "channelId" = Some (VStr "chan-5").
Proof.
  intros E t st st'.
  pose (r := createOrGetTicketChannel E 1 ALLOWED_GUILD_ID "42" st).
  assert (H1 : r.1 = Ok "chan-5") by (vm_compute; reflexivity).
  assert (Hr : r = (Ok "chan-5", st')).
  { subst st'. fold r. rewrite <- H1. now destruct r. }
  assert (Hlen : (length (List.filter (matches (open_ticket ALLOWED_GUILD_ID "42"))
                            (tickets st)) <= 1)%nat)
    by (vm_compute; lia).
  assert (Hnamed : forall d, In d (tickets st) ->
            matches (open_ticket ALLOWED_GUILD_ID "42") d = true ->
            truthy (str_field "channelId" d) = true).
  { intros d [<-|[]] _. vm_compute. reflexivity. }
  exact (proj1 (ticket_single_open E 1 ALLOWED_GUILD_ID "42" "chan-5" st st'
                  Hlen Hnamed Hr)).
Defined.

(** X28. the purchase and upgrade buttons of a ticket, as the button
    handlers read them. No action row is empty or longer than five
    buttons. The id of every button splits at its colons into the kind
    ([buy] or [upgrade]), the product id and a plan key; the plan is one of
    the known keys and is priced on the product, and an upgrade button
    names [monthly] or [annual] only. *)
Theorem offered_buttons_parse_back (product : Product) (row : list Button)
    (b : Button) :
  split_colon (product_id product) = [product_id product] ->
  In row (EntUi.planButtons product ++ EntUi.upgradeButtons product)%list ->
  (1 <= length row <= 5)%nat /\
  (In b row ->
     exists kind k,
       (kind = "buy" \/ kind = "upgrade" /\ (k = "monthly" \/ k = "annual")) /\
       String.prefix (kind ++ ":") (b_customId b) = true /\
       split_colon (b_customId b) = [kind; product_id product; k] /\
       In k PLAN_KEYS /\
       plan_amount_truthy (product_prices product) k = true).
Proof.
  intros Hid Hrow.
  assert (Hparse : forall kind k, kind = "buy" \/ kind = "upgrade" ->
            In k PLAN_KEYS ->
            String.prefix (kind ++ ":") (kind ++ ":" ++ product_id product ++ ":" ++ k)
              = true /\
            split_colon (kind ++ ":" ++ product_id product ++ ":" ++ k)
              = [kind; product_id product; k]).
  { intros kind k Hkind Hk. split.
    - destruct Hkind as [->| ->];
        [ exact (prefix_app "buy:" _) | exact (prefix_app "upgrade:" _) ].
    - rewrite split_colon_app by (destruct Hkind as [->| ->]; reflexivity).
      rewrite split_colon_app by assumption.
      now rewrite plan_key_no_colon. }
  apply in_app_iff in Hrow as [Hrow|Hrow].
  - unfold EntUi.planButtons in Hrow.
    destruct (Nat.eqb (length (enabledPlans (product_prices product))) 0) eqn:El;
      [destruct Hrow|].
    apply Nat.eqb_neq in El. destruct Hrow as [<-|[]]. rewrite fold_snoc. cbn [app].
    split.
    + rewrite length_map.
      pose proof (enabledPlans_length (product_prices product)). lia.
    + intros Hb. apply in_map_iff in Hb as (k & <- & Hk).
      apply enabledPlans_In in Hk as [Hk Ht]. exists "buy", k. cbn [b_customId].
      split; [now left|].
      destruct (Hparse "buy" k (or_introl eq_refl) Hk) as [H1 H2].
      split; [exact H1|]. split; [exact H2|]. now split.
  - unfold EntUi.upgradeButtons in Hrow.
    assert (Hm : In "monthly" PLAN_KEYS) by (cbn; tauto).
    assert (Ha : In "annual" PLAN_KEYS) by (cbn; tauto).
    destruct (Hparse "upgrade" "monthly" (or_intror eq_refl) Hm) as [Hm1 Hm2].
    destruct (Hparse "upgrade" "annual" (or_intror eq_refl) Ha) as [Ha1 Ha2].
    destruct (plan_amount_truthy (product_prices product) "monthly") eqn:Em;
      destruct (plan_amount_truthy (product_prices product) "annual") eqn:Ea;
      cbn [app In] in Hrow; try contradiction; destruct Hrow as [<-|[]];
      (split; [cbn [length]; lia|]); cbn [In];
      intros Hb;
      repeat (destruct Hb as [<-|Hb];
              [ first
                  [ exists "upgrade", "monthly"; cbn [b_customId];
                    split; [right; split; [reflexivity|now left]|];
                    split; [exact Hm1|]; split; [exact Hm2|];
                    split; [exact Hm | exact Em]
                  | exists "upgrade", "annual"; cbn [b_customId];
                    split; [right; split; [reflexivity|now right]|];
                    split; [exact Ha1|]; split; [exact Ha2|];
                    split; [exact Ha | exact Ea] ] |]);
      destruct Hb.
Qed.

Lemma offered_buttons_parse_back_witness :
  exists k,
    split_colon "buy:p1:monthly" = ["buy"; "p1"; k] /\ In k PLAN_KEYS.
Proof.
  pose (b := {| b_customId := "buy:p1:monthly"; b_style := Success;
                b_label := (plan_label "monthly" ++ SPACE
                             :: Ent.minorToDisplay 499)%list |}).
  destruct (offered_buttons_parse_back Samples.a_product [b] b eq_refl)
    as (_ & H); [vm_compute; left; reflexivity|].
  destruct (H (or_introl eq_refl)) as (kind & k & _ & _ & Hs & Hk & _).
  exists k. cbn [b_customId b] in Hs. injection Hs as <- <-.
  split; [reflexivity | exact Hk].
Defined.
